(** * GraphQL-over-HTTP protocol layer of strawberry

    A shallow embedding of the two request orchestrators of the repository,

      - [strawberry/http/base_view.py]  (class [BaseHTTPView], synchronous),
      - [strawberry/asgi/handlers/http_handler.py]  (class [HTTPHandler],
        asynchronous, on top of starlette),

    together with the properties their specification states about them.

    Python exceptions are an explicit error type, the calls to collaborators
    and the decision points of an orchestrator are recorded in a trace, and
    the object the context builder may mutate (the sub-response) is threaded
    through the calls that share it. *)

From Stdlib Require Import ZArith Strings.Byte Ascii String.
From stdpp Require Import base option list gmap strings pretty.

Open Scope Z_scope.
Open Scope string_scope.
Open Scope list_scope.

(** ** Strings as Python uses them *)

Module Str.

(** [c.lower()] on one ASCII character. HTTP methods and media types are
    ASCII tokens. *)
Definition lower_ascii (c : ascii) : ascii :=
  let n := Ascii.nat_of_ascii c in
  if ((65 <=? n)%nat && (n <=? 90)%nat)%bool
  then Ascii.ascii_of_nat (n + 32) else c.

(** [s.lower()] *)
Fixpoint lower (s : string) : string :=
  match s with
  | EmptyString => EmptyString
  | String c s' => String (lower_ascii c) (lower s')
  end.

(** [s.startswith(p)] *)
Fixpoint startswith (s p : string) : bool :=
  match p, s with
  | EmptyString, _ => true
  | String _ _, EmptyString => false
  | String a p', String b s' => if Ascii.eqb a b then startswith s' p' else false
  end.

(** [p in s] for strings: [p] occurs in [s] as a substring. *)
Fixpoint contains (p s : string) : bool :=
  if startswith s p then true
  else match s with
       | EmptyString => false
       | String _ s' => contains p s'
       end.

(** [x in (a, b, ...)] for a tuple of strings. *)
Definition among (x : string) (l : list string) : bool :=
  existsb (String.eqb x) l.

End Str.

(** ** Data model *)

(** [strawberry.types.graphql.OperationType] *)
Inductive OperationType := QUERY | MUTATION | SUBSCRIPTION.

Global Instance OperationType_eq_dec : EqDecision OperationType.
Proof. solve_decision. Defined.

Global Instance OperationType_countable : Countable OperationType.
Proof.
  refine (inj_countable'
            (fun k => match k with QUERY => 0%nat | MUTATION => 1%nat | SUBSCRIPTION => 2%nat end)
            (fun n => match n with O => QUERY | S O => MUTATION | _ => SUBSCRIPTION end) _).
  intros []; reflexivity.
Defined.

(** An uploaded file part; only its name matters here. *)
Inductive UploadedFile := Upload (name : string).

#[local] Unset Elimination Schemes.

(** Python values that travel through the parser: what [json.loads] returns,
    with the file objects the multipart resolver puts in. [VNone] is both
    Python's [None] and JSON's [null]. *)
Inductive Value :=
| VNone
| VBool (b : bool)
| VNum (literal : string)
| VStr (s : string)
| VList (l : list Value)
| VDict (d : gmap string Value)
| VFile (f : UploadedFile).

#[local] Set Elimination Schemes.

(** A part of a multipart form: a text field or an uploaded file. *)
Inductive FormValue :=
| FormText (s : string)
| FormFile (f : UploadedFile).

(** The body of a request as an attribute of the request holds it, and as
    [json.loads] takes it: Python [bytes] or [str]. *)
Inductive Body :=
| BodyBytes (b : list byte)
| BodyStr (s : string).

Coercion BodyStr : string >-> Body.

(** The exceptions the two modules raise, catch or let through. *)
Inductive Exception :=
| HTTPException (status_code : Z) (reason : string)
| JSONDecodeError
| UnicodeDecodeError
| KeyError
| AttributeError
| ValueError
| InvalidOperationTypeError (operation_type : OperationType)
| MissingQueryError
| TypeError
| EngineError (description : string).

(** [strawberry.http.GraphQLRequestData] *)
Record GraphQLRequestData := {
  query : Value;
  variables : Value;
  operation_name : Value;
}.

(** The request data of a request that carries no field at all. *)
Definition empty_request_data : GraphQLRequestData :=
  {| query := VNone; variables := VNone; operation_name := VNone |}.

(** The capabilities of a transport request that the two modules read.
    [content_type] is [request.content_type] for the synchronous view and the
    [Content-Type] header for the asynchronous one; [None] is an absent
    header. The synchronous view looks for the body in the attributes
    [data], [body] and [raw_body] of its framework's request, each of which
    may be missing ([None]); the asynchronous handler awaits starlette's
    [request.body()], the bytes [received]. *)
Record Request := {
  method : string;
  content_type : option string;
  accept : option string;
  data : option Body;
  body : option Body;
  raw_body : option Body;
  received : list byte;
  form : gmap string string;
  files : gmap string UploadedFile;
  query_params : gmap string string;
}.

(** [d.get(key)] on a decoded document: [None] (the Python value) when the
    key is absent, [AttributeError] when [d] is not a mapping. *)
Definition py_get (d : Value) (key : string) : Exception + Value :=
  match d with
  | VDict m => inr (default VNone (m !! key))
  | _ => inl AttributeError
  end.

(** ** What the two modules import

    Functions of the Python library, of starlette and of strawberry modules
    outside the two files, with the opaque types they are about. *)
Class Runtime := {
  (** the value [get_context] builds *)
  Ctx : Type;
  (** the value [get_root_value] builds *)
  RootValue : Type;
  (** [strawberry.types.ExecutionResult] *)
  ExecutionResult : Type;
  (** [strawberry.http.GraphQLHTTPResponse] *)
  GraphQLHTTPResponse : Type;
  (** starlette's [BackgroundTask] *)
  BackgroundTask : Type;
  (** [json.loads] on a [str]; [None] is [json.JSONDecodeError] *)
  json_loads : string -> option Value;
  (** [bytes.decode("utf-8")]; [None] is [UnicodeDecodeError] *)
  decode_utf8 : list byte -> option string;
  (** the first step of [json.loads] on [bytes], which then goes on as on a
      [str]: [s.decode(detect_encoding(s), "surrogatepass")], where the
      encoding is UTF-8, UTF-16 or UTF-32 and a byte order mark is skipped;
      [None] is [UnicodeDecodeError] *)
  decode_detected : list byte -> option string;
  (** [strawberry.file_uploads.utils.replace_placeholders_with_files];
      [None] is [KeyError] *)
  replace_placeholders_with_files :
    Value -> Value -> gmap string FormValue -> option Value;
  (** [OperationType.from_http]; [None] is the [ValueError] it raises for
      a method it does not know *)
  from_http : string -> option (gset OperationType);
  (** [InvalidOperationTypeError.as_http_error_reason] *)
  as_http_error_reason : OperationType -> string -> string;
  (** [strawberry.http.process_result] *)
  http_process_result : ExecutionResult -> GraphQLHTTPResponse;
  (** [strawberry.utils.graphiql.get_graphiql_html] *)
  get_graphiql_html : string;
  (** starlette's [Response.init_headers]: the headers a fresh response
      gets from its body, status code and media type *)
  init_headers : string -> Z -> option string -> list (string * string);
}.

(** [strawberry.schema.BaseSchema]: the execution engine, with its blocking
    and its awaitable entry point. The arguments are, in this order, the
    query, the root value, the variable values, the context value, the
    operation name and the allowed operation types. *)
Module Schema.
Record BaseSchema `{Runtime} := {
execute_sync :
  Value -> option RootValue -> Value -> Ctx -> Value ->
  gset OperationType -> Exception + ExecutionResult;
execute :
  Value -> option RootValue -> Value -> Ctx -> Value ->
  gset OperationType -> Exception + ExecutionResult;
}.
End Schema.

(** ** Traces and exceptions *)

Section Traced.
Context `{Runtime}.

(** The calls to collaborators and the decisions of an orchestrator, in
    the order the code makes them. [Admission] is the outcome of the test on
    the method ([is_request_allowed] in the view, the [if]/[elif]/[else] on
    [method] in the handler), [ConsoleCheck] that of [should_render_graphiql],
    [ContentTypeDispatch] the reading of the content type to choose a
    decoder, [Parsed] the construction of the [GraphQLRequestData], [Gate]
    the computation of the allowed operation types and [Execute] the call of
    the engine with its arguments. *)
Inductive Action :=
| Admission (allowed : bool)
| ConsoleCheck (render : bool)
| CallGetSubResponse
| ContentTypeDispatch (content_type : string)
| JsonLoads (data : Body)
| ReplacePlaceholders
| Parsed (request_data : GraphQLRequestData)
| CallGetContext
| CallGetRootValue
| Gate (allowed_operation_types : gset OperationType)
| PrettyPrint
| Execute (request_data : GraphQLRequestData) (context : Ctx)
          (root_value : option RootValue)
          (allowed_operation_types : gset OperationType)
| ProcessResult
| BuildResponse.

Inductive result (A : Type) :=
| Ok (a : A)
| Raise (e : Exception).
Global Arguments Ok {A} a.
Global Arguments Raise {A} e.

(** A computation: the actions it performed and how it ended. *)
Definition traced (A : Type) : Type := list Action * result A.

Definition trace {A} (m : traced A) : list Action := m.1.
Definition outcome {A} (m : traced A) : result A := m.2.

Definition raise {A} (e : Exception) : traced A := ([], Raise e).
Definition tell (a : Action) : traced unit := ([a], Ok tt).

Global Instance traced_ret : MRet traced := fun A a => ([], Ok a).
Global Instance traced_bind : MBind traced := fun A B f m =>
  match m with
  | (t, Ok a) => let '(t', r) := f a in (t ++ t', r)
  | (t, Raise e) => (t, Raise e)
  end.

(** [try: m  except ...: handler]; [handler e = None] when no clause
    matches [e], which then propagates. *)
Definition try_except {A} (m : traced A)
    (handler : Exception -> option (traced A)) : traced A :=
  match m with
  | (t, Raise e) =>
      match handler e with
      | Some h => let '(t', r) := h in (t ++ t', r)
      | None => (t, Raise e)
      end
  | done => done
  end.

(** A library call that returns or raises. *)
Definition lift {A} (r : Exception + A) : traced A :=
  match r with
  | inr a => mret a
  | inl e => raise e
  end.

(** [json.loads(data)] *)
Definition loads (data : Body) : traced Value :=
  tell (JsonLoads data) ;;
  text ←
    match data with
    | BodyStr text => mret text
    | BodyBytes b =>
        match decode_detected b with
        | Some text => mret text
        | None => raise UnicodeDecodeError
        end
    end;
  match json_loads text with
  | Some v => mret v
  | None => raise JSONDecodeError
  end.

End Traced.

(** ** The synchronous view: [strawberry/http/base_view.py] *)

Module BaseView.
Section BaseHTTPView.
Context `{Runtime}.

(** The response type of the framework the view is bound to. *)
Context {Response : Type}.

(** [class BaseHTTPView]: the schema and the members a framework binding
    supplies. [get_context] may mutate the sub-response it is handed, so it
    returns it; [_create_response] is called by [run] and defined by the
    binding. *)
Record BaseHTTPView := {
  schema : Schema.BaseSchema;
  should_render_graphiql : Request -> bool;
  allow_queries_via_get : bool;
  get_sub_response : Request -> Response;
  get_context : Request -> Response -> Ctx * Response;
  get_root_value : Request -> option RootValue;
  render_graphiql : Request -> Response;
  _create_response : GraphQLHTTPResponse -> Response -> Response;
}.

(** [BaseHTTPView.should_render_graphiql] as the base class defines it;
    bindings override it. *)
Definition base_should_render_graphiql (request : Request) : bool := false.

Variable self : BaseHTTPView.

Definition is_request_allowed (request : Request) : bool :=
  Str.among (Str.lower (method request)) ["get"; "post"].

Definition parse_json (data : Body) : traced Value :=
  try_except (loads data) (fun e =>
    match e with
    | JSONDecodeError =>
        Some (raise (HTTPException 400 "Unable to parse request body as JSON"))
    | _ => None
    end).

Definition parse_form (request : Request) : traced Value :=
  operations ←
    parse_json (BodyStr (default "{}" (form request !! "operations")));
  files_map ← parse_json (BodyStr (default "{}" (form request !! "map")));
  tell ReplacePlaceholders ;;
  match replace_placeholders_with_files
          operations files_map (FormFile <$> files request) with
  | Some data => mret data
  | None => raise (HTTPException 400 "File(s) missing in form data")
  end.

Definition get_query_params (request : Request) : gmap string string :=
  query_params request.

Definition parse_query_params (params : gmap string string)
  : traced (gmap string Value) :=
  match params !! "variables" with
  | Some text =>
      decoded ← loads (BodyStr text);
      mret (<["variables" := decoded]> (VStr <$> params))
  | None => mret (VStr <$> params)
  end.

(** [parse_http_body], up to the [return]: the dispatch on content type
    and method that binds [data]. *)
Definition read_data (request : Request) : traced Value :=
  let content_type := default "" (content_type request) in
  tell (ContentTypeDispatch content_type) ;;
  if Str.contains "application/json" content_type then
    body ←
      match data request with
      | Some (BodyBytes data) =>
          match decode_utf8 data with
          | Some text => mret (BodyStr text)
          | None => raise UnicodeDecodeError
          end
      | _ =>
          (* [AttributeError]: no [data], or a [str], which has no [decode] *)
          match body request with
          | Some body => mret body
          | None =>
              match raw_body request with
              | Some raw_body => mret raw_body
              | None => raise AttributeError
              end
          end
      end;
    parse_json body
  else if Str.startswith content_type "multipart/form-data" then
    parse_form request
  else if String.eqb (Str.lower (method request)) "get" then
    let query_params := get_query_params request in
    data ← parse_query_params query_params;
    mret (VDict data)
  else
    raise (HTTPException 400 "Unsupported content type").

Definition parse_http_body (request : Request) : traced GraphQLRequestData :=
  data ← read_data request;
  query ← lift (py_get data "query");
  variables ← lift (py_get data "variables");
  operation_name ← lift (py_get data "operationName");
  let request_data :=
    {| query := query;
       variables := variables;
       operation_name := operation_name |} in
  tell (Parsed request_data) ;;
  mret request_data.

(** Returns the engine's result with the sub-response as
    [get_context] left it. *)
Definition execute_operation (request : Request) (sub_response : Response)
  : traced (ExecutionResult * Response) :=
  request_data ←
    try_except (parse_http_body request) (fun e =>
      match e with
      | JSONDecodeError =>
          Some (raise (HTTPException 400 "Unable to parse request body as JSON"))
      | KeyError =>
          Some (raise (HTTPException 400 "File(s) missing in form data"))
      | _ => None
      end);
  tell CallGetContext ;;
  let '(context, sub_response) := get_context self request sub_response in
  tell CallGetRootValue ;;
  let root_value := get_root_value self request in
  let method := method request in
  allowed_operation_types ←
    match from_http method with
    | Some allowed_operation_types => mret allowed_operation_types
    | None => raise ValueError
    end;
  let allowed_operation_types :=
    if negb (allow_queries_via_get self) && String.eqb method "GET"
    then allowed_operation_types ∖ {[QUERY]}
    else allowed_operation_types in
  tell (Gate allowed_operation_types) ;;
  tell (Execute request_data context root_value allowed_operation_types) ;;
  result ←
    lift (Schema.execute_sync (schema self)
            (query request_data) root_value (variables request_data)
            context (operation_name request_data) allowed_operation_types);
  mret (result, sub_response).

Definition process_result (request : Request) (result : ExecutionResult)
  : GraphQLHTTPResponse :=
  http_process_result result.

Definition run (request : Request) : traced Response :=
  let allowed := is_request_allowed request in
  tell (Admission allowed) ;;
  if negb allowed then
    raise (HTTPException 405 "GraphQL only supports GET and POST requests.")
  else
  let render := should_render_graphiql self request in
  tell (ConsoleCheck render) ;;
  if render then mret (render_graphiql self request) else
  tell CallGetSubResponse ;;
  let sub_response := get_sub_response self request in
  '(result, sub_response) ←
    try_except (execute_operation request sub_response) (fun e =>
      match e with
      | InvalidOperationTypeError operation_type =>
          Some (raise (HTTPException 400
                         (as_http_error_reason operation_type (method request))))
      | MissingQueryError =>
          Some (raise (HTTPException 400 "No GraphQL query found in the request"))
      | _ => None
      end);
  tell ProcessResult ;;
  let response_data := process_result request result in
  tell BuildResponse ;;
  mret (_create_response self response_data sub_response).

End BaseHTTPView.
Global Arguments BaseHTTPView {_} Response.
End BaseView.

(** ** [strawberry.http]: the two parsing helpers the handler imports *)

Module Http.
Section Http.
Context `{Runtime}.

(** Modelled from the spec: [strawberry.http.parse_query_params], which the
    asynchronous handler imports and src/ does not contain. Section 4.1:
    for a GET with a query string, "read query, operationName, and
    variables from query parameters; variables is itself a JSON-encoded
    string that must be decoded - failure to decode is MalformedBody". *)
Definition parse_query_params (params : gmap string string)
  : traced (gmap string Value) :=
  match params !! "variables" with
  | Some text =>
      decoded ← loads (BodyStr text);
      mret (<["variables" := decoded]> (VStr <$> params))
  | None => mret (VStr <$> params)
  end.

(** Modelled from the spec: [strawberry.http.parse_request_data], which the
    asynchronous handler imports and src/ does not contain. Section 4.1:
    "extract query, variables, operationName (all optional keys; absent
    keys map to absent fields)". *)
Definition parse_request_data (data : Value) : traced GraphQLRequestData :=
  query ← lift (py_get data "query");
  variables ← lift (py_get data "variables");
  operation_name ← lift (py_get data "operationName");
  let request_data :=
    {| query := query;
       variables := variables;
       operation_name := operation_name |} in
  tell (Parsed request_data) ;;
  mret request_data.

End Http.
End Http.

(** ** The asynchronous handler: [strawberry/asgi/handlers/http_handler.py] *)

Module Asgi.
Section HTTPHandler.
Context `{Runtime}.

(** starlette's [Response], as far as the handler reads and writes it.
    [status_code] is optional because [handle] sets it to [None] on the
    sub-response. *)
Record Response := {
  status_code : option Z;
  media_type : option string;
  body : string;
  headers : list (string * string);
  background : option BackgroundTask;
}.

(** [Response(content, status_code=..., media_type=...)] *)
Definition make_response (content : option string) (status_code : Z)
    (media_type : option string) : Response :=
  let body := default "" content in
  {| status_code := Some status_code;
     media_type := media_type;
     body := body;
     headers := init_headers body status_code media_type;
     background := None |}.

Definition PlainTextResponse (content : string) (status_code : Z) : Response :=
  make_response (Some content) status_code (Some "text/plain").

Definition HTMLResponse (content : option string) (status_code : Z) : Response :=
  make_response content status_code (Some "text/html").

(** [del headers[key]] *)
Definition del_header (key : string) (hs : list (string * string))
  : list (string * string) :=
  filter (fun h => h.1 ≠ key) hs.

(** Python's truth value of an optional integer. *)
Definition truthy (n : option Z) : bool :=
  match n with
  | Some n => negb (Z.eqb n 0)
  | None => false
  end.

(** [class HTTPHandler]: the arguments of [__init__]. [get_context] may
    mutate the sub-response it is handed, so it returns it. *)
Record HTTPHandler := {
  schema : Schema.BaseSchema;
  graphiql : bool;
  allow_queries_via_get : bool;
  debug : bool;
  get_context : Request -> Response -> Ctx * Response;
  get_root_value : Request -> option RootValue;
  process_result : Request -> ExecutionResult -> GraphQLHTTPResponse;
  encode_json : GraphQLHTTPResponse -> string;
}.

Variable self : HTTPHandler.

Definition should_render_graphiql (request : Request) : bool :=
  if negb (graphiql self) then false
  else
    existsb (fun supported_header =>
               Str.contains supported_header (default "" (accept request)))
            ["text/html"; "*/*"].

Definition get_graphiql_response : Response :=
  let html := get_graphiql_html in
  HTMLResponse (Some html) 200.

(** [Execute] is the call of [self.schema.execute], with the arguments
    gathered the way the view passes them. *)
Definition execute (query variables : Value) (context : Ctx)
    (operation_name : Value) (root_value : option RootValue)
    (allowed_operation_types : gset OperationType) : traced ExecutionResult :=
  (if debug self then tell PrettyPrint else mret tt) ;;
  tell (Execute {| query := query;
                   variables := variables;
                   operation_name := operation_name |}
                context root_value allowed_operation_types) ;;
  lift (Schema.execute (schema self)
          query root_value variables context operation_name
          allowed_operation_types).

(** [json.loads] of a form part; a file part is not text. *)
Definition loads_part (part : FormValue) : traced Value :=
  match part with
  | FormText text => loads (BodyStr text)
  | FormFile _ => raise TypeError
  end.

(** In a computation of type [traced (Response + A)], [inl response] is a
    [return response] before the end of [get_http_response] and [inr]
    carries on. *)

(** [get_http_response], first statement: the dispatch on method and
    content type that binds [data] ([if method == "GET": ... else: ...]). *)
Definition read_data (request : Request) : traced (Response + Value) :=
  let method := method request in
  if String.eqb method "GET" then
    tell (Admission true) ;;
    if negb (bool_decide (query_params request = ∅)) then
      try_except
        (data ← Http.parse_query_params (query_params request);
         mret (inr (VDict data)))
        (fun e =>
           match e with
           | JSONDecodeError =>
               Some (mret (inl (PlainTextResponse
                                  "Unable to parse request body as JSON" 400)))
           | _ => None
           end)
    else
      let render := should_render_graphiql request in
      tell (ConsoleCheck render) ;;
      if render then mret (inl get_graphiql_response)
      else mret (inl (HTMLResponse None 404))
  else if String.eqb method "POST" then
    tell (Admission true) ;;
    let content_type := default "" (content_type request) in
    tell (ContentTypeDispatch content_type) ;;
    if Str.contains "application/json" content_type then
      try_except
        (data ← loads (BodyBytes (received request)); mret (inr data))
        (fun e =>
           match e with
           | JSONDecodeError =>
               Some (mret (inl (PlainTextResponse
                                  "Unable to parse request body as JSON" 400)))
           | _ => None
           end)
    else if Str.startswith content_type "multipart/form-data" then
      let multipart_data : gmap string FormValue :=
        (FormFile <$> files request) ∪ (FormText <$> form request) in
      decoded ←
        try_except
          (let operations_text :=
             default (FormText "{}") (multipart_data !! "operations") in
           operations ← loads_part operations_text;
           files_map ←
             loads_part (default (FormText "{}") (multipart_data !! "map"));
           mret (inr (operations, files_map)))
          (fun e =>
             match e with
             | JSONDecodeError =>
                 Some (mret (inl (PlainTextResponse
                                    "Unable to parse request body as JSON" 400)))
             | _ => None
             end);
      match decoded with
      | inl response => mret (inl response)
      | inr (operations, files_map) =>
          tell ReplacePlaceholders ;;
          match replace_placeholders_with_files
                  operations files_map multipart_data with
          | Some data => mret (inr data)
          | None =>
              mret (inl (PlainTextResponse "File(s) missing in form data" 400))
          end
      end
    else
      mret (inl (PlainTextResponse "Unsupported Media Type" 415))
  else
    tell (Admission false) ;;
    mret (inl (PlainTextResponse "Method Not Allowed" 405)).

(** [get_http_response], from [allowed_operation_types = ...] to the
    end: the gate, the call of [execute] and the response. *)
Definition execute_request (request : Request)
    (execute : Value -> Value -> Ctx -> Value -> option RootValue ->
               gset OperationType -> traced ExecutionResult)
    (process_result : Request -> ExecutionResult -> GraphQLHTTPResponse)
    (root_value : option RootValue) (context : Ctx)
    (request_data : GraphQLRequestData) : traced Response :=
  let method := method request in
  allowed_operation_types ←
    match from_http method with
    | Some allowed_operation_types => mret allowed_operation_types
    | None => raise ValueError
    end;
  let allowed_operation_types :=
    if negb (allow_queries_via_get self) && String.eqb method "GET"
    then allowed_operation_types ∖ {[QUERY]}
    else allowed_operation_types in
  tell (Gate allowed_operation_types) ;;
  executed ←
    try_except
      (result ←
         execute (query request_data) (variables request_data) context
                 (operation_name request_data) root_value
                 allowed_operation_types;
       mret (inr result))
      (fun e =>
         match e with
         | InvalidOperationTypeError operation_type =>
             Some (mret (inl (PlainTextResponse
                                (as_http_error_reason operation_type method) 400)))
         | MissingQueryError =>
             Some (mret (inl (PlainTextResponse
                                "No GraphQL query found in the request" 400)))
         | _ => None
         end);
  match executed with
  | inl response => mret response
  | inr result =>
      tell ProcessResult ;;
      let response_data := process_result request result in
      tell BuildResponse ;;
      mret (make_response (Some (encode_json self response_data)) 200
                          (Some "application/json"))
  end.

Definition get_http_response (request : Request)
    (execute : Value -> Value -> Ctx -> Value -> option RootValue ->
               gset OperationType -> traced ExecutionResult)
    (process_result : Request -> ExecutionResult -> GraphQLHTTPResponse)
    (root_value : option RootValue) (context : Ctx) : traced Response :=
  read ← read_data request;
  match read with
  | inl response => mret response
  | inr data =>
      parsed ←
        try_except
          (request_data ← Http.parse_request_data data;
           mret (inr request_data))
          (fun e =>
             match e with
             | JSONDecodeError =>
                 Some (mret (inl (PlainTextResponse
                                    "Unable to parse request body as JSON" 400)))
             | _ => None
             end);
      match parsed with
      | inl response => mret response
      | inr request_data =>
          execute_request request execute process_result
                          root_value context request_data
      end
  end.

(** The sub-response [handle] creates before it calls [get_context]. *)
Definition fresh_sub_response : Response :=
  let sub_response := make_response None 200 None in
  let sub_response :=
    {| status_code := None;
       media_type := media_type sub_response;
       body := body sub_response;
       headers := headers sub_response;
       background := background sub_response |} in
  {| status_code := status_code sub_response;
     media_type := media_type sub_response;
     body := body sub_response;
     headers := del_header "content-length" (headers sub_response);
     background := background sub_response |}.

(** The last three statements of [handle] before the response is sent:
    the sub-response is merged into the response. *)
Definition merge_sub_response (response sub_response : Response) : Response :=
  let response :=
    {| status_code := status_code response;
       media_type := media_type response;
       body := body response;
       headers := headers response ++ headers sub_response;
       background := background response |} in
  let response :=
    if background sub_response is Some _ then
      {| status_code := status_code response;
         media_type := media_type response;
         body := body response;
         headers := headers response;
         background := background sub_response |}
    else response in
  if truthy (status_code sub_response) then
    {| status_code := status_code sub_response;
       media_type := media_type response;
       body := body response;
       headers := headers response;
       background := background response |}
  else response.

(** The result is the response [handle] sends. *)
Definition handle (request : Request) : traced Response :=
  tell CallGetRootValue ;;
  let root_value := get_root_value self request in
  let sub_response := fresh_sub_response in
  tell CallGetContext ;;
  let '(context, sub_response) := get_context self request sub_response in
  response ←
    get_http_response request execute (process_result self) root_value context;
  mret (merge_sub_response response sub_response).

End HTTPHandler.
End Asgi.

(** ** The execution engine and the gate, as the specification has them *)

Module Spec.

(** Modelled from the spec: [OperationType.from_http] on the two methods the
  protocol admits; [strawberry/types/graphql.py] is not in src/. Section
  4.3: "mutations and subscriptions are never legal over GET, so GET
  starts from {QUERY} and POST starts from {QUERY, MUTATION}". The
  specification gives no set for another method, for which the function of
  the library raises [ValueError] ([None] here); it compares the method as
  it is, so ["get"] is such a method. *)
Definition transport_legal (method : string) : option (gset OperationType) :=
if String.eqb method "GET" then Some {[QUERY]}
else if String.eqb method "POST" then Some {[QUERY; MUTATION]}
else None.

Section Spec.
Context `{Runtime}.

(** The runtime's [from_http] is the one of the specification. *)
Definition from_http_as_specified : Prop :=
  ∀ method allowed, transport_legal method = Some allowed →
                    from_http method = Some allowed.

(** Modelled from the spec: the gate at the entry of the execution engine
    ([Schema.execute] and [Schema.execute_sync] of [strawberry/schema],
    not in src/). Section 4.3: the engine "is responsible for rejecting an
    operation whose declared kind (determined from the parsed query
    document) is not a member" of the allowed set, and "that rejection
    surfaces back through this layer as InvalidOperationType, carrying the
    attempted kind"; with the empty set "any execution attempt then fails
    at the gate". [declared_kind] reads the kind off the document and
    [run_operation] is whatever the engine does with an operation that
    passed the gate. *)
Definition gated_execute
    (declared_kind : Value -> Value -> OperationType)
    (run_operation : Value -> option RootValue -> Value -> Ctx -> Value ->
                     Exception + ExecutionResult)
    (query : Value) (root_value : option RootValue) (variable_values : Value)
    (context_value : Ctx) (operation_name : Value)
    (allowed_operation_types : gset OperationType)
  : Exception + ExecutionResult :=
  let operation_type := declared_kind query operation_name in
  if bool_decide (operation_type ∈ allowed_operation_types)
  then run_operation query root_value variable_values context_value operation_name
  else inl (InvalidOperationTypeError operation_type).

Definition gated_schema
    (declared_kind : Value -> Value -> OperationType)
    (run_operation : Value -> option RootValue -> Value -> Ctx -> Value ->
                     Exception + ExecutionResult)
  : Schema.BaseSchema :=
  {| Schema.execute_sync := gated_execute declared_kind run_operation;
     Schema.execute := gated_execute declared_kind run_operation |}.

End Spec.
End Spec.

(** ** Reading traces and outcomes *)

Section Observation.
Context `{Runtime}.

(** Actions of the request parser. *)
Definition is_parser_action (a : Action) : bool :=
  match a with
  | ContentTypeDispatch _ | JsonLoads _ | ReplacePlaceholders | Parsed _ => true
  | _ => false
  end.

Definition is_parsed (a : Action) : bool :=
  match a with Parsed _ => true | _ => false end.

Definition is_execute (a : Action) : bool :=
  match a with Execute _ _ _ _ => true | _ => false end.

(** Calls of the two user-supplied builders. *)
Definition is_construction (a : Action) : bool :=
  match a with CallGetContext | CallGetRootValue => true | _ => false end.

Definition is_admitted (a : Action) : bool :=
  match a with Admission true => true | _ => false end.

(** [preceded target required seen t]: every action of [t] that satisfies
    [target] comes after an action that satisfies [required] ([seen] tells
    whether one came before [t]). *)
Fixpoint preceded (target required : Action -> bool) (seen : bool)
    (t : list Action) : bool :=
  match t with
  | [] => true
  | a :: t' =>
      (if target a then seen else true)
      && preceded target required (seen || required a) t'
  end.

(** The transport error a synchronous run ends with: the view raises
    [HTTPException(status_code, reason)] and its binding answers with that
    status and the reason as body. *)
Definition transport_error {A} (r : result A) : option (Z * string) :=
  match r with
  | Raise (HTTPException status_code reason) => Some (status_code, reason)
  | _ => None
  end.

(** The value a computation returned, if it returned. *)
Definition outcome_value {A} (r : result A) : option A :=
  match r with
  | Ok a => Some a
  | Raise _ => None
  end.

(** Status and body of the response an asynchronous call ends with. *)
Definition answered (r : result Asgi.Response) : option (option Z * string) :=
  match r with
  | Ok response => Some (Asgi.status_code response, Asgi.body response)
  | Raise _ => None
  end.

(** A content type no parser branch recognises. *)
Definition unrecognised (content_type : string) : Prop :=
  Str.contains "application/json" content_type = false
  ∧ Str.startswith content_type "multipart/form-data" = false.

(** Every action of the trace of [m] satisfies [P]. *)
Definition only (P : Action → bool) {A} (m : traced A) : Prop :=
  forallb P (trace m) = true.

End Observation.

(** ** The steps of the synchronous view *)

Section SyncSteps.
Context `{Runtime} {Response : Type}.
Variable self : BaseView.BaseHTTPView Response.

(** The allowed operation types [execute_operation] hands to the engine;
    [None] when [from_http] raises. *)
Definition sync_allowed (request : Request) : option (gset OperationType) :=
  allowed_operation_types ← from_http (method request);
  Some (if negb (BaseView.allow_queries_via_get self)
           && String.eqb (method request) "GET"
        then allowed_operation_types ∖ {[QUERY]}
        else allowed_operation_types).

(** What [execute_operation] turns an exception of the parser into. *)
Definition parse_error (e : Exception) : Exception :=
  match e with
  | JSONDecodeError => HTTPException 400 "Unable to parse request body as JSON"
  | KeyError => HTTPException 400 "File(s) missing in form data"
  | _ => e
  end.

(** What [run] turns an exception of [execute_operation] into. *)
Definition execution_error (request : Request) (e : Exception) : Exception :=
  match e with
  | InvalidOperationTypeError operation_type =>
      HTTPException 400 (as_http_error_reason operation_type (method request))
  | MissingQueryError =>
      HTTPException 400 "No GraphQL query found in the request"
  | _ => e
  end.

(** The call of the engine [execute_operation] makes. *)
Definition sync_engine_call (request : Request) (sub_response : Response)
    (request_data : GraphQLRequestData)
    (allowed_operation_types : gset OperationType)
  : Exception + ExecutionResult :=
  Schema.execute_sync (BaseView.schema self)
    (query request_data) (BaseView.get_root_value self request)
    (variables request_data)
    (BaseView.get_context self request sub_response).1
    (operation_name request_data) allowed_operation_types.

(** The steps [run] takes before it parses. *)
Definition sync_prefix : list Action :=
  [Admission true; ConsoleCheck false; CallGetSubResponse].

End SyncSteps.

(** ** The steps of the asynchronous handler *)

Section AsyncSteps.
Context `{Runtime}.
Variable self : Asgi.HTTPHandler.

(** The type of the [execute] argument of [get_http_response]. *)
Definition executor : Type :=
  Value → Value → Ctx → Value → option RootValue → gset OperationType →
  traced ExecutionResult.

(** Actions of the first statement of [get_http_response]. *)
Definition is_read_action (a : Action) : bool :=
  match a with
  | Admission _ | ConsoleCheck _ | ContentTypeDispatch _ | JsonLoads _
  | ReplacePlaceholders => true
  | _ => false
  end.

(** The allowed operation types [get_http_response] hands to [execute];
    [None] when [from_http] raises. *)
Definition async_allowed (request : Request) : option (gset OperationType) :=
  allowed_operation_types ← from_http (method request);
  Some (if negb (Asgi.allow_queries_via_get self)
           && String.eqb (method request) "GET"
        then allowed_operation_types ∖ {[QUERY]}
        else allowed_operation_types).

(** The response [get_http_response] builds from a result of the engine. *)
Definition success_response
    (process_result : Request → ExecutionResult → GraphQLHTTPResponse)
    (request : Request) (result : ExecutionResult) : Asgi.Response :=
  Asgi.make_response
    (Some (Asgi.encode_json self (process_result request result)))
    200 (Some "application/json").

(** How [get_http_response] ends, given how [execute] ended. *)
Definition async_outcome
    (process_result : Request → ExecutionResult → GraphQLHTTPResponse)
    (request : Request) (r : result ExecutionResult) : result Asgi.Response :=
  match r with
  | Ok result => Ok (success_response process_result request result)
  | Raise (InvalidOperationTypeError operation_type) =>
      Ok (Asgi.PlainTextResponse
            (as_http_error_reason operation_type (method request)) 400)
  | Raise MissingQueryError =>
      Ok (Asgi.PlainTextResponse "No GraphQL query found in the request" 400)
  | Raise e => Raise e
  end.

(** The sub-response as [get_context] leaves it. *)
Definition context_phase (request : Request) : Ctx * Asgi.Response :=
  Asgi.get_context self request Asgi.fresh_sub_response.

End AsyncSteps.

(** ** A small runtime, a view and a handler to run the model on *)

Module Example.

Definition plural (operation_type : OperationType) : string :=
  match operation_type with
  | QUERY => "queries"
  | MUTATION => "mutations"
  | SUBSCRIPTION => "subscriptions"
  end.

(** [json.loads] on the two texts the examples decode: the empty object,
    and an opening brace alone, which is not JSON. *)
Definition json (text : string) : option Value :=
  if String.eqb text "{}" then Some (VDict ∅) else None.

(** [bytes.decode("utf-8")] on the bytes of the examples, which are valid
    UTF-8: a text is held as its UTF-8 code units, so a byte order mark
    stays in it, as the character U+FEFF. *)
Definition utf8 (b : list byte) : option string :=
  Some (string_of_list_byte b).

(** The decoding [json.loads] does by itself on the bytes of the examples:
    UTF-8, with a byte order mark at the start skipped. *)
Definition detected (b : list byte) : option string :=
  match b with
  | b1 :: b2 :: b3 :: b' =>
      if Byte.eqb b1 xef && Byte.eqb b2 xbb && Byte.eqb b3 xbf
      then utf8 b' else utf8 b
  | _ => utf8 b
  end.

(** The runtime of the examples. Its [from_http] is the one of the
    specification, with the [ValueError] of the library for any method but
    ["GET"] and ["POST"]. *)

Definition runtime : Runtime :=
  {| Ctx := string;
     RootValue := string;
     ExecutionResult := Value;
     GraphQLHTTPResponse := Value;
     BackgroundTask := string;
     json_loads := json;
     decode_utf8 := utf8;
     decode_detected := detected;
     replace_placeholders_with_files := fun operations _ _ => Some operations;
     from_http := Spec.transport_legal;
     as_http_error_reason := fun operation_type method =>
       plural operation_type +:+ " are not allowed when using " +:+ method;
     http_process_result := fun result => result;
     get_graphiql_html := "<html>GraphiQL</html>";
     init_headers := fun body status_code media_type =>
       ("content-length", pretty (String.length body))
       :: match media_type with
          | Some m => [("content-type", m)]
          | None => []
          end |}.

(** Every document is a query. *)
Definition declared_kind (query operation_name : Value) : OperationType := QUERY.

(** An absent query is [MissingQueryError]; a present one is answered. *)
Definition run_operation (query : Value) (root_value : option string)
    (variable_values : Value) (context_value : string) (operation_name : Value)
  : Exception + Value :=
  match query with
  | VNone => inl MissingQueryError
  | _ => inr (VDict {["data" := query]})
  end.

(** An engine with the gate of the specification. *)
Definition engine : @Schema.BaseSchema runtime :=
  Spec.gated_schema (H := runtime) declared_kind run_operation.

(** A binding of the synchronous view whose responses are strings and which
    keeps [should_render_graphiql] of the base class. *)
Definition view (allow_queries_via_get : bool)
  : @BaseView.BaseHTTPView runtime string :=
  {| BaseView.schema := engine;
     BaseView.should_render_graphiql := BaseView.base_should_render_graphiql;
     BaseView.allow_queries_via_get := allow_queries_via_get;
     BaseView.get_sub_response := fun _ => "";
     BaseView.get_context := fun _ sub_response => ("context", sub_response);
     BaseView.get_root_value := fun _ => None;
     BaseView.render_graphiql := fun _ => "<html>GraphiQL</html>";
     BaseView._create_response := fun _ _ => "{...}" |}.

(** A context builder that sets a cookie on the sub-response. *)
Definition set_cookie (request : Request) (sub_response : @Asgi.Response runtime)
  : string * @Asgi.Response runtime :=
  ("context",
   {| Asgi.status_code := Asgi.status_code sub_response;
      Asgi.media_type := Asgi.media_type sub_response;
      Asgi.body := Asgi.body sub_response;
      Asgi.headers := Asgi.headers sub_response ++ [("set-cookie", "session=1")];
      Asgi.background := Asgi.background sub_response |}).

(** A context builder that sets the status of the sub-response to zero. *)
Definition set_status_zero (request : Request)
    (sub_response : @Asgi.Response runtime) : string * @Asgi.Response runtime :=
  ("context",
   {| Asgi.status_code := Some 0;
      Asgi.media_type := Asgi.media_type sub_response;
      Asgi.body := Asgi.body sub_response;
      Asgi.headers := Asgi.headers sub_response;
      Asgi.background := Asgi.background sub_response |}).

Definition handler_with
    (get_context : Request → @Asgi.Response runtime → string * @Asgi.Response runtime)
    (graphiql allow_queries_via_get : bool) : @Asgi.HTTPHandler runtime :=
  {| Asgi.schema := engine;
     Asgi.graphiql := graphiql;
     Asgi.allow_queries_via_get := allow_queries_via_get;
     Asgi.debug := false;
     Asgi.get_context := get_context;
     Asgi.get_root_value := fun _ => None;
     Asgi.process_result := fun _ result => result;
     Asgi.encode_json := fun _ => "{...}" |}.

Definition handler : bool → bool → @Asgi.HTTPHandler runtime :=
  handler_with set_cookie.

Definition request (method : string) (content_type : option string)
    (data : string) (query_params : gmap string string) : Request :=
  {| method := method;
     content_type := content_type;
     accept := Some "text/html";
     data := Some (BodyBytes (list_byte_of_string data));
     body := None;
     raw_body := None;
     received := list_byte_of_string data;
     form := ∅;
     files := ∅;
     query_params := query_params |}.

(** [PUT /graphql] *)
Definition put : Request := request "PUT" None "" ∅.

(** [POST /graphql] with [Content-Type: text/plain] *)
Definition post_text : Request := request "POST" (Some "text/plain") "{ hello }" ∅.

(** [GET /graphql] *)
Definition bare_get : Request := request "GET" None "" ∅.

(** [GET /graphql?query={ hello }] *)
Definition get_hello : Request :=
  request "GET" None "" {["query" := "{ hello }"]}.


(** [GET /graphql?variables={] *)
Definition get_bad_variables : Request :=
  request "GET" None "" {["variables" := "{"]}.

(** [GET /graphql?variables={] with [Content-Type: application/json] and
    body [{}] *)
Definition get_json_bad_variables : Request :=
  request "GET" (Some "application/json") "{}" {["variables" := "{"]}.

(** The request data of [?query={ hello }]. *)
Definition hello : GraphQLRequestData :=
  {| query := VStr "{ hello }"; variables := VNone; operation_name := VNone |}.

End Example.

(** ** What the two orchestrators have in common *)

Section CommonGround.
Context `{Runtime} {Response : Type}.
Variable view : BaseView.BaseHTTPView Response.
Variable handler : Asgi.HTTPHandler.
Variable request : Request.

(** The requests both orchestrators read in the same way: a POST with a
    JSON content type whose body the view finds in [request.data] as the
    bytes received, when [decode("utf-8")] makes of them what [json.loads]
    makes of them by itself (so no byte order mark and no other encoding);
    and a GET with query parameters whose content type names no encoding. *)
Definition common_encoding : Prop :=
  (method request = "POST"
   ∧ Str.contains "application/json" (default "" (content_type request)) = true
   ∧ data request = Some (BodyBytes (received request))
   ∧ decode_utf8 (received request) = decode_detected (received request))
  ∨ (method request = "GET"
     ∧ query_params request ≠ ∅
     ∧ unrecognised (default "" (content_type request))).

(** The view and the handler are configured alike: the view does not render
    the console for the request, the flag, the root value and the context are
    the same, and the two entry points of the engine agree. *)
Definition same_collaborators : Prop :=
  BaseView.should_render_graphiql view request = false
  ∧ BaseView.allow_queries_via_get view = Asgi.allow_queries_via_get handler
  ∧ BaseView.get_root_value view request = Asgi.get_root_value handler request
  ∧ (BaseView.get_context view request
       (BaseView.get_sub_response view request)).1
    = (context_phase handler request).1
  ∧ ∀ query root_value variable_values context_value operation_name allowed,
      Schema.execute_sync (BaseView.schema view) query root_value
        variable_values context_value operation_name allowed
      = Schema.execute (Asgi.schema handler) query root_value
          variable_values context_value operation_name allowed.

(** The calls of the engine in a trace. *)
Definition executions (t : list Action) : list Action :=
  List.filter is_execute t.

(** A synchronous and an asynchronous outcome that say the same: the same
    transport error, a response built from the same result of the engine,
    or the same exception let through. *)
Inductive same_answer : result Response → result Asgi.Response → Prop :=
| answer_error status_code reason :
    same_answer (Raise (HTTPException status_code reason))
                (Ok (Asgi.PlainTextResponse reason status_code))
| answer_result result :
    same_answer
      (Ok (BaseView._create_response view
             (BaseView.process_result request result)
             (BaseView.get_context view request
                (BaseView.get_sub_response view request)).2))
      (Ok (success_response handler (Asgi.process_result handler)
             request result))
| answer_uncaught e :
    same_answer (Raise e) (Raise e).

(** How the two first statements compare on a common encoding: both bind
    the same document, or the synchronous one raises what becomes the
    malformed-body error and the asynchronous one returns it, or both let
    the [UnicodeDecodeError] of the body through. *)
Inductive read_alike : traced Value → traced (Asgi.Response + Value) → Prop :=
| read_document t t' data :
    read_alike (t, Ok data) (t', Ok (inr data))
| read_malformed t t' e :
    parse_error e = HTTPException 400 "Unable to parse request body as JSON" →
    read_alike (t, Raise e)
      (t', Ok (inl (Asgi.PlainTextResponse
                      "Unable to parse request body as JSON" 400)))
| read_undecodable t t' :
    read_alike (t, Raise UnicodeDecodeError) (t', Raise UnicodeDecodeError).

End CommonGround.

(** ** Statements of the specification that the code does not satisfy

    Each is written here the way the specification words it, for one view,
    one handler and one request; the properties below refute it on an
    example and prove what holds instead. *)

Section AsStated.
Context `{Runtime} {Response : Type}.
Variable view : BaseView.BaseHTTPView Response.
Variable handler : Asgi.HTTPHandler.
Variable request : Request.

(** The response of the handler before [handle] merges the sub-response
    into it. *)
Definition protocol_response : traced Asgi.Response :=
  Asgi.get_http_response handler request
    (Asgi.execute handler) (Asgi.process_result handler)
    (Asgi.get_root_value handler request) (context_phase handler request).1.

(** No action of [t] satisfies [P]. *)
Definition without (P : Action → bool) (t : list Action) : bool :=
  forallb (fun a => negb (P a)) t.

(** "For every POST request whose content-type matches none of the
    recognized encodings, both the synchronous and the asynchronous view
    respond with HTTP status 415 and body Unsupported Media Type." *)
Definition unsupported_is_415 : Prop :=
  method request = "POST" →
  unrecognised (default "" (content_type request)) →
  transport_error (outcome (BaseView.run view request))
  = Some (415, "Unsupported Media Type")
  ∧ answered (outcome protocol_response)
    = Some (Some 415, "Unsupported Media Type").

(** "Both variants produce the same sequence of observable actions and the
    same response status and body." *)
Definition same_steps_same_answer : Prop :=
  trace (BaseView.run view request) = trace (Asgi.handle handler request)
  ∧ ∀ status_code reason,
      transport_error (outcome (BaseView.run view request))
      = Some (status_code, reason) →
      answered (outcome (Asgi.handle handler request))
      = Some (Some status_code, reason).

(** Every call of a builder in [t] comes after the admission of the request
    and after its request data was parsed. *)
Definition builds_after_parse (t : list Action) : bool :=
  preceded is_construction is_admitted false t
  && preceded is_construction is_parsed false t.

(** "The orchestrator invokes get_context and get_root_value only after the
    admissibility check has passed and after the request body has been
    successfully parsed." *)
Definition builders_wait_for_parse : Prop :=
  builds_after_parse (trace (BaseView.run view request)) = true
  ∧ builds_after_parse (trace (Asgi.handle handler request)) = true.

(** "Header mutations made during context construction come first,
    followed by the protocol response headers, and the final status code is
    the protocol-assigned one unless the context phase explicitly set a
    status (non-null), in which case the context-phase status wins." *)
Definition context_headers_first : Prop :=
  ∀ protocol, outcome protocol_response = Ok protocol →
    let sub_response := (context_phase handler request).2 in
    ∃ response,
      outcome (Asgi.handle handler request) = Ok response
      ∧ Asgi.headers response
        = Asgi.headers sub_response ++ Asgi.headers protocol
      ∧ Asgi.status_code response
        = match Asgi.status_code sub_response with
          | Some status_code => Some status_code
          | None => Asgi.status_code protocol
          end.

(** "For every request whose HTTP method is neither GET nor POST, the
    response has status 405 and body exactly Method Not Allowed, and this
    rejection happens before any content-type dispatch or body parsing." *)
Definition other_methods_405 : Prop :=
  method request ≠ "GET" → method request ≠ "POST" →
  (transport_error (outcome (BaseView.run view request))
   = Some (405, "Method Not Allowed")
   ∧ without is_parser_action (trace (BaseView.run view request)) = true)
  ∧ (answered (outcome protocol_response) = Some (Some 405, "Method Not Allowed")
     ∧ without is_parser_action (trace protocol_response) = true).

(** "For every GET request with an empty query string: if the interactive
    console is enabled and the Accept header contains text/html or */*, the
    response is the static console HTML page with status 200; otherwise the
    response is a 404 with empty body - nothing is parsed or executed in
    either case." For the synchronous view the console condition is its
    [should_render_graphiql]. *)
Definition bare_get_console_or_404 : Prop :=
  method request = "GET" → query_params request = ∅ →
  (if BaseView.should_render_graphiql view request
   then outcome (BaseView.run view request)
        = Ok (BaseView.render_graphiql view request)
   else transport_error (outcome (BaseView.run view request)) = Some (404, ""))
  ∧ without is_parser_action (trace (BaseView.run view request)) = true
  ∧ without is_execute (trace (BaseView.run view request)) = true
  ∧ (if Asgi.should_render_graphiql handler request
     then outcome protocol_response = Ok (Asgi.HTMLResponse (Some get_graphiql_html) 200)
     else answered (outcome protocol_response) = Some (Some 404, ""))
  ∧ without is_parser_action (trace protocol_response) = true
  ∧ without is_execute (trace protocol_response) = true.

(** "For every GET request with a non-empty query string whose variables
    parameter is present, the parser JSON-decodes the variables string; if
    decoding fails the whole request yields HTTP 400 with body Unable to
    parse request body as JSON, and no partially-parsed GraphQLRequestData
    is ever passed to execution." The synchronous view is taken with a
    [should_render_graphiql] that declines. *)
Definition variables_always_decoded : Prop :=
  ∀ text : string,
    method request = "GET" →
    query_params request !! "variables" = Some text →
    BaseView.should_render_graphiql view request = false →
    (JsonLoads text ∈ trace (BaseView.run view request)
     ∧ (json_loads text = None →
        transport_error (outcome (BaseView.run view request))
        = Some (400, "Unable to parse request body as JSON")
        ∧ without is_execute (trace (BaseView.run view request)) = true))
    ∧ (JsonLoads text ∈ trace protocol_response
       ∧ (json_loads text = None →
          answered (outcome protocol_response)
          = Some (Some 400, "Unable to parse request body as JSON")
          ∧ without is_execute (trace protocol_response) = true)).


End AsStated.

(** ** The answers an orchestrator can give, and the order of its steps *)

Section Answers.
Context `{Runtime}.

(** Every exception [m] can end with satisfies [P]. *)
Definition raising (P : Exception → Prop) {A} (m : traced A) : Prop :=
  ∀ e, outcome m = Raise e → P e.

(** The exceptions the request parser of the view ends with. *)
Inductive parser_exception : Exception → Prop :=
| parser_malformed :
    parser_exception (HTTPException 400 "Unable to parse request body as JSON")
| parser_missing_files :
    parser_exception (HTTPException 400 "File(s) missing in form data")
| parser_unsupported :
    parser_exception (HTTPException 400 "Unsupported content type")
| parser_decode : parser_exception JSONDecodeError
| parser_unicode : parser_exception UnicodeDecodeError
| parser_attribute : parser_exception AttributeError.

(** The transport errors the view raises by itself. *)
Inductive view_error (request : Request) : Z → string → Prop :=
| view_method :
    view_error request 405 "GraphQL only supports GET and POST requests."
| view_malformed :
    view_error request 400 "Unable to parse request body as JSON"
| view_missing_files :
    view_error request 400 "File(s) missing in form data"
| view_unsupported :
    view_error request 400 "Unsupported content type"
| view_no_query :
    view_error request 400 "No GraphQL query found in the request"
| view_operation_type operation_type :
    view_error request 400
      (as_http_error_reason operation_type (method request)).

(** The responses [get_http_response] returns. *)
Inductive handler_answer (handler : Asgi.HTTPHandler)
    (process_result : Request → ExecutionResult → GraphQLHTTPResponse)
    (request : Request) : Asgi.Response → Prop :=
| handler_console :
    handler_answer handler process_result request
      (Asgi.HTMLResponse (Some get_graphiql_html) 200)
| handler_not_found :
    handler_answer handler process_result request (Asgi.HTMLResponse None 404)
| handler_malformed :
    handler_answer handler process_result request
      (Asgi.PlainTextResponse "Unable to parse request body as JSON" 400)
| handler_missing_files :
    handler_answer handler process_result request
      (Asgi.PlainTextResponse "File(s) missing in form data" 400)
| handler_unsupported :
    handler_answer handler process_result request
      (Asgi.PlainTextResponse "Unsupported Media Type" 415)
| handler_method :
    handler_answer handler process_result request
      (Asgi.PlainTextResponse "Method Not Allowed" 405)
| handler_no_query :
    handler_answer handler process_result request
      (Asgi.PlainTextResponse "No GraphQL query found in the request" 400)
| handler_operation_type operation_type :
    handler_answer handler process_result request
      (Asgi.PlainTextResponse
         (as_http_error_reason operation_type (method request)) 400)
| handler_success result :
    handler_answer handler process_result request
      (success_response handler process_result request result).

(** The place of an action in a run of the view. *)
Definition view_stage (a : Action) : nat :=
  match a with
  | Admission _ => 0
  | ConsoleCheck _ => 1
  | CallGetSubResponse => 2
  | ContentTypeDispatch _ => 3
  | JsonLoads _ => 4
  | ReplacePlaceholders => 5
  | Parsed _ => 6
  | CallGetContext => 7
  | CallGetRootValue => 8
  | Gate _ => 9
  | Execute _ _ _ _ => 10
  | PrettyPrint => 11
  | ProcessResult => 12
  | BuildResponse => 13
  end.

(** The place of an action in a run of the handler. *)
Definition handler_stage (a : Action) : nat :=
  match a with
  | CallGetRootValue => 0
  | CallGetContext => 1
  | Admission _ => 2
  | ConsoleCheck _ => 3
  | CallGetSubResponse => 3
  | ContentTypeDispatch _ => 4
  | JsonLoads _ => 5
  | ReplacePlaceholders => 6
  | Parsed _ => 7
  | Gate _ => 8
  | PrettyPrint => 9
  | Execute _ _ _ _ => 10
  | ProcessResult => 11
  | BuildResponse => 12
  end.

Definition is_loads (a : Action) : bool :=
  match a with JsonLoads _ => true | _ => false end.

(** [a] may come right before [b]: its stage is earlier, or both are calls
    of [json.loads]. *)
Definition in_order (stage : Action → nat) (a b : Action) : bool :=
  (stage a <? stage b)%nat || (is_loads a && is_loads b).

(** The actions of [t] come in the order of their stages, none twice but
    for [json.loads]. *)
Fixpoint in_stages (stage : Action → nat) (t : list Action) : bool :=
  match t with
  | a :: (b :: _) as t' => in_order stage a b && in_stages stage t'
  | _ => true
  end.

(** The stages of [t] lie between [low] and [high]. *)
Definition between (stage : Action → nat) (low high : nat)
    (t : list Action) : bool :=
  forallb (fun a => (low <=? stage a)%nat && (stage a <=? high)%nat) t.




(** The request data read off a decoded JSON object. *)
Definition request_data_of (d : gmap string Value) : GraphQLRequestData :=
  {| query := default VNone (d !! "query");
     variables := default VNone (d !! "variables");
     operation_name := default VNone (d !! "operationName") |}.

End Answers.

(** ** What the gate lets through *)

Section GateSet.
Context `{Runtime}.

(** [allowed] is what the gate makes of the set [from_http method] returns
    under [flag]: only QUERY can be missing, and only for a GET with the
    flag off. *)
Definition gated_by (flag : bool) (method : string)
    (allowed : gset OperationType) : Prop :=
  ∃ legal,
    from_http method = Some legal
    ∧ allowed ⊆ legal
    ∧ legal ∖ {[QUERY]} ⊆ allowed
    ∧ (flag = true ∨ method ≠ "GET" → allowed = legal)
    ∧ (flag = false → method = "GET" → QUERY ∉ allowed).

End GateSet.

(** ** The test client: [tests/http/clients/base.py] *)

Module Client.

#[local] Unset Elimination Schemes.

(** The Python objects the client handles: what the variables of a request
    hold and what it puts into a body. A dictionary keeps the order in which
    its keys were inserted. *)
Inductive Obj :=
| ONone
| OStr (s : string)
| OList (items : list Obj)
| ODict (entries : list (string * Obj)).

#[local] Set Elimination Schemes.

(** What the helpers of the client raise. *)
Inductive ClientError :=
| AssertionError
| IndexError.

(** A Python [dict] with its insertion order: no key occurs twice. *)
Definition odict (V : Type) : Type := list (string * V).

Section Dict.
Context {V : Type}.

(** [key in d] *)
Definition od_mem (key : string) (d : odict V) : bool :=
  existsb (fun entry => String.eqb entry.1 key) d.

(** [d.get(key)] *)
Fixpoint od_get (key : string) (d : odict V) : option V :=
  match d with
  | [] => None
  | (k, v) :: d' => if String.eqb k key then Some v else od_get key d'
  end.

(** [d[key] = value]: in place when the key is there, at the end when not. *)
Fixpoint od_set (key : string) (value : V) (d : odict V) : odict V :=
  match d with
  | [] => [(key, value)]
  | (k, v) :: d' =>
      if String.eqb k key then (k, value) :: d'
      else (k, v) :: od_set key value d'
  end.

(** [d.setdefault(key, value)], for its effect on [d]. *)
Definition od_setdefault (key : string) (value : V) (d : odict V) : odict V :=
  if od_mem key d then d else d ++ [(key, value)].

(** [d.pop(key)], for its effect on [d]. *)
Definition od_pop (key : string) (d : odict V) : odict V :=
  List.filter (fun entry => negb (String.eqb entry.1 key)) d.

End Dict.

(** [d[key].append(item)], for a key that is there. *)
Definition od_append (key : string) (item : string)
    (d : odict (list string)) : odict (list string) :=
  map (fun entry =>
         if String.eqb entry.1 key then (entry.1, entry.2 ++ [item])
         else entry) d.

(** Python's truth value of an optional dictionary. *)
Definition truthy {V} (d : option (odict V)) : bool :=
  match d with
  | Some (_ :: _) => true
  | _ => false
  end.

(** [HttpClient._get_headers]. The headers are looked up by name, so they
    are a finite map; [{**a, **b}] is [b] over [a]. *)
Definition _get_headers (method : string)
    (headers : option (gmap string string))
    (files : option (odict UploadedFile)) : gmap string string :=
  let content_type :=
    if String.eqb method "post" && negb (truthy files)
    then Some "application/json" else None in
  let addition_headers : gmap string string :=
    match content_type with
    | Some content_type => {["Content-Type" := content_type]}
    | None => ∅
    end in
  match headers with
  | None => addition_headers
  | Some headers => headers ∪ addition_headers
  end.

(** The inner loop of [_build_multipart_file_map], over the items of a list
    of files from [index] on: each takes the first file that is left in
    [_kwargs]. *)
Fixpoint number_files (key : string) (index : nat) (values : list Obj)
    (_kwargs : odict UploadedFile) (files_map : odict (list string))
  : ClientError + odict (list string) :=
  match values with
  | [] => inr files_map
  | _ :: values' =>
      match _kwargs with
      | [] => inl IndexError
      | (k, _) :: _ =>
          let _kwargs := od_pop k _kwargs in
          let files_map := od_setdefault k [] files_map in
          let files_map :=
            od_append k ("variables." +:+ key +:+ "." +:+ pretty index)
              files_map in
          number_files key (S index) values' _kwargs files_map
      end
  end.

(** The outer loop of [_build_multipart_file_map], over the variables that
    are left, with the map built so far. *)
Fixpoint map_variables (variables : odict Obj) (files : odict UploadedFile)
    (files_map : odict (list string)) : ClientError + odict (list string) :=
  match variables with
  | [] => inr files_map
  | (key, values) :: variables' =>
      let folder :=
        match values with
        | ODict entries =>
            match entries with
            | [] => inl IndexError
            | (folder_key, inner) :: _ =>
                inr (key +:+ "." +:+ folder_key, inner)
            end
        | _ => inr (key, values)
        end in
      match folder with
      | inl e => inl e
      | inr (key, values) =>
          match values with
          | OList items =>
              match number_files key 0 items files files_map with
              | inl e => inl e
              | inr files_map => map_variables variables' files files_map
              end
          | _ =>
              map_variables variables' files
                (od_set key ["variables." +:+ key] files_map)
          end
      end
  end.

(** [HttpClient._build_multipart_file_map] *)
Definition _build_multipart_file_map (variables : odict Obj)
    (files : odict UploadedFile) : ClientError + odict (list string) :=
  map_variables variables files [].

(** The file map as the object [json.dumps] is given. *)
Definition file_map_object (files_map : odict (list string)) : Obj :=
  ODict (map (fun entry => (entry.1, OList (map OStr entry.2))) files_map).

Section Body.

(** [json.dumps] *)
Variable dumps : Obj → string.

(** [HttpClient._build_body]; the result [None] is Python's. *)
Definition _build_body (query : option string)
    (variables : option (odict Obj)) (files : option (odict UploadedFile))
    (method : string) : ClientError + option (odict Obj) :=
  match query with
  | None =>
      if files is Some _ then inl AssertionError
      else if variables is Some _ then inl AssertionError
      else inr None
  | Some query =>
      let body : odict Obj := [("query", OStr query)] in
      let body :=
        if truthy variables
        then od_set "variables" (ODict (default [] variables)) body
        else body in
      let built :=
        if truthy files then
          match variables with
          | None => inl AssertionError
          | Some variables =>
              match _build_multipart_file_map variables (default [] files) with
              | inl e => inl e
              | inr file_map =>
                  inr [("operations", OStr (dumps (ODict body)));
                       ("map", OStr (dumps (file_map_object file_map)))]
              end
          end
        else inr body in
      match built with
      | inl e => inl e
      | inr body =>
          let body :=
            if String.eqb method "get" && truthy variables
            then od_set "variables"
                   (OStr (dumps (ODict (default [] variables)))) body
            else body in
          inr (Some body)
      end
  end.

End Body.

End Client.

(** ** Reading a file map *)

(** Every path of the map begins with [variables.]. *)
Definition well_prefixed (files_map : Client.odict (list string)) : Prop :=
  ∀ entry path, entry ∈ files_map → path ∈ entry.2 →
                Str.startswith path "variables." = true.

(** The entries [number_files] adds for the files [used], in their order,
    from [index] on. *)
Definition numbered (key : string) (index : nat)
    (used : Client.odict UploadedFile) : Client.odict (list string) :=
  imap (fun i entry =>
          (entry.1,
           ["variables." +:+ key +:+ "." +:+ pretty (index + i)%nat])) used.

(** A value that is neither a list nor a dictionary. *)
Definition is_scalar (o : Client.Obj) : bool :=
  match o with
  | Client.ONone | Client.OStr _ => true
  | _ => false
  end.

(** ** More examples *)

Module Sample.

(** [json.loads] that also decodes the empty list. *)
Definition json (text : string) : option Value :=
  if String.eqb text "[]" then Some (VList []) else Example.json text.

(** The runtime of the examples, with that [json.loads]. *)
Definition runtime : Runtime :=
  {| Ctx := string;
     RootValue := string;
     ExecutionResult := Value;
     GraphQLHTTPResponse := Value;
     BackgroundTask := string;
     json_loads := json;
     decode_utf8 := Example.utf8;
     decode_detected := Example.detected;
     replace_placeholders_with_files :=
       @replace_placeholders_with_files Example.runtime;
     from_http := @from_http Example.runtime;
     as_http_error_reason := @as_http_error_reason Example.runtime;
     http_process_result := fun result => result;
     get_graphiql_html := @get_graphiql_html Example.runtime;
     init_headers := @init_headers Example.runtime |}.

Definition view : @BaseView.BaseHTTPView runtime string :=
  {| BaseView.schema :=
       Spec.gated_schema (H := runtime)
         Example.declared_kind Example.run_operation;
     BaseView.should_render_graphiql := BaseView.base_should_render_graphiql;
     BaseView.allow_queries_via_get := true;
     BaseView.get_sub_response := fun _ => "";
     BaseView.get_context := fun _ sub_response => ("context", sub_response);
     BaseView.get_root_value := fun _ => None;
     BaseView.render_graphiql := fun _ => "<html>GraphiQL</html>";
     BaseView._create_response := fun _ _ => "{...}" |}.

(** [POST /graphql] with a JSON content type and the body [[]] *)
Definition post_list : Request :=
  Example.request "POST" (Some "application/json") "[]" ∅.

(** [POST /graphql] with a JSON content type and the body [{}] *)
Definition post_object : Request :=
  Example.request "POST" (Some "application/json") "{}" ∅.

(** [POST /graphql] with a multipart form whose [operations] field is an
    opening brace. *)
Definition post_form : Request :=
  {| method := "POST";
     content_type := Some "multipart/form-data; boundary=x";
     accept := None;
     data := Some (BodyBytes []);
     body := None;
     raw_body := None;
     received := [];
     form := {["operations" := "{"]};
     files := ∅;
     query_params := ∅ |}.

(** [POST /graphql] with a JSON content type and the body [{}], as a
    framework hands it over whose request has no [data] and holds the bytes
    in [body]. *)
Definition post_in_body : Request :=
  {| method := "POST";
     content_type := Some "application/json";
     accept := None;
     data := None;
     body := Some (BodyBytes (list_byte_of_string "{}"));
     raw_body := None;
     received := list_byte_of_string "{}";
     form := ∅;
     files := ∅;
     query_params := ∅ |}.

(** [POST /graphql] with a JSON content type and the body [{}] after a
    UTF-8 byte order mark. *)
Definition post_with_mark : Request :=
  {| method := "POST";
     content_type := Some "application/json";
     accept := None;
     data := Some (BodyBytes (xef :: xbb :: xbf :: list_byte_of_string "{}"));
     body := None;
     raw_body := None;
     received := xef :: xbb :: xbf :: list_byte_of_string "{}";
     form := ∅;
     files := ∅;
     query_params := ∅ |}.

(** A context builder that leaves the sub-response alone. *)
Definition plain_context (request : Request)
    (sub_response : @Asgi.Response Example.runtime)
  : string * @Asgi.Response Example.runtime :=
  ("context", sub_response).

(** Two uploaded files, in the order they were given. *)
Definition two_files : Client.odict UploadedFile :=
  [("a.txt", Upload "a.txt"); ("b.txt", Upload "b.txt")].

(** [json.dumps], as far as the examples look at it. *)
Definition dumps (o : Client.Obj) : string :=
  match o with
  | Client.ODict [] => "{}"
  | _ => "{...}"
  end.

End Sample.

(** * Properties *)

(** ** Laws of the trace monad *)

Section TracedLaws.
Context `{Runtime}.

Lemma bind_ok {A B} (t : list Action) (a : A) (f : A → traced B) :
  (t, Ok a) ≫= f = (t ++ trace (f a), outcome (f a)).
Proof. unfold mbind, traced_bind. by destruct (f a). Qed.

Lemma bind_raise {A B} (t : list Action) (e : Exception) (f : A → traced B) :
  (t, Raise e) ≫= f = (t, Raise e).
Proof. reflexivity. Qed.

Lemma trace_bind {A B} (m : traced A) (f : A → traced B) :
  trace (m ≫= f)
  = trace m ++ match outcome m with Ok a => trace (f a) | Raise _ => [] end.
Proof.
  destruct m as [t [a|e]]; [rewrite bind_ok | rewrite bind_raise]; simpl;
    by rewrite ?app_nil_r.
Qed.

Lemma outcome_bind {A B} (m : traced A) (f : A → traced B) :
  outcome (m ≫= f)
  = match outcome m with Ok a => outcome (f a) | Raise e => Raise e end.
Proof. destruct m as [t [a|e]]; [by rewrite bind_ok | done]. Qed.

Lemma traced_eta {A} (m : traced A) : m = (trace m, outcome m).
Proof. by destruct m. Qed.

Lemma preceded_app target required seen t1 t2 :
  preceded target required seen (t1 ++ t2)
  = preceded target required seen t1
    && preceded target required (seen || existsb required t1) t2.
Proof.
  revert seen. induction t1 as [|a t1 IH]; intros seen; simpl.
  - by rewrite orb_false_r.
  - rewrite IH. rewrite <- !andb_assoc. by rewrite <- orb_assoc.
Qed.

(** What [preceded] computes: a target is never reached before a required
    action. *)
Lemma preceded_sound target required t pre a post :
  preceded target required false t = true →
  t = pre ++ a :: post → target a = true →
  ∃ b, b ∈ pre ∧ required b = true.
Proof.
  intros Hp -> Ha. rewrite preceded_app in Hp.
  apply andb_true_iff in Hp as [_ Hp]. simpl in Hp. rewrite Ha in Hp.
  apply andb_true_iff in Hp as [Hp _].
  apply existsb_exists in Hp as (b & Hb & Hr).
  exists b. split; [by apply list_elem_of_In | done].
Qed.

End TracedLaws.

(** ** Traces that only contain actions of one kind *)

Section Only.
Context `{Runtime}.

Lemma only_ret P {A} (a : A) : only P (mret a : traced A).
Proof. reflexivity. Qed.

Lemma only_raise P {A} e : only P (raise e : traced A).
Proof. reflexivity. Qed.

Lemma only_lift P {A} (r : Exception + A) : only P (lift r).
Proof. by destruct r. Qed.

Lemma only_tell (P : Action → bool) a : P a = true → only P (tell a).
Proof. unfold only; simpl. by intros ->. Qed.

Lemma only_bind P {A B} (m : traced A) (f : A → traced B) :
  only P m → (∀ a, only P (f a)) → only P (m ≫= f).
Proof.
  unfold only. intros Hm Hf. rewrite trace_bind, forallb_app, Hm. simpl.
  destruct (outcome m); [apply Hf | done].
Qed.

Lemma only_try_except P {A} (m : traced A) handler :
  only P m → (∀ e h, handler e = Some h → only P h) →
  only P (try_except m handler).
Proof.
  unfold only. intros Hm Hh. destruct m as [t [a|e]]; simpl in *; [done|].
  destruct (handler e) as [[t' r]|] eqn:He; simpl; [|done].
  rewrite forallb_app, Hm. simpl. apply (Hh _ _ He).
Qed.

Lemma only_loads (P : Action → bool) data :
  P (JsonLoads data) = true → only P (loads data).
Proof.
  intros HP. unfold loads. apply only_bind; [by apply only_tell|].
  intros _. apply only_bind.
  - destruct data as [b|text]; [|apply only_ret].
    destruct (decode_detected b); [apply only_ret | apply only_raise].
  - intros text. destruct (json_loads text); [apply only_ret | apply only_raise].
Qed.

Lemma only_elem P {A} (m : traced A) a : only P m → a ∈ trace m → P a = true.
Proof.
  unfold only. rewrite forallb_forall. intros Hm Ha.
  by apply Hm, list_elem_of_In.
Qed.

Lemma only_weaken (P Q : Action → bool) {A} (m : traced A) :
  (∀ a, P a = true → Q a = true) → only P m → only Q m.
Proof.
  unfold only. rewrite !forallb_forall. intros HPQ Hm a Ha. by apply HPQ, Hm.
Qed.

(** [parse_request_data] performs one action, when it succeeds. *)
Lemma parse_request_data_run data :
  match outcome (Http.parse_request_data data) with
  | Ok request_data =>
      trace (Http.parse_request_data data) = [Parsed request_data]
      ∧ py_get data "query" = inr (query request_data)
      ∧ py_get data "variables" = inr (variables request_data)
      ∧ py_get data "operationName" = inr (operation_name request_data)
  | Raise e => trace (Http.parse_request_data data) = [] ∧ e = AttributeError
  end.
Proof. by destruct data. Qed.

Lemma only_parse_request_data (P : Action → bool) data :
  (∀ request_data, P (Parsed request_data) = true) →
  only P (Http.parse_request_data data).
Proof.
  intros HP. unfold only.
  pose proof (parse_request_data_run data) as Hrun.
  destruct (outcome (Http.parse_request_data data)).
  - destruct Hrun as [-> _]. simpl. by rewrite HP.
  - by destruct Hrun as [-> _].
Qed.

End Only.

(** ** The synchronous view, step by step *)

Section SyncView.
Context `{Runtime} {Response : Type}.
Variable self : BaseView.BaseHTTPView Response.

(** The view builds the request data the way [strawberry.http] does. *)
Lemma parse_http_body_eq request :
  BaseView.parse_http_body request
  = BaseView.read_data request ≫= Http.parse_request_data.
Proof. reflexivity. Qed.

Lemma only_parse_json (P : Action → bool) data :
  P (JsonLoads data) = true → only P (BaseView.parse_json data).
Proof.
  intros HP. apply only_try_except; [by apply only_loads|].
  intros [] h Hh; simplify_eq. apply only_raise.
Qed.

Lemma only_sync_read_data request :
  only is_parser_action (BaseView.read_data request).
Proof.
  unfold BaseView.read_data.
  apply only_bind; [by apply only_tell|]. intros _.
  destruct (Str.contains _ _);
    [|destruct (Str.startswith _ _); [|destruct (String.eqb _ _)]].
  - apply only_bind; [|intros body; by apply only_parse_json].
    repeat case_match; first [apply only_ret | apply only_raise].
  - unfold BaseView.parse_form.
    apply only_bind; [by apply only_parse_json|]. intros operations.
    apply only_bind; [by apply only_parse_json|]. intros files_map.
    apply only_bind; [by apply only_tell|]. intros _.
    case_match; [apply only_ret | apply only_raise].
  - apply only_bind; [|intros; apply only_ret].
    unfold BaseView.parse_query_params. case_match; [|apply only_ret].
    apply only_bind; [by apply only_loads | intros; apply only_ret].
  - apply only_raise.
Qed.

Lemma only_parse_http_body request :
  only is_parser_action (BaseView.parse_http_body request).
Proof.
  rewrite parse_http_body_eq.
  apply only_bind; [apply only_sync_read_data|].
  intros data. by apply only_parse_request_data.
Qed.

(** A successful parse ends with the request data it returns. *)
Lemma parse_http_body_parsed request request_data :
  outcome (BaseView.parse_http_body request) = Ok request_data →
  ∃ t, trace (BaseView.parse_http_body request) = t ++ [Parsed request_data].
Proof.
  rewrite parse_http_body_eq, outcome_bind, trace_bind.
  destruct (outcome (BaseView.read_data request)) as [data|]; [|done].
  intros Hok. pose proof (parse_request_data_run data) as Hrun.
  rewrite Hok in Hrun. destruct Hrun as [-> _]. by eexists.
Qed.

Lemma execute_operation_failed request sub_response t e :
  BaseView.parse_http_body request = (t, Raise e) →
  BaseView.execute_operation self request sub_response
  = (t, Raise (parse_error e)).
Proof.
  intros Hp. unfold BaseView.execute_operation. rewrite Hp.
  destruct e; simpl; rewrite ?app_nil_r; reflexivity.
Qed.

(** [from_http] raises for the method exactly when there is no allowed
    set. *)
Lemma sync_allowed_None request :
  sync_allowed self request = None ↔ from_http (method request) = None.
Proof. unfold sync_allowed. by destruct (from_http (method request)). Qed.

Lemma execute_operation_unknown_method request sub_response t request_data :
  BaseView.parse_http_body request = (t, Ok request_data) →
  from_http (method request) = None →
  BaseView.execute_operation self request sub_response
  = (t ++ [CallGetContext; CallGetRootValue], Raise ValueError).
Proof.
  intros Hp Hnone. unfold BaseView.execute_operation.
  rewrite Hp, Hnone. simpl.
  by destruct (BaseView.get_context self request sub_response).
Qed.

Lemma execute_operation_parsed request sub_response t request_data allowed :
  BaseView.parse_http_body request = (t, Ok request_data) →
  sync_allowed self request = Some allowed →
  BaseView.execute_operation self request sub_response
  = (t ++ [CallGetContext; CallGetRootValue;
           Gate allowed;
           Execute request_data
             (BaseView.get_context self request sub_response).1
             (BaseView.get_root_value self request)
             allowed],
     match sync_engine_call self request sub_response request_data allowed with
     | inr result =>
         Ok (result, (BaseView.get_context self request sub_response).2)
     | inl e => Raise e
     end).
Proof.
  intros Hp Hallowed. unfold sync_allowed in Hallowed.
  unfold BaseView.execute_operation, sync_engine_call.
  rewrite Hp. simpl.
  destruct (from_http (method request)) as [legal|]; [|done].
  simpl in Hallowed. injection Hallowed as <-.
  destruct (BaseView.get_context self request sub_response) as [context sub'].
  simpl.
  match goal with |- context [lift ?c] => destruct c end; reflexivity.
Qed.

Lemma run_rejected request :
  BaseView.is_request_allowed request = false →
  BaseView.run self request
  = ([Admission false],
     Raise (HTTPException 405 "GraphQL only supports GET and POST requests.")).
Proof. intros Ha. unfold BaseView.run. by rewrite Ha. Qed.

Lemma run_console request :
  BaseView.is_request_allowed request = true →
  BaseView.should_render_graphiql self request = true →
  BaseView.run self request
  = ([Admission true; ConsoleCheck true],
     Ok (BaseView.render_graphiql self request)).
Proof. intros Ha Hr. unfold BaseView.run. by rewrite Ha, Hr. Qed.

Lemma run_failed request t e :
  BaseView.is_request_allowed request = true →
  BaseView.should_render_graphiql self request = false →
  BaseView.parse_http_body request = (t, Raise e) →
  BaseView.run self request
  = (sync_prefix ++ t, Raise (execution_error request (parse_error e))).
Proof.
  intros Ha Hr Hp. unfold BaseView.run. rewrite Ha, Hr. simpl.
  rewrite (execute_operation_failed _ _ _ _ Hp).
  destruct e; simpl; rewrite ?app_nil_r; reflexivity.
Qed.

(** A request whose method [from_http] does not know ends with its
    [ValueError], after the parse and the two builders. *)
Lemma run_unknown_method request t request_data :
  BaseView.is_request_allowed request = true →
  BaseView.should_render_graphiql self request = false →
  BaseView.parse_http_body request = (t, Ok request_data) →
  from_http (method request) = None →
  BaseView.run self request
  = (sync_prefix ++ t ++ [CallGetContext; CallGetRootValue],
     Raise ValueError).
Proof.
  intros Ha Hr Hp Hnone. unfold BaseView.run. rewrite Ha, Hr. simpl.
  by rewrite (execute_operation_unknown_method _ _ _ _ Hp Hnone).
Qed.

Lemma run_parsed request t request_data allowed :
  BaseView.is_request_allowed request = true →
  BaseView.should_render_graphiql self request = false →
  BaseView.parse_http_body request = (t, Ok request_data) →
  sync_allowed self request = Some allowed →
  let sub_response := BaseView.get_sub_response self request in
  BaseView.run self request
  = (sync_prefix ++ t
     ++ [CallGetContext; CallGetRootValue;
         Gate allowed;
         Execute request_data
           (BaseView.get_context self request sub_response).1
           (BaseView.get_root_value self request)
           allowed]
     ++ match sync_engine_call self request sub_response request_data
                allowed with
        | inr _ => [ProcessResult; BuildResponse]
        | inl _ => []
        end,
     match sync_engine_call self request sub_response request_data allowed with
     | inr result =>
         Ok (BaseView._create_response self
               (BaseView.process_result request result)
               (BaseView.get_context self request sub_response).2)
     | inl e => Raise (execution_error request e)
     end).
Proof.
  intros Ha Hr Hp Hallowed sub_response. unfold BaseView.run.
  rewrite Ha, Hr. simpl.
  rewrite (execute_operation_parsed _ _ _ _ _ Hp Hallowed). fold sub_response.
  destruct (sync_engine_call self request sub_response request_data allowed)
    as [e|result]; simpl.
  - destruct e; simpl; rewrite ?app_nil_r; reflexivity.
  - by rewrite <- app_assoc.
Qed.

End SyncView.

(** ** The asynchronous handler, step by step *)

Section AsyncHandler.
Context `{Runtime}.
Variable self : Asgi.HTTPHandler.

Lemma only_http_parse_query_params (P : Action → bool) params :
  (∀ data, P (JsonLoads data) = true) → only P (Http.parse_query_params params).
Proof.
  intros HP. unfold Http.parse_query_params. case_match; [|apply only_ret].
  apply only_bind; [by apply only_loads | intros; apply only_ret].
Qed.

Lemma only_loads_part (P : Action → bool) part :
  (∀ data, P (JsonLoads data) = true) → only P (Asgi.loads_part part).
Proof. intros HP. destruct part; [by apply only_loads | apply only_raise]. Qed.

Lemma only_async_read_data request :
  only is_read_action (Asgi.read_data self request).
Proof.
  unfold Asgi.read_data.
  destruct (String.eqb (method request) "GET");
    [|destruct (String.eqb (method request) "POST")].
  - apply only_bind; [by apply only_tell|]. intros _.
    destruct (negb _).
    + apply only_try_except.
      * apply only_bind; [by apply only_http_parse_query_params|].
        intros; apply only_ret.
      * intros [] h Hh; simplify_eq. apply only_ret.
    + apply only_bind; [by apply only_tell|]. intros _.
      destruct (Asgi.should_render_graphiql self request); apply only_ret.
  - apply only_bind; [by apply only_tell|]. intros _.
    apply only_bind; [by apply only_tell|]. intros _.
    destruct (Str.contains _ _); [|destruct (Str.startswith _ _)].
    + apply only_try_except.
      * apply only_bind; [by apply only_loads | intros; apply only_ret].
      * intros [] h Hh; simplify_eq. apply only_ret.
    + apply only_bind.
      * apply only_try_except.
        -- apply only_bind; [by apply only_loads_part|]. intros operations.
           apply only_bind; [by apply only_loads_part|].
           intros; apply only_ret.
        -- intros [] h Hh; simplify_eq. apply only_ret.
      * intros [response|[operations files_map]]; [apply only_ret|].
        apply only_bind; [by apply only_tell|]. intros _.
        destruct (replace_placeholders_with_files _ _ _); apply only_ret.
    + apply only_ret.
  - apply only_bind; [by apply only_tell | intros; apply only_ret].
Qed.

Lemma async_allowed_None request :
  async_allowed self request = None ↔ from_http (method request) = None.
Proof. unfold async_allowed. by destruct (from_http (method request)). Qed.

Lemma execute_request_unknown_method request (execute : executor)
    process_result root_value context request_data :
  from_http (method request) = None →
  Asgi.execute_request self request execute process_result
                       root_value context request_data
  = ([], Raise ValueError).
Proof. intros Hnone. unfold Asgi.execute_request. by rewrite Hnone. Qed.

Lemma execute_request_eq request (execute : executor) process_result
    root_value context request_data allowed :
  async_allowed self request = Some allowed →
  let call :=
    execute (query request_data) (variables request_data) context
            (operation_name request_data) root_value allowed in
  Asgi.execute_request self request execute process_result
                       root_value context request_data
  = ([Gate allowed]
     ++ trace call
     ++ match outcome call with
        | Ok _ => [ProcessResult; BuildResponse]
        | Raise _ => []
        end,
     async_outcome self process_result request (outcome call)).
Proof.
  intros Hallowed call. unfold async_allowed in Hallowed.
  unfold Asgi.execute_request.
  destruct (from_http (method request)) as [legal|]; [|done].
  simpl in Hallowed. injection Hallowed as Hallowed. simpl.
  rewrite Hallowed. fold call. destruct call as [t [result|e]]; simpl.
  - by rewrite app_nil_r.
  - destruct e; simpl; rewrite ?app_nil_r; reflexivity.
Qed.

(** [HTTPHandler.execute]: the debug print, then the call of the engine. *)
Lemma handler_execute_eq q v context o root_value allowed :
  Asgi.execute self q v context o root_value allowed
  = ((if Asgi.debug self then [PrettyPrint] else [])
     ++ [Execute {| query := q; variables := v; operation_name := o |}
           context root_value allowed],
     match Schema.execute (Asgi.schema self) q root_value v context o
             allowed with
     | inr result => Ok result
     | inl e => Raise e
     end).
Proof.
  unfold Asgi.execute.
  destruct (Asgi.debug self), (Schema.execute _ _ _ _ _ _ _); reflexivity.
Qed.

Lemma get_http_response_returned request execute process_result
    root_value context t response :
  Asgi.read_data self request = (t, Ok (inl response)) →
  Asgi.get_http_response self request execute process_result root_value context
  = (t, Ok response).
Proof.
  intros Hr. unfold Asgi.get_http_response. rewrite Hr. simpl.
  by rewrite app_nil_r.
Qed.

Lemma get_http_response_raised request execute process_result
    root_value context t e :
  Asgi.read_data self request = (t, Raise e) →
  Asgi.get_http_response self request execute process_result root_value context
  = (t, Raise e).
Proof. intros Hr. unfold Asgi.get_http_response. by rewrite Hr. Qed.

Lemma get_http_response_read request execute process_result
    root_value context t data :
  Asgi.read_data self request = (t, Ok (inr data)) →
  Asgi.get_http_response self request execute process_result root_value context
  = match outcome (Http.parse_request_data data) with
    | Ok request_data =>
        let run :=
          Asgi.execute_request self request execute process_result
                               root_value context request_data in
        (t ++ Parsed request_data :: trace run, outcome run)
    | Raise e => (t, Raise e)
    end.
Proof.
  intros Hr. unfold Asgi.get_http_response. rewrite Hr, bind_ok.
  pose proof (parse_request_data_run data) as Hrun.
  destruct (Http.parse_request_data data) as [t' [request_data|e]];
    simpl in Hrun |- *.
  - destruct Hrun as [-> _].
    destruct (Asgi.execute_request _ _ _ _ _ _ _) as [t'' r]. simpl.
    by rewrite ?app_nil_r.
  - destruct Hrun as [-> ->]. simpl. by rewrite ?app_nil_r.
Qed.

Lemma handle_eq request :
  let response :=
    Asgi.get_http_response self request (Asgi.execute self)
      (Asgi.process_result self) (Asgi.get_root_value self request)
      (context_phase self request).1 in
  Asgi.handle self request
  = (CallGetRootValue :: CallGetContext :: trace response,
     match outcome response with
     | Ok response =>
         Ok (Asgi.merge_sub_response response (context_phase self request).2)
     | Raise e => Raise e
     end).
Proof.
  intros response. unfold Asgi.handle. subst response. unfold context_phase.
  destruct (Asgi.get_context self request Asgi.fresh_sub_response)
    as [context sub_response]. simpl.
  destruct (Asgi.get_http_response _ _ _ _ _ _) as [t [response|e]]; simpl;
    by rewrite ?app_nil_r.
Qed.

End AsyncHandler.

(** ** Where an [Execute] action comes from *)

(** Closes a goal whose hypothesis [H] puts an action in a trace that
    visibly does not hold it. *)
Ltac absurd_elem H :=
  simpl in H;
  repeat (apply elem_of_cons in H as [H|H]; [discriminate|]);
  by apply elem_of_nil in H.

Section ExecuteInversion.
Context `{Runtime}.

Lemma parser_action_not_execute a :
  is_parser_action a = true → is_execute a = false.
Proof. by destruct a. Qed.

Lemma read_action_not_execute a :
  is_read_action a = true → is_execute a = false.
Proof. by destruct a. Qed.

(** A synchronous run that reaches the engine admitted the request, did
    not render the console and parsed the request data it executes. *)
Lemma run_execute_inv {Response} (self : BaseView.BaseHTTPView Response)
    request request_data context root_value allowed :
  Execute request_data context root_value allowed
    ∈ trace (BaseView.run self request) →
  BaseView.is_request_allowed request = true
  ∧ BaseView.should_render_graphiql self request = false
  ∧ (∃ t, BaseView.parse_http_body request = (t, Ok request_data))
  ∧ context = (BaseView.get_context self request
                 (BaseView.get_sub_response self request)).1
  ∧ root_value = BaseView.get_root_value self request
  ∧ sync_allowed self request = Some allowed.
Proof.
  intros Hin.
  destruct (BaseView.is_request_allowed request) eqn:Ha;
    [|rewrite (run_rejected self _ Ha) in Hin; absurd_elem Hin].
  destruct (BaseView.should_render_graphiql self request) eqn:Hr;
    [rewrite (run_console self _ Ha Hr) in Hin; absurd_elem Hin|].
  pose proof (only_parse_http_body request) as Honly.
  destruct (BaseView.parse_http_body request) as [t [rd|e]] eqn:Hp.
  - destruct (sync_allowed self request) as [allowed'|] eqn:Hallowed.
    + rewrite (run_parsed self _ _ _ _ Ha Hr Hp Hallowed) in Hin. simpl in Hin.
      rewrite !elem_of_cons, elem_of_app, !elem_of_cons in Hin.
      destruct Hin as [?|[?|[?|[Hin|[?|[?|[?|[Heq|Hin]]]]]]]];
        try discriminate.
      * apply (only_elem _ _ _ Honly) in Hin. discriminate.
      * simplify_eq. eauto 10.
      * destruct (sync_engine_call _ _ _ _ _); absurd_elem Hin.
    + apply sync_allowed_None in Hallowed.
      rewrite (run_unknown_method self _ _ _ Ha Hr Hp Hallowed) in Hin.
      simpl in Hin. rewrite !elem_of_cons, elem_of_app, !elem_of_cons in Hin.
      destruct Hin as [?|[?|[?|[Hin|[?|[?|Hin]]]]]]; try discriminate.
      * apply (only_elem _ _ _ Honly) in Hin. discriminate.
      * by apply elem_of_nil in Hin.
  - rewrite (run_failed self _ _ _ Ha Hr Hp) in Hin. simpl in Hin.
    rewrite !elem_of_cons in Hin.
    destruct Hin as [?|[?|[?|Hin]]]; try discriminate.
    apply (only_elem _ _ _ Honly) in Hin. discriminate.
Qed.

(** The same for [get_http_response] with the handler's [execute]. *)
Lemma get_http_response_execute_inv (self : Asgi.HTTPHandler)
    request process_result root_value context
    request_data context' root_value' allowed :
  Execute request_data context' root_value' allowed
    ∈ trace (Asgi.get_http_response self request (Asgi.execute self)
               process_result root_value context) →
  (∃ t data, Asgi.read_data self request = (t, Ok (inr data))
             ∧ outcome (Http.parse_request_data data) = Ok request_data)
  ∧ context' = context ∧ root_value' = root_value
  ∧ async_allowed self request = Some allowed
  ∧ outcome (Asgi.get_http_response self request (Asgi.execute self)
               process_result root_value context)
    = async_outcome self process_result request
        (outcome (Asgi.execute self (query request_data)
                    (variables request_data) context
                    (operation_name request_data) root_value allowed)).
Proof.
  intros Hin.
  pose proof (only_async_read_data self request) as Honly.
  destruct (Asgi.read_data self request) as [t [[response|data]|e]] eqn:Hr.
  - rewrite (get_http_response_returned self _ _ _ _ _ _ _ Hr) in Hin.
    apply (only_elem _ _ _ Honly) in Hin. discriminate.
  - rewrite (get_http_response_read self _ _ _ _ _ _ _ Hr) in Hin |- *.
    destruct (outcome (Http.parse_request_data data)) as [rd|e] eqn:Hp.
    + destruct (async_allowed self request) as [allowed'|] eqn:Hallowed.
      * simpl in Hin |- *.
        rewrite (execute_request_eq self _ _ _ _ _ _ _ Hallowed) in Hin |- *.
        rewrite handler_execute_eq in Hin. simpl in Hin.
        rewrite elem_of_app, !elem_of_cons, !elem_of_app in Hin.
        destruct Hin as [Hin|[?|[?|[[Hin|Hin]|Hin]]]]; try discriminate.
        -- apply (only_elem _ _ _ Honly) in Hin. discriminate.
        -- destruct (Asgi.debug self); absurd_elem Hin.
        -- apply list_elem_of_singleton in Hin. destruct rd. simplify_eq.
           eauto 10.
        -- destruct (Schema.execute _ _ _ _ _ _ _); absurd_elem Hin.
      * apply async_allowed_None in Hallowed. simpl in Hin.
        rewrite (execute_request_unknown_method self _ _ _ _ _ _ Hallowed)
          in Hin.
        simpl in Hin. rewrite elem_of_app, elem_of_cons in Hin.
        destruct Hin as [Hin|[?|Hin]]; try discriminate.
        -- apply (only_elem _ _ _ Honly) in Hin. discriminate.
        -- by apply elem_of_nil in Hin.
    + simpl in Hin. apply (only_elem _ _ _ Honly) in Hin. discriminate.
  - rewrite (get_http_response_raised self _ _ _ _ _ _ _ Hr) in Hin.
    apply (only_elem _ _ _ Honly) in Hin. discriminate.
Qed.

End ExecuteInversion.

(** ** The gate *)

Section Gate.
Context `{Runtime}.

Lemma get_legal_without_query :
  Spec.from_http_as_specified →
  (legal ← from_http "GET"; Some (legal ∖ {[QUERY]})) = Some ∅.
Proof.
  intros Hspec. rewrite (Hspec "GET" {[QUERY]}); [|reflexivity].
  simpl. by rewrite difference_diag_L.
Qed.

Lemma gated_execute_empty declared_kind run_operation
    query root_value variable_values context_value operation_name :
  Spec.gated_execute declared_kind run_operation query root_value
    variable_values context_value operation_name ∅
  = inl (InvalidOperationTypeError (declared_kind query operation_name)).
Proof.
  unfold Spec.gated_execute. rewrite bool_decide_eq_false_2; [done|].
  apply not_elem_of_empty.
Qed.

End Gate.

(** C1. For a request with method GET and [allow_queries_via_get] false,
    with [from_http] and the engine's gate as the specification has them:
    the set of allowed operation types handed to the engine is the GET-legal
    set without QUERY, which is empty, and every run that reaches the engine
    ends with the invalid-operation-type error, status 400, in the
    synchronous view as in the asynchronous handler. *)
Theorem C1_get_without_queries `{Runtime} {Response}
    (view : BaseView.BaseHTTPView Response) (handler : Asgi.HTTPHandler)
    declared_kind run_operation (request : Request) :
  method request = "GET" →
  Spec.from_http_as_specified →
  BaseView.allow_queries_via_get view = false →
  Asgi.allow_queries_via_get handler = false →
  BaseView.schema view = Spec.gated_schema declared_kind run_operation →
  Asgi.schema handler = Spec.gated_schema declared_kind run_operation →
  (∀ request_data context root_value allowed,
     Execute request_data context root_value allowed
       ∈ trace (BaseView.run view request) →
     allowed = ∅ ∧ (QUERY ∉ allowed)
     ∧ outcome (BaseView.run view request)
       = Raise (HTTPException 400
                  (as_http_error_reason
                     (declared_kind (query request_data)
                                    (operation_name request_data)) "GET")))
  ∧ (∀ request_data context root_value allowed,
       Execute request_data context root_value allowed
         ∈ trace (Asgi.handle handler request) →
       allowed = ∅ ∧ (QUERY ∉ allowed)
       ∧ outcome (Asgi.get_http_response handler request
                    (Asgi.execute handler) (Asgi.process_result handler)
                    (Asgi.get_root_value handler request)
                    (context_phase handler request).1)
         = Ok (Asgi.PlainTextResponse
                 (as_http_error_reason
                    (declared_kind (query request_data)
                                   (operation_name request_data)) "GET") 400)).
Proof.
  intros Hget Hspec Hsync Hasync Hschema Hschema'. split.
  - intros rd ctx root allowed Hin.
    destruct (run_execute_inv view _ _ _ _ _ Hin)
      as (Ha & Hr & [t Hp] & _ & _ & Hallowed).
    assert (sync_allowed view request = Some ∅) as Hempty.
    { unfold sync_allowed. rewrite Hsync, Hget. simpl.
      by apply get_legal_without_query. }
    rewrite Hempty in Hallowed. injection Hallowed as <-.
    split; [done|]. split; [apply not_elem_of_empty|].
    rewrite (run_parsed view _ _ _ _ Ha Hr Hp Hempty). simpl.
    unfold sync_engine_call. rewrite Hschema. simpl.
    rewrite gated_execute_empty. simpl. by rewrite Hget.
  - intros rd ctx root allowed Hin.
    rewrite handle_eq in Hin. simpl in Hin.
    apply elem_of_cons in Hin as [?|Hin]; [discriminate|].
    apply elem_of_cons in Hin as [?|Hin]; [discriminate|].
    destruct (get_http_response_execute_inv handler _ _ _ _ _ _ _ _ Hin)
      as (_ & _ & _ & Hallowed & ->).
    assert (async_allowed handler request = Some ∅) as Hempty.
    { unfold async_allowed. rewrite Hasync, Hget. simpl.
      by apply get_legal_without_query. }
    rewrite Hempty in Hallowed. injection Hallowed as <-.
    split; [done|]. split; [apply not_elem_of_empty|].
    rewrite handler_execute_eq, Hschema'. simpl.
    rewrite gated_execute_empty. simpl. by rewrite Hget.
Qed.

Lemma example_from_http_as_specified :
  Spec.from_http_as_specified (H := Example.runtime).
Proof.
  intros method allowed Hlegal. unfold Spec.transport_legal in Hlegal.
  destruct (String.eqb method "GET") eqn:Hget.
  - apply String.eqb_eq in Hget as ->. by simplify_eq.
  - destruct (String.eqb method "POST") eqn:Hpost; [|done].
    apply String.eqb_eq in Hpost as ->. by simplify_eq.
Qed.

Lemma C1_get_without_queries_witness :
  trace (BaseView.run (Example.view false) Example.get_hello)
  = [Admission true; ConsoleCheck false; CallGetSubResponse;
     ContentTypeDispatch ""; Parsed Example.hello;
     CallGetContext; CallGetRootValue; Gate ∅;
     Execute (H := Example.runtime) Example.hello "context" None ∅]
  ∧ outcome (BaseView.run (Example.view false) Example.get_hello)
    = Raise (HTTPException 400 "queries are not allowed when using GET")
  ∧ answered (outcome (Asgi.get_http_response
                         (Example.handler false false) Example.get_hello
                         (Asgi.execute (Example.handler false false))
                         (Asgi.process_result (Example.handler false false))
                         None "context"))
    = Some (Some 400, "queries are not allowed when using GET").
Proof.
  destruct (C1_get_without_queries (H := Example.runtime)
              (Example.view false) (Example.handler false false)
              Example.declared_kind Example.run_operation Example.get_hello
              eq_refl example_from_http_as_specified
              eq_refl eq_refl eq_refl eq_refl) as [Hsync Hasync].
  assert (trace (BaseView.run (Example.view false) Example.get_hello)
          = [Admission true; ConsoleCheck false; CallGetSubResponse;
             ContentTypeDispatch ""; Parsed Example.hello;
             CallGetContext; CallGetRootValue; Gate ∅;
             Execute (H := Example.runtime) Example.hello "context" None ∅]) as Htrace
    by (vm_compute; reflexivity).
  split; [exact Htrace|]. split.
  - apply (Hsync Example.hello "context" None ∅).
    rewrite Htrace. rewrite !elem_of_cons. tauto.
  - assert (Execute (H := Example.runtime) Example.hello "context" None ∅
              ∈ trace (Asgi.handle (Example.handler false false)
                         Example.get_hello)) as Hin.
    { replace (trace (Asgi.handle (Example.handler false false)
                        Example.get_hello))
        with [CallGetRootValue; CallGetContext; Admission true;
              Parsed Example.hello; Gate ∅;
              Execute (H := Example.runtime) Example.hello "context" None ∅]
        by (vm_compute; reflexivity).
      rewrite !elem_of_cons. tauto. }
    destruct (Hasync _ _ _ _ Hin) as (_ & _ & Hout).
    apply (f_equal answered) in Hout. exact Hout.
Defined.

(** ** Methods in another case *)




(** ** The response to a result of the engine *)

(** C9. When [get_http_response] reaches the engine and the engine returns
    a result, whether or not the result carries GraphQL errors, the response
    it builds has status 200, content type [application/json] and the
    encoded, processed result as body. *)
Theorem C9_result_answered_200_json `{Runtime} (handler : Asgi.HTTPHandler)
    (request : Request) (root_value : option RootValue) (context : Ctx)
    request_data context' root_value' allowed (result : ExecutionResult) :
  Execute request_data context' root_value' allowed
    ∈ trace (Asgi.get_http_response handler request (Asgi.execute handler)
               (Asgi.process_result handler) root_value context) →
  Schema.execute (Asgi.schema handler)
    (query request_data) root_value' (variables request_data) context'
    (operation_name request_data) allowed = inr result →
  ∃ response,
    outcome (Asgi.get_http_response handler request (Asgi.execute handler)
               (Asgi.process_result handler) root_value context)
    = Ok response
    ∧ Asgi.status_code response = Some 200
    ∧ Asgi.media_type response = Some "application/json"
    ∧ Asgi.body response
      = Asgi.encode_json handler (Asgi.process_result handler request result)
    ∧ Asgi.headers response
      = init_headers (Asgi.body response) 200 (Some "application/json").
Proof.
  intros Hin Hresult.
  destruct (get_http_response_execute_inv handler _ _ _ _ _ _ _ _ Hin)
    as (_ & -> & -> & _ & ->).
  rewrite handler_execute_eq, Hresult. simpl.
  eexists. split; [reflexivity|]. by simpl.
Qed.

Lemma C9_result_answered_200_json_witness :
  trace (Asgi.get_http_response (Example.handler false true) Example.get_hello
           (Asgi.execute (Example.handler false true))
           (Asgi.process_result (Example.handler false true)) None "context")
  = [Admission true; Parsed Example.hello; Gate {[QUERY]};
     Execute (H := Example.runtime) Example.hello "context" None {[QUERY]};
     ProcessResult; BuildResponse]
  ∧ answered
      (outcome (Asgi.get_http_response (Example.handler false true)
                  Example.get_hello
                  (Asgi.execute (Example.handler false true))
                  (Asgi.process_result (Example.handler false true))
                  None "context"))
    = Some (Some 200, "{...}").
Proof.
  assert (trace (Asgi.get_http_response (Example.handler false true)
                   Example.get_hello
                   (Asgi.execute (Example.handler false true))
                   (Asgi.process_result (Example.handler false true))
                   None "context")
          = [Admission true; Parsed Example.hello; Gate {[QUERY]};
             Execute (H := Example.runtime) Example.hello "context" None
               {[QUERY]};
             ProcessResult; BuildResponse]) as Htrace
    by (vm_compute; reflexivity).
  split; [exact Htrace|].
  destruct (C9_result_answered_200_json (H := Example.runtime)
              (Example.handler false true) Example.get_hello None "context"
              Example.hello "context" None {[QUERY]}
              (VDict {["data" := VStr "{ hello }"]}))
    as (response & -> & Hstatus & _ & Hbody & _).
  - rewrite Htrace, !elem_of_cons. tauto.
  - vm_compute. reflexivity.
  - simpl. by rewrite Hstatus, Hbody.
Defined.

(** ** Merging the sub-response *)

(** C5 as the specification states it fails twice. The handler that sets a
    cookie during context construction answers [GET ?query={ hello }] with
    the protocol headers first and the cookie last; and the handler whose
    context construction sets the status to zero, which is not [None],
    answers with the status of the protocol response. *)
Lemma C5_counterexample :
  ¬ context_headers_first (Example.handler false true) Example.get_hello
  ∧ ¬ context_headers_first
        (Example.handler_with Example.set_status_zero false true)
        Example.get_hello.
Proof.
  split; intros Hclaim.
  - destruct (Hclaim
                (Asgi.make_response (H := Example.runtime)
                   (Some "{...}") 200 (Some "application/json")))
      as (response & Hresponse & Hheaders & _); [vm_compute; reflexivity|].
    vm_compute in Hresponse. injection Hresponse as <-.
    vm_compute in Hheaders. discriminate.
  - destruct (Hclaim
                (Asgi.make_response (H := Example.runtime)
                   (Some "{...}") 200 (Some "application/json")))
      as (response & Hresponse & _ & Hstatus); [vm_compute; reflexivity|].
    vm_compute in Hresponse. injection Hresponse as <-.
    vm_compute in Hstatus. discriminate.
Qed.

(** C5, amended. [handle] sends the protocol response with the headers of
    the sub-response appended after its own, with the background task of the
    sub-response when it has one, and with the status of the sub-response
    when that status is truthy (neither [None] nor zero); body and media
    type are those of the protocol response. *)
Theorem C5_merge_order `{Runtime} (handler : Asgi.HTTPHandler)
    (request : Request) (protocol : Asgi.Response) :
  outcome (protocol_response handler request) = Ok protocol →
  let sub_response := (context_phase handler request).2 in
  ∃ response,
    outcome (Asgi.handle handler request) = Ok response
    ∧ Asgi.headers response
      = Asgi.headers protocol ++ Asgi.headers sub_response
    ∧ Asgi.status_code response
      = (if Asgi.truthy (Asgi.status_code sub_response)
         then Asgi.status_code sub_response
         else Asgi.status_code protocol)
    ∧ Asgi.background response
      = (if Asgi.background sub_response is Some _
         then Asgi.background sub_response
         else Asgi.background protocol)
    ∧ Asgi.body response = Asgi.body protocol
    ∧ Asgi.media_type response = Asgi.media_type protocol.
Proof.
  intros Hprotocol sub_response. unfold protocol_response in Hprotocol.
  rewrite handle_eq. simpl. rewrite Hprotocol. eexists. split; [reflexivity|].
  fold sub_response. unfold Asgi.merge_sub_response.
  destruct (Asgi.background sub_response), (Asgi.truthy _); simpl; done.
Qed.

Lemma C5_merge_order_witness :
  outcome (Asgi.handle (Example.handler false true) Example.get_hello)
  = Ok {| Asgi.status_code := Some 200;
          Asgi.media_type := Some "application/json";
          Asgi.body := "{...}";
          Asgi.headers := [("content-length", "5");
                           ("content-type", "application/json");
                           ("set-cookie", "session=1")];
          Asgi.background := None |}
  ∧ Asgi.status_code <$>
      outcome_value (outcome (Asgi.handle
                                (Example.handler_with Example.set_status_zero
                                   false true)
                                Example.get_hello))
    = Some (Some 200).
Proof.
  split.
  - destruct (C5_merge_order (H := Example.runtime)
                (Example.handler false true) Example.get_hello
                (Asgi.make_response (H := Example.runtime)
                   (Some "{...}") 200 (Some "application/json")))
      as (response & -> & Hheaders & Hstatus & Hbackground & Hbody & Hmedia);
      [vm_compute; reflexivity|].
    destruct response. simpl in *. by subst.
  - destruct (C5_merge_order (H := Example.runtime)
                (Example.handler_with Example.set_status_zero false true)
                Example.get_hello
                (Asgi.make_response (H := Example.runtime)
                   (Some "{...}") 200 (Some "application/json")))
      as (response & -> & _ & Hstatus & _); [vm_compute; reflexivity|].
    simpl. by rewrite Hstatus.
Defined.

(** ** When the builders are called *)

Section Preceded.
Context `{Runtime}.

Lemma preceded_without target required seen t :
  without target t = true → preceded target required seen t = true.
Proof.
  revert seen. induction t as [|a t IH]; intros seen; simpl; [done|].
  intros [Ha Ht]%andb_true_iff. apply negb_true_iff in Ha. rewrite Ha. simpl.
  by apply IH.
Qed.

Lemma without_parser_construction {A} (m : traced A) :
  only is_parser_action m → without is_construction (trace m) = true.
Proof.
  unfold only, without. rewrite !forallb_forall. intros Hm a Ha.
  specialize (Hm a Ha). by destruct a.
Qed.

Lemma without_read_construction {A} (m : traced A) :
  only is_read_action m → without is_construction (trace m) = true.
Proof.
  unfold only, without. rewrite !forallb_forall. intros Hm a Ha.
  specialize (Hm a Ha). by destruct a.
Qed.

Lemma without_app P t1 t2 :
  without P (t1 ++ t2) = without P t1 && without P t2.
Proof. apply forallb_app. Qed.

End Preceded.

(** C4 as the specification states it fails on the asynchronous handler:
    for [PUT /graphql] it calls both builders and then rejects the method. *)
Lemma C4_counterexample :
  ¬ builders_wait_for_parse (Example.view true) (Example.handler false true)
      Example.put.
Proof. intros [_ Hasync]. vm_compute in Hasync. discriminate. Qed.

(** C4, amended. In a synchronous run every call of [get_context] or
    [get_root_value] comes after the admission of the request and after its
    request data was parsed, so none is made for a request that is not
    admitted or whose parsing fails. The asynchronous [handle] calls
    [get_root_value] and then [get_context] before anything else, for every
    request, and never again. *)
Theorem C4_builders `{Runtime} {Response}
    (view : BaseView.BaseHTTPView Response) (handler : Asgi.HTTPHandler)
    (request : Request) :
  builds_after_parse (trace (BaseView.run view request)) = true
  ∧ (BaseView.is_request_allowed request = false →
     without is_construction (trace (BaseView.run view request)) = true)
  ∧ (∀ e, outcome (BaseView.parse_http_body request) = Raise e →
          without is_construction (trace (BaseView.run view request)) = true)
  ∧ ∃ t, trace (Asgi.handle handler request)
         = CallGetRootValue :: CallGetContext :: t
         ∧ without is_construction t = true.
Proof.
  pose proof (only_parse_http_body request) as Honly.
  pose proof (without_parser_construction _ Honly) as Hnone.
  split; [|split; [|split]].
  - destruct (BaseView.is_request_allowed request) eqn:Ha;
      [|by rewrite (run_rejected view _ Ha)].
    destruct (BaseView.should_render_graphiql view request) eqn:Hr;
      [by rewrite (run_console view _ Ha Hr)|].
    destruct (BaseView.parse_http_body request) as [t [rd|e]] eqn:Hp.
    + destruct (parse_http_body_parsed request rd) as [t0 Ht0];
        [by rewrite Hp|].
      rewrite Hp in Ht0. simpl in Ht0, Hnone.
      assert (existsb is_parsed t = true) as Hparsed.
      { rewrite Ht0, existsb_app. simpl. by rewrite orb_true_r. }
      destruct (sync_allowed view request) as [allowed|] eqn:Hallowed.
      * rewrite (run_parsed view _ _ _ _ Ha Hr Hp Hallowed).
        unfold builds_after_parse, trace. simpl.
        rewrite !preceded_app, !(preceded_without _ _ _ _ Hnone). simpl.
        rewrite Hparsed. by destruct (sync_engine_call _ _ _ _ _).
      * apply sync_allowed_None in Hallowed.
        rewrite (run_unknown_method view _ _ _ Ha Hr Hp Hallowed).
        unfold builds_after_parse, trace. simpl.
        rewrite !preceded_app, !(preceded_without _ _ _ _ Hnone). simpl.
        by rewrite Hparsed.
    + rewrite (run_failed view _ _ _ Ha Hr Hp).
      unfold builds_after_parse, trace. simpl.
      simpl in Hnone. by rewrite !(preceded_without _ _ _ _ Hnone).
  - intros Ha. by rewrite (run_rejected view _ Ha).
  - intros e He.
    destruct (BaseView.is_request_allowed request) eqn:Ha;
      [|by rewrite (run_rejected view _ Ha)].
    destruct (BaseView.should_render_graphiql view request) eqn:Hr;
      [by rewrite (run_console view _ Ha Hr)|].
    destruct (BaseView.parse_http_body request) as [t r] eqn:Hp.
    simpl in He. subst r. by rewrite (run_failed view _ _ _ Ha Hr Hp).
  - rewrite handle_eq. simpl. eexists. split; [reflexivity|].
    set (execute := Asgi.execute handler).
    set (process := Asgi.process_result handler).
    set (root := Asgi.get_root_value handler request).
    set (context := (context_phase handler request).1).
    pose proof (only_async_read_data handler request) as Hread.
    pose proof (without_read_construction _ Hread) as Hnone'.
    destruct (Asgi.read_data handler request) as [t [[response|data]|e]] eqn:Hr.
    + by rewrite (get_http_response_returned handler _ _ _ _ _ _ _ Hr).
    + rewrite (get_http_response_read handler _ _ _ _ _ _ _ Hr).
      destruct (outcome (Http.parse_request_data data)); [|done].
      unfold trace at 1. simpl. rewrite without_app. simpl in Hnone'.
      rewrite Hnone'.
      destruct (async_allowed handler request) as [allowed|] eqn:Hallowed.
      * rewrite (execute_request_eq handler _ _ _ _ _ _ _ Hallowed). simpl.
        subst execute. rewrite handler_execute_eq. simpl.
        rewrite !without_app.
        destruct (Asgi.debug handler); simpl;
          by destruct (Schema.execute _ _ _ _ _ _ _).
      * apply async_allowed_None in Hallowed.
        by rewrite (execute_request_unknown_method handler _ _ _ _ _ _
                      Hallowed).
    + by rewrite (get_http_response_raised handler _ _ _ _ _ _ _ Hr).
Qed.

(** ** Methods other than GET and POST *)

(** C6 as the specification states it fails on the synchronous view: it
    rejects [PUT /graphql] with status 405 and the reason "GraphQL only
    supports GET and POST requests.", not "Method Not Allowed". *)
Lemma C6_counterexample :
  ¬ other_methods_405 (Example.view true) (Example.handler false true)
      Example.put.
Proof.
  intros Hclaim. destruct Hclaim as [[Hsync _] _]; [discriminate..|].
  vm_compute in Hsync. discriminate.
Qed.

(** C6, amended. [get_http_response] answers a request whose method is
    neither ["GET"] nor ["POST"], compared as they are written, with status
    405 and body "Method Not Allowed", and does nothing before. The
    synchronous view rejects a request whose lower-cased method is neither
    [get] nor [post] as its first step, by raising
    [HTTPException(405, "GraphQL only supports GET and POST requests.")]. *)
Theorem C6_other_methods `{Runtime} {Response}
    (view : BaseView.BaseHTTPView Response) (handler : Asgi.HTTPHandler)
    (request : Request) (execute : executor) process_result root_value context :
  (method request ≠ "GET" → method request ≠ "POST" →
   Asgi.get_http_response handler request execute process_result
     root_value context
   = ([Admission false], Ok (Asgi.PlainTextResponse "Method Not Allowed" 405)))
  ∧ (Str.lower (method request) ≠ "get" →
     Str.lower (method request) ≠ "post" →
     BaseView.run view request
     = ([Admission false],
        Raise (HTTPException 405
                 "GraphQL only supports GET and POST requests."))).
Proof.
  split.
  - intros Hget%String.eqb_neq Hpost%String.eqb_neq.
    apply get_http_response_returned. unfold Asgi.read_data.
    by rewrite Hget, Hpost.
  - intros Hget%String.eqb_neq Hpost%String.eqb_neq.
    apply run_rejected. unfold BaseView.is_request_allowed, Str.among. simpl.
    by rewrite Hget, Hpost.
Qed.

(** ** Content types no parser recognises *)

(** C2 as the specification states it fails on the synchronous view: it
    answers a POST with [Content-Type: text/plain] by raising
    [HTTPException(400, "Unsupported content type")]. *)
Lemma C2_counterexample :
  ¬ unsupported_is_415 (Example.view true) (Example.handler false true)
      Example.post_text.
Proof.
  intros Hclaim. destruct Hclaim as [Hsync _]; [reflexivity | by split |].
  vm_compute in Hsync. discriminate.
Qed.

(** C2, amended. For a content type that neither contains
    [application/json] nor starts with [multipart/form-data]:
    [get_http_response] answers a POST with status 415 and body
    "Unsupported Media Type"; the synchronous view, for an admitted request
    whose lower-cased method is not [get] and for which it does not render
    the console, raises [HTTPException(400, "Unsupported content type")]. *)
Theorem C2_unsupported_content_type `{Runtime} {Response}
    (view : BaseView.BaseHTTPView Response) (handler : Asgi.HTTPHandler)
    (request : Request) (execute : executor) process_result root_value context :
  unrecognised (default "" (content_type request)) →
  (method request = "POST" →
   Asgi.get_http_response handler request execute process_result
     root_value context
   = ([Admission true; ContentTypeDispatch (default "" (content_type request))],
      Ok (Asgi.PlainTextResponse "Unsupported Media Type" 415)))
  ∧ (BaseView.is_request_allowed request = true →
     BaseView.should_render_graphiql view request = false →
     Str.lower (method request) ≠ "get" →
     BaseView.run view request
     = (sync_prefix ++ [ContentTypeDispatch (default "" (content_type request))],
        Raise (HTTPException 400 "Unsupported content type"))).
Proof.
  intros [Hjson Hmultipart]. split.
  - intros Hpost. apply get_http_response_returned. unfold Asgi.read_data.
    rewrite Hpost. simpl. by rewrite Hjson, Hmultipart.
  - intros Ha Hr Hget%String.eqb_neq.
    assert (BaseView.parse_http_body request
            = ([ContentTypeDispatch (default "" (content_type request))],
               Raise (HTTPException 400 "Unsupported content type"))) as Hp.
    { rewrite parse_http_body_eq. unfold BaseView.read_data.
      by rewrite Hjson, Hmultipart, Hget. }
    by rewrite (run_failed view _ _ _ Ha Hr Hp).
Qed.

Lemma C2_unsupported_content_type_witness :
  unrecognised (default "" (content_type Example.post_text))
  ∧ answered (outcome (protocol_response (Example.handler false true)
                         Example.post_text))
    = Some (Some 415, "Unsupported Media Type")
  ∧ transport_error (outcome (BaseView.run (Example.view true)
                                Example.post_text))
    = Some (400, "Unsupported content type").
Proof.
  assert (unrecognised (default "" (content_type Example.post_text)))
    as Hunrecognised by (by split).
  destruct (C2_unsupported_content_type (H := Example.runtime)
              (Example.view true) (Example.handler false true)
              Example.post_text
              (Asgi.execute (Example.handler false true))
              (Asgi.process_result (Example.handler false true))
              None "context" Hunrecognised) as [Hasync Hsync].
  split; [exact Hunrecognised|]. split.
  - exact (f_equal (fun m => answered (outcome m)) (Hasync eq_refl)).
  - rewrite Hsync; [reflexivity | reflexivity | reflexivity | discriminate].
Defined.

(** ** A GET without query parameters *)

(** C7 as the specification states it fails on the synchronous view: with
    the [should_render_graphiql] of the base class it parses a bare GET,
    calls the engine without a query and ends with status 400, not 404. *)
Lemma C7_counterexample :
  ¬ bare_get_console_or_404 (Example.view true) (Example.handler false true)
      Example.bare_get.
Proof.
  intros Hclaim. destruct Hclaim as [Hsync _]; [reflexivity..|].
  vm_compute in Hsync. discriminate.
Qed.

Section BareGet.
Context `{Runtime}.

Lemma parse_nothing :
  Http.parse_request_data (VDict (VStr <$> (∅ : gmap string string)))
  = ([Parsed empty_request_data], Ok empty_request_data).
Proof.
  unfold Http.parse_request_data, py_get.
  by rewrite fmap_empty, !lookup_empty.
Qed.

End BareGet.

(** C7, amended. [get_http_response] answers a request with method ["GET"]
    and no query parameter with the console page and status 200 when the
    console is enabled and the Accept header contains [text/html] or [*/*],
    and otherwise with status 404 and an empty body; it parses and executes
    nothing. The synchronous view has no such answer: when
    [should_render_graphiql] accepts it returns [render_graphiql], and when
    it declines, as in the base class, a GET without parameters and without
    a recognised content type is parsed into request data without any
    field and handed to the engine - unless [from_http] raises for the
    method as the request spells it, which ends the run with that
    [ValueError] after the two builders. *)
Theorem C7_bare_get `{Runtime} {Response}
    (view : BaseView.BaseHTTPView Response) (handler : Asgi.HTTPHandler)
    (request : Request) (execute : executor) process_result root_value context :
  query_params request = ∅ →
  (method request = "GET" →
   Asgi.get_http_response handler request execute process_result
     root_value context
   = ([Admission true; ConsoleCheck (Asgi.should_render_graphiql handler request)],
      Ok (if Asgi.should_render_graphiql handler request
          then Asgi.HTMLResponse (Some get_graphiql_html) 200
          else Asgi.HTMLResponse None 404)))
  ∧ Asgi.should_render_graphiql handler request
    = Asgi.graphiql handler
      && (Str.contains "text/html" (default "" (accept request))
          || Str.contains "*/*" (default "" (accept request)))
  ∧ Asgi.body (Asgi.HTMLResponse None 404) = ""
  ∧ (BaseView.is_request_allowed request = true →
     BaseView.should_render_graphiql view request = true →
     BaseView.run view request
     = ([Admission true; ConsoleCheck true],
        Ok (BaseView.render_graphiql view request)))
  ∧ (Str.lower (method request) = "get" →
     unrecognised (default "" (content_type request)) →
     BaseView.should_render_graphiql view request = false →
     match sync_allowed view request with
     | Some allowed =>
         trace (BaseView.run view request)
         = sync_prefix
           ++ [ContentTypeDispatch (default "" (content_type request));
               Parsed empty_request_data;
               CallGetContext; CallGetRootValue;
               Gate allowed;
               Execute empty_request_data
                 (BaseView.get_context view request
                    (BaseView.get_sub_response view request)).1
                 (BaseView.get_root_value view request)
                 allowed]
           ++ match sync_engine_call view request
                      (BaseView.get_sub_response view request)
                      empty_request_data allowed with
              | inr _ => [ProcessResult; BuildResponse]
              | inl _ => []
              end
     | None =>
         BaseView.run view request
         = (sync_prefix
            ++ [ContentTypeDispatch (default "" (content_type request));
                Parsed empty_request_data;
                CallGetContext; CallGetRootValue],
            Raise ValueError)
     end).
Proof.
  intros Hparams. split; [|split; [|split; [|split]]].
  - intros Hget. apply get_http_response_returned. unfold Asgi.read_data.
    rewrite Hget, Hparams. simpl.
    by destruct (Asgi.should_render_graphiql handler request).
  - unfold Asgi.should_render_graphiql.
    destruct (Asgi.graphiql handler); simpl; [|done]. by rewrite orb_false_r.
  - reflexivity.
  - apply run_console.
  - intros Hlower [Hjson Hmultipart] Hr.
    assert (BaseView.is_request_allowed request = true) as Ha.
    { unfold BaseView.is_request_allowed. by rewrite Hlower. }
    assert (BaseView.parse_http_body request
            = ([ContentTypeDispatch (default "" (content_type request));
                Parsed empty_request_data], Ok empty_request_data)) as Hp.
    { assert (BaseView.read_data request
              = ([ContentTypeDispatch (default "" (content_type request))],
                 Ok (VDict (VStr <$> (∅ : gmap string string))))) as Hread.
      { unfold BaseView.read_data.
        rewrite Hjson, Hmultipart, Hlower. simpl.
        unfold BaseView.get_query_params, BaseView.parse_query_params.
        by rewrite Hparams, lookup_empty. }
      by rewrite parse_http_body_eq, Hread, bind_ok, parse_nothing. }
    destruct (sync_allowed view request) as [allowed|] eqn:Hallowed.
    + by rewrite (run_parsed view _ _ _ _ Ha Hr Hp Hallowed).
    + apply sync_allowed_None in Hallowed.
      by rewrite (run_unknown_method view _ _ _ Ha Hr Hp Hallowed).
Qed.

Lemma C7_bare_get_witness :
  query_params Example.bare_get = ∅
  ∧ answered (outcome (protocol_response (Example.handler true true)
                         Example.bare_get))
    = Some (Some 200, "<html>GraphiQL</html>")
  ∧ answered (outcome (protocol_response (Example.handler false true)
                         Example.bare_get))
    = Some (Some 404, "")
  ∧ trace (BaseView.run (Example.view true) Example.bare_get)
    = [Admission true; ConsoleCheck false; CallGetSubResponse;
       ContentTypeDispatch ""; Parsed empty_request_data;
       CallGetContext; CallGetRootValue; Gate {[QUERY]};
       Execute (H := Example.runtime) empty_request_data "context" None
         {[QUERY]}].
Proof.
  split; [reflexivity|]. split; [|split].
  - destruct (C7_bare_get (H := Example.runtime)
                (Example.view true) (Example.handler true true)
                Example.bare_get
                (Asgi.execute (Example.handler true true))
                (Asgi.process_result (Example.handler true true))
                None "context" eq_refl) as (Hasync & _).
    exact (f_equal (fun m => answered (outcome m)) (Hasync eq_refl)).
  - destruct (C7_bare_get (H := Example.runtime)
                (Example.view true) (Example.handler false true)
                Example.bare_get
                (Asgi.execute (Example.handler false true))
                (Asgi.process_result (Example.handler false true))
                None "context" eq_refl) as (Hasync & _).
    exact (f_equal (fun m => answered (outcome m)) (Hasync eq_refl)).
  - destruct (C7_bare_get (H := Example.runtime)
                (Example.view true) (Example.handler false true)
                Example.bare_get
                (Asgi.execute (Example.handler false true))
                (Asgi.process_result (Example.handler false true))
                None "context" eq_refl) as (_ & _ & _ & _ & Hsync).
    rewrite Hsync; [vm_compute; reflexivity | reflexivity | by split
                    | reflexivity].
Defined.

(** ** The [variables] query parameter *)

(** C8 as the specification states it fails on the synchronous view: a GET
    with [Content-Type: application/json] is parsed from its body, so the
    malformed [variables] parameter of [?variables={] is never decoded and
    the request reaches the engine. *)
Lemma C8_counterexample :
  ¬ variables_always_decoded (Example.view true) (Example.handler false true)
      Example.get_json_bad_variables.
Proof.
  intros Hclaim.
  destruct (Hclaim "{" eq_refl eq_refl eq_refl) as [[_ Hsync] _].
  destruct (Hsync eq_refl) as [Herror _].
  vm_compute in Herror. discriminate.
Qed.

Section Variables.
Context `{Runtime}.

Lemma parse_request_data_dict (d : gmap string Value) :
  let request_data :=
    {| query := default VNone (d !! "query");
       variables := default VNone (d !! "variables");
       operation_name := default VNone (d !! "operationName") |} in
  Http.parse_request_data (VDict d) = ([Parsed request_data], Ok request_data).
Proof. reflexivity. Qed.

(** The document the query parameters decode to. *)
Lemma http_parse_query_params_variables params (text : string) :
  params !! "variables" = Some text →
  Http.parse_query_params params
  = ([JsonLoads text],
     match json_loads text with
     | Some decoded => Ok (<["variables" := decoded]> (VStr <$> params))
     | None => Raise JSONDecodeError
     end).
Proof.
  intros Hv. unfold Http.parse_query_params, loads. rewrite Hv. simpl.
  by destruct (json_loads text).
Qed.

Lemma async_read_variables (handler : Asgi.HTTPHandler) request
    (text : string) :
  method request = "GET" →
  query_params request !! "variables" = Some text →
  Asgi.read_data handler request
  = ([Admission true; JsonLoads text],
     Ok match json_loads text with
        | Some decoded =>
            inr (VDict (<["variables" := decoded]>
                          (VStr <$> query_params request)))
        | None =>
            inl (Asgi.PlainTextResponse
                   "Unable to parse request body as JSON" 400)
        end).
Proof.
  intros Hget Hv. unfold Asgi.read_data. rewrite Hget. simpl.
  rewrite bool_decide_eq_false_2; [|by intros Hempty; rewrite Hempty in Hv].
  simpl. rewrite (http_parse_query_params_variables _ _ Hv).
  by destruct (json_loads text).
Qed.

Lemma sync_read_variables request (text : string) :
  Str.lower (method request) = "get" →
  unrecognised (default "" (content_type request)) →
  query_params request !! "variables" = Some text →
  BaseView.read_data request
  = ([ContentTypeDispatch (default "" (content_type request)); JsonLoads text],
     match json_loads text with
     | Some decoded =>
         Ok (VDict (<["variables" := decoded]> (VStr <$> query_params request)))
     | None => Raise JSONDecodeError
     end).
Proof.
  intros Hlower [Hjson Hmultipart] Hv. unfold BaseView.read_data.
  rewrite Hjson, Hmultipart, Hlower. simpl.
  unfold BaseView.get_query_params, BaseView.parse_query_params, loads.
  rewrite Hv. simpl. by destruct (json_loads text).
Qed.

End Variables.

(** C8, amended. For a request whose query parameters hold [variables]:
    [get_http_response], when the method is ["GET"], decodes the parameter
    with [json.loads]; if that fails it answers with status 400 and body
    "Unable to parse request body as JSON" without parsing further or calling
    the engine, and if it succeeds the request data handed to the engine
    carries the decoded value. The synchronous view does the same when the
    lower-cased method is [get], the content type neither contains
    [application/json] nor starts with [multipart/form-data], and
    [should_render_graphiql] declines; with one of those content types it
    parses the body or the form and leaves the parameter alone. *)
Theorem C8_variables_decoded `{Runtime} {Response}
    (view : BaseView.BaseHTTPView Response) (handler : Asgi.HTTPHandler)
    (request : Request) (root_value : option RootValue) (context : Ctx)
    (text : string) :
  query_params request !! "variables" = Some text →
  let response :=
    Asgi.get_http_response handler request (Asgi.execute handler)
      (Asgi.process_result handler) root_value context in
  (method request = "GET" →
   JsonLoads text ∈ trace response
   ∧ (json_loads text = None →
      response
      = ([Admission true; JsonLoads text],
         Ok (Asgi.PlainTextResponse "Unable to parse request body as JSON" 400)))
   ∧ (∀ decoded request_data context' root_value' allowed,
        json_loads text = Some decoded →
        Execute request_data context' root_value' allowed ∈ trace response →
        variables request_data = decoded))
  ∧ (Str.lower (method request) = "get" →
     unrecognised (default "" (content_type request)) →
     BaseView.should_render_graphiql view request = false →
     JsonLoads text ∈ trace (BaseView.run view request)
     ∧ (json_loads text = None →
        BaseView.run view request
        = (sync_prefix
           ++ [ContentTypeDispatch (default "" (content_type request));
               JsonLoads text],
           Raise (HTTPException 400 "Unable to parse request body as JSON")))
     ∧ (∀ decoded request_data context' root_value' allowed,
          json_loads text = Some decoded →
          Execute request_data context' root_value' allowed
            ∈ trace (BaseView.run view request) →
          variables request_data = decoded)).
Proof.
  intros Hv response. split.
  - intros Hget.
    pose proof (async_read_variables handler request text Hget Hv) as Hread.
    split; [|split].
    + subst response. unfold Asgi.get_http_response.
      rewrite trace_bind, Hread. simpl. rewrite !elem_of_cons. tauto.
    + intros Hnone. rewrite Hnone in Hread. subst response.
      by apply get_http_response_returned.
    + intros decoded rd c r a Hsome Hin. rewrite Hsome in Hread.
      destruct (get_http_response_execute_inv handler _ _ _ _ _ _ _ _ Hin)
        as ((t & data & Hread' & Hparsed) & _).
      rewrite Hread in Hread'. simplify_eq.
      pose proof (parse_request_data_run
                    (VDict (<["variables" := decoded]>
                              (VStr <$> query_params request)))) as Hrun.
      rewrite Hparsed in Hrun. destruct Hrun as (_ & _ & Hvariables & _).
      simpl in Hvariables. rewrite lookup_insert_eq in Hvariables.
      by simplify_eq.
  - intros Hlower Hunrecognised Hr.
    assert (BaseView.is_request_allowed request = true) as Ha.
    { unfold BaseView.is_request_allowed. by rewrite Hlower. }
    pose proof (sync_read_variables request text Hlower Hunrecognised Hv)
      as Hread.
    destruct (json_loads text) as [decoded|] eqn:Hloads.
    + assert (∃ rd, BaseView.parse_http_body request
                    = ([ContentTypeDispatch (default "" (content_type request));
                        JsonLoads text; Parsed rd], Ok rd)
                    ∧ variables rd = decoded) as (rd & Hp & Hvariables).
      { eexists. rewrite parse_http_body_eq, Hread, bind_ok.
        rewrite parse_request_data_dict. split; [reflexivity|].
        simpl. by rewrite lookup_insert_eq. }
      split; [|split; [done|]].
      * destruct (sync_allowed view request) as [allowed|] eqn:Hallowed.
        -- rewrite (run_parsed view _ _ _ _ Ha Hr Hp Hallowed). simpl.
           rewrite !elem_of_cons. tauto.
        -- apply sync_allowed_None in Hallowed.
           rewrite (run_unknown_method view _ _ _ Ha Hr Hp Hallowed). simpl.
           rewrite !elem_of_cons. tauto.
      * intros decoded' rd' c r a Hsome Hin. simplify_eq.
        destruct (run_execute_inv view _ _ _ _ _ Hin)
          as (_ & _ & [t Hp'] & _).
        rewrite Hp in Hp'. by simplify_eq.
    + assert (BaseView.parse_http_body request
              = ([ContentTypeDispatch (default "" (content_type request));
                  JsonLoads text], Raise JSONDecodeError)) as Hp.
      { by rewrite parse_http_body_eq, Hread. }
      rewrite (run_failed view _ _ _ Ha Hr Hp). simpl.
      split; [rewrite !elem_of_cons; tauto|]. split; [done|].
      intros; discriminate.
Qed.

Lemma C8_variables_decoded_witness :
  query_params Example.get_bad_variables !! "variables" = Some "{"
  ∧ answered (outcome (protocol_response (Example.handler false true)
                         Example.get_bad_variables))
    = Some (Some 400, "Unable to parse request body as JSON")
  ∧ BaseView.run (Example.view true) Example.get_bad_variables
    = ([Admission true; ConsoleCheck false; CallGetSubResponse;
        ContentTypeDispatch ""; JsonLoads "{"],
       Raise (HTTPException 400 "Unable to parse request body as JSON")).
Proof.
  assert (query_params Example.get_bad_variables !! "variables" = Some "{")
    as Hv by (vm_compute; reflexivity).
  destruct (C8_variables_decoded (H := Example.runtime)
              (Example.view true) (Example.handler false true)
              Example.get_bad_variables None "context" "{" Hv)
    as [Hasync Hsync].
  split; [exact Hv|]. split.
  - destruct (Hasync eq_refl) as (_ & Hfailed & _).
    exact (f_equal (fun m => answered (outcome m)) (Hfailed eq_refl)).
  - destruct Hsync as (_ & Hfailed & _); [reflexivity | by split | reflexivity|].
    exact (Hfailed eq_refl).
Defined.

(** ** The two orchestrators side by side *)

(** C3 as the specification states it fails: for a POST with
    [Content-Type: text/plain] the two orchestrators take different steps,
    the synchronous one ends with status 400 and "Unsupported content type",
    the asynchronous one with status 415 and "Unsupported Media Type". *)
Lemma C3_counterexample :
  ¬ same_steps_same_answer (Example.view true) (Example.handler false true)
      Example.post_text
  ∧ trace (BaseView.run (Example.view true) Example.post_text)
    = [Admission true; ConsoleCheck false; CallGetSubResponse;
       ContentTypeDispatch "text/plain"]
  ∧ trace (Asgi.handle (Example.handler false true) Example.post_text)
    = [CallGetRootValue; CallGetContext; Admission true;
       ContentTypeDispatch "text/plain"]
  ∧ transport_error (outcome (BaseView.run (Example.view true)
                                Example.post_text))
    = Some (400, "Unsupported content type")
  ∧ answered (outcome (Asgi.handle (Example.handler false true)
                         Example.post_text))
    = Some (Some 415, "Unsupported Media Type").
Proof.
  split; [|by vm_compute].
  intros [Htrace _]. vm_compute in Htrace. discriminate.
Qed.

Section SideBySide.
Context `{Runtime} {Response : Type}.
Variable view : BaseView.BaseHTTPView Response.
Variable handler : Asgi.HTTPHandler.
Variable request : Request.

Lemma executions_app t1 t2 :
  executions (t1 ++ t2) = executions t1 ++ executions t2.
Proof. apply List.filter_app. Qed.

Lemma executions_without t :
  without is_execute t = true → executions t = [].
Proof.
  induction t as [|a t IH]; simpl; [done|].
  intros [Ha Ht]%andb_true_iff. apply negb_true_iff in Ha. rewrite Ha.
  by apply IH.
Qed.

Lemma without_execute_parser {A} (m : traced A) :
  only is_parser_action m → without is_execute (trace m) = true.
Proof.
  unfold only, without. rewrite !forallb_forall. intros Hm a Ha.
  specialize (Hm a Ha). by destruct a.
Qed.

Lemma without_execute_read {A} (m : traced A) :
  only is_read_action m → without is_execute (trace m) = true.
Proof.
  unfold only, without. rewrite !forallb_forall. intros Hm a Ha.
  specialize (Hm a Ha). by destruct a.
Qed.

Lemma common_read :
  common_encoding request →
  read_alike (BaseView.read_data request) (Asgi.read_data handler request).
Proof.
  intros [(Hpost & Hjson & Hdata & Hdecode)
         |(Hget & Hparams & Hjson & Hmultipart)].
  - unfold BaseView.read_data, Asgi.read_data.
    rewrite Hpost, Hjson, Hdata, Hdecode. simpl.
    unfold BaseView.parse_json, loads.
    destruct (decode_detected (received request)) as [text|]; simpl;
      [|by constructor].
    destruct (json_loads text); simpl; by constructor.
  - unfold BaseView.read_data, Asgi.read_data.
    rewrite Hget, Hjson, Hmultipart. simpl.
    rewrite bool_decide_eq_false_2; [|done]. simpl.
    unfold BaseView.get_query_params, BaseView.parse_query_params,
      Http.parse_query_params, loads.
    destruct (query_params request !! "variables") as [text|]; simpl;
      [destruct (json_loads text); simpl|]; by constructor.
Qed.

Lemma same_allowed :
  BaseView.allow_queries_via_get view = Asgi.allow_queries_via_get handler →
  sync_allowed view request = async_allowed handler request.
Proof. intros Hflag. unfold sync_allowed, async_allowed. by rewrite Hflag. Qed.

End SideBySide.

(** C3, amended. The two orchestrators do not take the same steps: the
    asynchronous one builds root value and context first, and their answers
    to an unsupported content type, a method that is not allowed and a GET
    without parameters differ; so may their readings of a JSON body, which
    the view decodes as UTF-8 before [json.loads] and the handler hands to
    [json.loads] as bytes. On the requests they read alike - a POST with a
    JSON content type whose bytes both decodings make the same text of, and
    a GET with query parameters and no recognised content type - with the
    same flag, root value, context and engine, they agree: they compute the
    same allowed operation types, make the same call of the engine, and end
    alike - the same status and reason for a malformed body and for the
    engine's invalid-operation-type and missing-query errors, a response
    built from the same result, or the same exception let through. *)
Theorem C3_common_ground `{Runtime} {Response}
    (view : BaseView.BaseHTTPView Response) (handler : Asgi.HTTPHandler)
    (request : Request) :
  common_encoding request →
  same_collaborators view handler request →
  sync_allowed view request = async_allowed handler request
  ∧ executions (trace (BaseView.run view request))
    = executions (trace (Asgi.handle handler request))
  ∧ same_answer view handler request
      (outcome (BaseView.run view request))
      (outcome (protocol_response handler request)).
Proof.
  intros Hcommon (Hr & Hflag & Hroot & Hcontext & Hengine).
  pose proof (same_allowed view handler request Hflag) as Hallowed.
  split; [done|].
  assert (BaseView.is_request_allowed request = true) as Ha.
  { unfold BaseView.is_request_allowed.
    destruct Hcommon as [[-> _]|[-> _]]; reflexivity. }
  rewrite handle_eq. fold (protocol_response handler request).
  unfold executions at 2. simpl.
  fold (executions (trace (protocol_response handler request))).
  pose proof (without_execute_parser _ (only_sync_read_data request)) as Hsync.
  pose proof (without_execute_read _ (only_async_read_data handler request))
    as Hasync.
  pose proof (common_read handler request Hcommon) as Hread.
  unfold protocol_response.
  remember (BaseView.read_data request) as sync_read eqn:Hs.
  remember (Asgi.read_data handler request) as async_read eqn:Has.
  destruct Hread as [t t' data|t t' e He|t t']; symmetry in Hs, Has;
    simpl in Hsync, Hasync.
  - rewrite (get_http_response_read handler _ _ _ _ _ _ _ Has).
    pose proof (parse_request_data_run data) as Hrun.
    destruct (Http.parse_request_data data) as [tp [rd|e]] eqn:Hparse;
      simpl in Hrun |- *.
    + destruct Hrun as [-> _].
      assert (BaseView.parse_http_body request = (t ++ [Parsed rd], Ok rd))
        as Hp by (by rewrite parse_http_body_eq, Hs, bind_ok, Hparse).
      destruct (sync_allowed view request) as [allowed|] eqn:Hsa.
      * symmetry in Hallowed.
        rewrite (run_parsed view _ _ _ _ Ha Hr Hp Hsa),
          (execute_request_eq handler _ _ _ _ _ _ _ Hallowed),
          handler_execute_eq.
        simpl. unfold sync_engine_call.
        rewrite Hengine, Hroot, Hcontext.
        rewrite !executions_app, (executions_without _ Hsync),
          (executions_without _ Hasync). simpl.
        destruct rd as [q v o]. simpl.
        destruct (Schema.execute _ _ _ _ _ _ _) as [e|result],
                 (Asgi.debug handler); simpl;
          (split; [reflexivity|]); try constructor;
          destruct e; simpl; constructor.
      * symmetry in Hallowed.
        apply sync_allowed_None in Hsa. apply async_allowed_None in Hallowed.
        rewrite (run_unknown_method view _ _ _ Ha Hr Hp Hsa),
          (execute_request_unknown_method handler _ _ _ _ _ _ Hallowed).
        simpl. rewrite !executions_app, (executions_without _ Hsync),
          (executions_without _ Hasync). simpl.
        split; [done | constructor].
    + destruct Hrun as [-> ->].
      assert (BaseView.parse_http_body request = (t, Raise AttributeError))
        as Hp.
      { rewrite parse_http_body_eq, Hs, bind_ok, Hparse. simpl.
        by rewrite app_nil_r. }
      rewrite (run_failed view _ _ _ Ha Hr Hp). simpl.
      rewrite (executions_without _ Hsync), (executions_without _ Hasync).
      split; [done | constructor].
  - rewrite (get_http_response_returned handler _ _ _ _ _ _ _ Has).
    assert (BaseView.parse_http_body request = (t, Raise e)) as Hp
      by (by rewrite parse_http_body_eq, Hs).
    rewrite (run_failed view _ _ _ Ha Hr Hp). simpl.
    rewrite (executions_without _ Hsync), (executions_without _ Hasync).
    split; [done|]. rewrite He. simpl. constructor.
  - rewrite (get_http_response_raised handler _ _ _ _ _ _ _ Has).
    assert (BaseView.parse_http_body request = (t, Raise UnicodeDecodeError))
      as Hp by (by rewrite parse_http_body_eq, Hs).
    rewrite (run_failed view _ _ _ Ha Hr Hp). simpl.
    rewrite (executions_without _ Hsync), (executions_without _ Hasync).
    split; [done | constructor].
Qed.

Lemma C3_common_ground_witness :
  (common_encoding (H := Example.runtime) Example.get_hello
   ∧ same_collaborators (Example.view true) (Example.handler false true)
       Example.get_hello
   ∧ executions (trace (Asgi.handle (Example.handler false true)
                          Example.get_hello))
     = [Execute (H := Example.runtime) Example.hello "context" None {[QUERY]}]
   ∧ same_answer (Example.view true) (Example.handler false true)
       Example.get_hello
       (outcome (BaseView.run (Example.view true) Example.get_hello))
       (outcome (protocol_response (Example.handler false true)
                   Example.get_hello)))
  ∧ (common_encoding (H := Example.runtime) Sample.post_object
     ∧ executions (trace (BaseView.run (Example.view true)
                            Sample.post_object))
       = [Execute (H := Example.runtime) empty_request_data "context" None
            {[QUERY; MUTATION]}]
     ∧ same_answer (Example.view true) (Example.handler false true)
         Sample.post_object
         (Raise (HTTPException 400 "No GraphQL query found in the request"))
         (outcome (protocol_response (Example.handler false true)
                     Sample.post_object))).
Proof.
  assert (common_encoding (H := Example.runtime) Example.get_hello)
    as Hcommon.
  { right. split; [reflexivity|]. split; [|by split].
    intros Hempty. apply (f_equal (fun m => m !! "query")) in Hempty.
    vm_compute in Hempty. discriminate. }
  assert (common_encoding (H := Example.runtime) Sample.post_object)
    as Hcommon'.
  { left. repeat split; reflexivity. }
  assert (same_collaborators (Example.view true) (Example.handler false true)
            Example.get_hello) as Hsame.
  { repeat split; reflexivity. }
  assert (same_collaborators (Example.view true) (Example.handler false true)
            Sample.post_object) as Hsame'.
  { repeat split; reflexivity. }
  destruct (C3_common_ground (H := Example.runtime)
              (Example.view true) (Example.handler false true)
              Example.get_hello Hcommon Hsame) as (_ & Hexecutions & Hanswer).
  destruct (C3_common_ground (H := Example.runtime)
              (Example.view true) (Example.handler false true)
              Sample.post_object Hcommon' Hsame')
    as (_ & _ & Hanswer').
  split.
  - split; [exact Hcommon|]. split; [exact Hsame|]. split; [|exact Hanswer].
    rewrite <- Hexecutions. vm_compute. reflexivity.
  - split; [exact Hcommon'|]. split; [vm_compute; reflexivity|].
    exact Hanswer'.
Defined.

Lemma C4_builders_witness :
  trace (BaseView.run (Example.view true) Example.get_bad_variables)
  = [Admission true; ConsoleCheck false; CallGetSubResponse;
     ContentTypeDispatch ""; JsonLoads "{"]
  ∧ builds_after_parse
      (trace (BaseView.run (Example.view true) Example.get_hello)) = true
  ∧ trace (Asgi.handle (Example.handler false true) Example.get_bad_variables)
    = [CallGetRootValue; CallGetContext; Admission true; JsonLoads "{"].
Proof.
  destruct (C4_builders (H := Example.runtime)
              (Example.view true) (Example.handler false true)
              Example.get_hello) as (Hsync & _).
  split; [vm_compute; reflexivity|]. split; [exact Hsync|].
  vm_compute. reflexivity.
Defined.

Lemma C6_other_methods_witness :
  answered (outcome (protocol_response (Example.handler false true)
                       Example.put))
  = Some (Some 405, "Method Not Allowed")
  ∧ BaseView.run (Example.view true) Example.put
    = ([Admission false],
       Raise (HTTPException 405
                "GraphQL only supports GET and POST requests.")).
Proof.
  destruct (C6_other_methods (H := Example.runtime)
              (Example.view true) (Example.handler false true) Example.put
              (Asgi.execute (Example.handler false true))
              (Asgi.process_result (Example.handler false true))
              None "context") as [Hasync Hsync].
  split.
  - assert (method Example.put ≠ "GET") as Hget by discriminate.
    assert (method Example.put ≠ "POST") as Hpost by discriminate.
    exact (f_equal (fun m => answered (outcome m)) (Hasync Hget Hpost)).
  - apply Hsync; discriminate.
Defined.

(** * Further properties *)

(** ** How a computation ends *)

Section Outcomes.
Context `{Runtime}.

Lemma outcome_try_except {A} (m : traced A) handler :
  outcome (try_except m handler)
  = match outcome m with
    | Ok a => Ok a
    | Raise e =>
        match handler e with
        | Some h => outcome h
        | None => Raise e
        end
    end.
Proof.
  destruct m as [t [a|e]]; simpl; [done|].
  by destruct (handler e) as [[t' r]|].
Qed.

Lemma outcome_loads (text : string) :
  outcome (loads text)
  = match json_loads text with
    | Some v => Ok v
    | None => Raise JSONDecodeError
    end.
Proof. unfold loads. simpl. by destruct (json_loads text). Qed.

Lemma outcome_loads_bytes (b : list byte) :
  outcome (loads (BodyBytes b))
  = match decode_detected b with
    | Some text =>
        match json_loads text with
        | Some v => Ok v
        | None => Raise JSONDecodeError
        end
    | None => Raise UnicodeDecodeError
    end.
Proof.
  unfold loads. simpl. destruct (decode_detected b) as [text|]; [|done].
  simpl. by destruct (json_loads text).
Qed.

Lemma raising_ret P {A} (a : A) : raising P (mret a : traced A).
Proof. intros e He. discriminate. Qed.

Lemma raising_raise (P : Exception → Prop) {A} e :
  P e → raising P (raise e : traced A).
Proof. intros HP e' He. simpl in He. by simplify_eq. Qed.

Lemma raising_tell P a : raising P (tell a).
Proof. intros e He. discriminate. Qed.

Lemma raising_bind P {A B} (m : traced A) (f : A → traced B) :
  raising P m → (∀ a, raising P (f a)) → raising P (m ≫= f).
Proof.
  intros Hm Hf e. rewrite outcome_bind.
  destruct (outcome m) as [a|e'] eqn:Hout.
  - apply Hf.
  - intros ?; simplify_eq. by apply Hm.
Qed.

Lemma raising_parse_request_data (P : Exception → Prop) data :
  P AttributeError → raising P (Http.parse_request_data data).
Proof.
  intros HP e He. pose proof (parse_request_data_run data) as Hrun.
  rewrite He in Hrun. by destruct Hrun as [_ ->].
Qed.

Lemma raising_parse_json data :
  raising parser_exception (BaseView.parse_json data).
Proof.
  intros e. unfold BaseView.parse_json. rewrite outcome_try_except.
  destruct data as [b|text].
  - rewrite outcome_loads_bytes.
    destruct (decode_detected b) as [text|]; simpl;
      [|intros ?; simplify_eq; constructor].
    destruct (json_loads text); simpl; [done|].
    intros ?; simplify_eq. constructor.
  - rewrite outcome_loads.
    destruct (json_loads text); simpl; [done|].
    intros ?; simplify_eq. constructor.
Qed.

(** The exceptions [parse_http_body] ends with. *)
Lemma raising_parse_http_body request :
  raising parser_exception (BaseView.parse_http_body request).
Proof.
  rewrite parse_http_body_eq. apply raising_bind;
    [|intros; apply raising_parse_request_data; constructor].
  unfold BaseView.read_data. apply raising_bind; [apply raising_tell|].
  intros _.
  destruct (Str.contains _ _);
    [|destruct (Str.startswith _ _); [|destruct (String.eqb _ _)]].
  - apply raising_bind; [|intros; apply raising_parse_json].
    repeat case_match;
      first [apply raising_ret | apply raising_raise; constructor].
  - unfold BaseView.parse_form.
    apply raising_bind; [apply raising_parse_json|]. intros operations.
    apply raising_bind; [apply raising_parse_json|]. intros files_map.
    apply raising_bind; [apply raising_tell|]. intros _.
    case_match; [apply raising_ret | apply raising_raise; constructor].
  - apply raising_bind; [|intros; apply raising_ret].
    unfold BaseView.parse_query_params. case_match; [|apply raising_ret].
    apply raising_bind; [|intros; apply raising_ret].
    intros e. rewrite outcome_loads. case_match; [done|].
    intros ?; simplify_eq. constructor.
  - apply raising_raise. constructor.
Qed.

End Outcomes.

(** ** The answers of the two orchestrators *)

Section AnswerLemmas.
Context `{Runtime}.

Lemma execution_error_parser request e status_code reason :
  parser_exception e →
  execution_error request (parse_error e) = HTTPException status_code reason →
  view_error request status_code reason.
Proof. intros [] He; simpl in He; simplify_eq; constructor. Qed.

Lemma read_data_answers (handler : Asgi.HTTPHandler) process_result
    request response :
  outcome (Asgi.read_data handler request) = Ok (inl response) →
  handler_answer handler process_result request response.
Proof.
  unfold Asgi.read_data.
  destruct (String.eqb (method request) "GET");
    [|destruct (String.eqb (method request) "POST")].
  - rewrite ?outcome_bind. simpl. destruct (negb _).
    + rewrite outcome_try_except, outcome_bind.
      unfold Http.parse_query_params.
      destruct (query_params request !! "variables") as [text|]; simpl;
        [|done].
      rewrite outcome_bind, outcome_loads.
      destruct (json_loads text); simpl; [done|].
      intros ?; simplify_eq. constructor.
    + rewrite ?outcome_bind. simpl.
      destruct (Asgi.should_render_graphiql handler request); simpl;
        intros ?; simplify_eq; constructor.
  - rewrite ?outcome_bind. simpl.
    destruct (Str.contains _ _); [|destruct (Str.startswith _ _)].
    + rewrite outcome_try_except, outcome_bind, outcome_loads_bytes.
      destruct (decode_detected _) as [text|]; simpl; [|done].
      destruct (json_loads _); simpl; [done|].
      intros ?; simplify_eq. constructor.
    + rewrite outcome_bind, outcome_try_except, outcome_bind.
      set (operations := default _ _). set (files_map := default _ _).
      assert (∀ part, outcome (Asgi.loads_part part) = Raise JSONDecodeError
                      ∨ outcome (Asgi.loads_part part) = Raise TypeError
                      ∨ ∃ v, outcome (Asgi.loads_part part) = Ok v) as Hpart.
      { intros [text|f]; simpl; [|by eauto].
        rewrite outcome_loads. destruct (json_loads text); eauto. }
      destruct (Hpart operations) as [->|[->|[v ->]]]; simpl;
        [intros ?; simplify_eq; constructor | done |].
      rewrite ?outcome_bind.
      destruct (Hpart files_map) as [->|[->|[v' ->]]]; simpl;
        [intros ?; simplify_eq; constructor | done |].
      rewrite ?outcome_bind. simpl.
      destruct (replace_placeholders_with_files _ _ _); simpl; [done|].
      intros ?; simplify_eq. constructor.
    + simpl. intros ?; simplify_eq. constructor.
  - rewrite ?outcome_bind. simpl. intros ?; simplify_eq. constructor.
Qed.

End AnswerLemmas.

(** X1. Every response [get_http_response] returns is one of nine: the
    console page, the empty 404, one of the six plain-text errors of the
    protocol, or the JSON response built from a result of the engine. Its
    status is therefore 200, 400, 404, 405 or 415. *)
Theorem handler_answers `{Runtime} (handler : Asgi.HTTPHandler)
    (request : Request) (execute : executor) process_result root_value context
    (response : Asgi.Response) :
  outcome (Asgi.get_http_response handler request execute process_result
             root_value context) = Ok response →
  handler_answer handler process_result request response
  ∧ ∃ status_code,
      Asgi.status_code response = Some status_code
      ∧ (status_code = 200 ∨ status_code = 400 ∨ status_code = 404
         ∨ status_code = 405 ∨ status_code = 415).
Proof.
  intros Hout.
  assert (handler_answer handler process_result request response) as Hanswer.
  { destruct (Asgi.read_data handler request) as [t [[early|data]|e]] eqn:Hr.
    - rewrite (get_http_response_returned handler _ _ _ _ _ _ _ Hr) in Hout.
      simpl in Hout. simplify_eq.
      apply read_data_answers. by rewrite Hr.
    - rewrite (get_http_response_read handler _ _ _ _ _ _ _ Hr) in Hout.
      destruct (outcome (Http.parse_request_data data)) as [rd|e]; [|done].
      simpl in Hout.
      destruct (async_allowed handler request) as [allowed|] eqn:Hallowed.
      + rewrite (execute_request_eq handler _ _ _ _ _ _ _ Hallowed) in Hout.
        simpl in Hout.
        destruct (outcome (execute _ _ _ _ _ _)) as [result|e];
          simpl in Hout; [simplify_eq; constructor|].
        destruct e; simpl in Hout; simplify_eq; constructor.
      + apply async_allowed_None in Hallowed.
        by rewrite (execute_request_unknown_method handler _ _ _ _ _ _
                      Hallowed) in Hout.
    - by rewrite (get_http_response_raised handler _ _ _ _ _ _ _ Hr) in Hout. }
  split; [done|]. destruct Hanswer; simpl; eauto 10.
Qed.

(** X2. When the engine does not raise an [HTTPException] of its own, every
    [HTTPException] a synchronous run ends with is one of six: 405 for the
    method, or 400 for a malformed body, missing files, an unsupported
    content type, a missing query or an operation type that is not allowed.
    The view never answers 404 or 415. *)
Theorem view_errors `{Runtime} {Response}
    (view : BaseView.BaseHTTPView Response) (request : Request)
    (status_code : Z) (reason : string) :
  (∀ query root_value variable_values context_value operation_name allowed
     status_code reason,
     Schema.execute_sync (BaseView.schema view) query root_value
       variable_values context_value operation_name allowed
     ≠ inl (HTTPException status_code reason)) →
  outcome (BaseView.run view request)
  = Raise (HTTPException status_code reason) →
  view_error request status_code reason
  ∧ (status_code = 400 ∨ status_code = 405).
Proof.
  intros Hengine Hout.
  assert (view_error request status_code reason) as Herror.
  { destruct (BaseView.is_request_allowed request) eqn:Ha;
      [|rewrite (run_rejected view _ Ha) in Hout; simpl in Hout;
        simplify_eq; constructor].
    destruct (BaseView.should_render_graphiql view request) eqn:Hr;
      [by rewrite (run_console view _ Ha Hr) in Hout|].
    pose proof (raising_parse_http_body request) as Hraising.
    destruct (BaseView.parse_http_body request) as [t [rd|e]] eqn:Hp.
    - destruct (sync_allowed view request) as [allowed|] eqn:Hallowed.
      + rewrite (run_parsed view _ _ _ _ Ha Hr Hp Hallowed) in Hout.
        simpl in Hout. unfold sync_engine_call in Hout.
        destruct (Schema.execute_sync _ _ _ _ _ _ _) as [e|result] eqn:Hcall;
          [|done].
        destruct e; simpl in Hout; simplify_eq; try constructor.
        by apply Hengine in Hcall.
      + apply sync_allowed_None in Hallowed.
        by rewrite (run_unknown_method view _ _ _ Ha Hr Hp Hallowed) in Hout.
    - rewrite (run_failed view _ _ _ Ha Hr Hp) in Hout. simpl in Hout.
      assert (parser_exception e) as He by (by apply Hraising).
      apply (execution_error_parser request e); [done | by simplify_eq]. }
  split; [done|]. destruct Herror; auto.
Qed.

(** X3. What becomes of an exception of the engine. A run that reaches the
    engine answers its [MissingQueryError] with status 400 and "No GraphQL
    query found in the request", its [InvalidOperationTypeError] with status
    400 and the reason the error gives for the method, and lets every other
    exception through unchanged; the view raises the answer as an
    [HTTPException], the handler returns it as a plain-text response. *)
Theorem engine_errors `{Runtime} {Response}
    (view : BaseView.BaseHTTPView Response) (handler : Asgi.HTTPHandler)
    (request : Request) (root_value : option RootValue) (context : Ctx) :
  (∀ request_data context' root_value' allowed e,
     Execute request_data context' root_value' allowed
       ∈ trace (BaseView.run view request) →
     Schema.execute_sync (BaseView.schema view)
       (query request_data) root_value' (variables request_data) context'
       (operation_name request_data) allowed = inl e →
     outcome (BaseView.run view request)
     = Raise match e with
             | MissingQueryError =>
                 HTTPException 400 "No GraphQL query found in the request"
             | InvalidOperationTypeError operation_type =>
                 HTTPException 400
                   (as_http_error_reason operation_type (method request))
             | _ => e
             end)
  ∧ (∀ request_data context' root_value' allowed e,
       Execute request_data context' root_value' allowed
         ∈ trace (Asgi.get_http_response handler request
                    (Asgi.execute handler) (Asgi.process_result handler)
                    root_value context) →
       Schema.execute (Asgi.schema handler)
         (query request_data) root_value' (variables request_data) context'
         (operation_name request_data) allowed = inl e →
       outcome (Asgi.get_http_response handler request
                  (Asgi.execute handler) (Asgi.process_result handler)
                  root_value context)
       = match e with
         | MissingQueryError =>
             Ok (Asgi.PlainTextResponse
                   "No GraphQL query found in the request" 400)
         | InvalidOperationTypeError operation_type =>
             Ok (Asgi.PlainTextResponse
                   (as_http_error_reason operation_type (method request)) 400)
         | _ => Raise e
         end).
Proof.
  split.
  - intros rd c r a e Hin Hcall.
    destruct (run_execute_inv view _ _ _ _ _ Hin)
      as (Ha & Hr & [t Hp] & -> & -> & Hallowed).
    rewrite (run_parsed view _ _ _ _ Ha Hr Hp Hallowed). simpl.
    unfold sync_engine_call. rewrite Hcall. by destruct e.
  - intros rd c r a e Hin Hcall.
    destruct (get_http_response_execute_inv handler _ _ _ _ _ _ _ _ Hin)
      as (_ & -> & -> & _ & ->).
    rewrite handler_execute_eq, Hcall. by destruct e.
Qed.

(** ** One pass, in a fixed order *)

Section Stages.
Context `{Runtime}.

Lemma trace_pair {A} (t : list Action) (r : result A) : trace (t, r) = t.
Proof. reflexivity. Qed.

Lemma between_app stage low high t1 t2 :
  between stage low high (t1 ++ t2)
  = between stage low high t1 && between stage low high t2.
Proof. apply forallb_app. Qed.

Lemma between_weaken stage low high low' high' t :
  (low' ≤ low)%nat → (high ≤ high')%nat →
  between stage low high t = true → between stage low' high' t = true.
Proof.
  unfold between. rewrite !forallb_forall. intros Hlow Hhigh Ht a Ha.
  specialize (Ht a Ha). apply andb_true_iff in Ht as [H1 H2].
  apply Nat.leb_le in H1, H2. apply andb_true_iff.
  split; apply Nat.leb_le; lia.
Qed.

Lemma in_stages_app stage low high low' high' t1 t2 :
  in_stages stage t1 = true → between stage low high t1 = true →
  in_stages stage t2 = true → between stage low' high' t2 = true →
  (high < low')%nat →
  in_stages stage (t1 ++ t2) = true.
Proof.
  intros H1 B1 H2 B2 Hlt. induction t1 as [|a [|b t1] IH]; simpl in *.
  - done.
  - destruct t2 as [|b t2]; [done|]. simpl in *.
    rewrite H2, andb_true_r. unfold in_order.
    apply andb_true_iff in B1 as [[_ Ha]%andb_true_iff _].
    apply andb_true_iff in B2 as [[Hb _]%andb_true_iff _].
    apply Nat.leb_le in Ha, Hb. apply orb_true_iff. left.
    apply Nat.ltb_lt. lia.
  - apply andb_true_iff in H1 as [Hab H1].
    apply andb_true_iff in B1 as [_ B1].
    rewrite Hab. simpl. by apply IH.
Qed.

(** [json.loads] is one action, however it ends. *)
Lemma trace_loads data : trace (loads data) = [JsonLoads data].
Proof.
  unfold loads. destruct data as [b|text]; simpl.
  - destruct (decode_detected b) as [text|]; [|done]. simpl.
    by destruct (json_loads text).
  - by destruct (json_loads text).
Qed.

Lemma trace_parse_json data :
  trace (BaseView.parse_json data) = [JsonLoads data].
Proof.
  pose proof (trace_loads data) as Ht. unfold BaseView.parse_json.
  destruct (loads data) as [t [v|e]]; simpl in *; [done|].
  destruct e; simpl; by rewrite ?app_nil_r.
Qed.

Lemma sync_read_stages request :
  in_stages view_stage (trace (BaseView.read_data request)) = true
  ∧ between view_stage 3 5 (trace (BaseView.read_data request)) = true.
Proof.
  unfold BaseView.read_data.
  destruct (Str.contains _ _); [|destruct (Str.startswith _ _);
                                  [|destruct (String.eqb _ _)]].
  - rewrite !trace_bind. simpl.
    match goal with
    | |- context [trace ?m ++ match outcome ?m with _ => _ end] =>
        assert (trace m = []) as -> by (repeat case_match; done);
        destruct (outcome m) as [body|e]
    end; [|done].
    by rewrite trace_parse_json.
  - unfold BaseView.parse_form, BaseView.parse_json, loads. simpl.
    destruct (json_loads (default "{}" (form request !! "operations")))
      as [operations|]; [|done].
    destruct (json_loads (default "{}" (form request !! "map")))
      as [files_map|]; [|done].
    simpl. by match goal with
       | |- context [replace_placeholders_with_files ?a ?b ?c] =>
           destruct (replace_placeholders_with_files a b c)
       end.
  - unfold BaseView.get_query_params, BaseView.parse_query_params, loads.
    destruct (query_params request !! "variables") as [text|]; [|done].
    simpl. by destruct (json_loads text).
  - done.
Qed.

Lemma parse_request_data_trace data :
  trace (Http.parse_request_data data) = []
  ∨ ∃ request_data, trace (Http.parse_request_data data) = [Parsed request_data].
Proof.
  pose proof (parse_request_data_run data) as Hrun.
  destruct (outcome (Http.parse_request_data data)) as [rd|e].
  - right. exists rd. by destruct Hrun.
  - left. by destruct Hrun.
Qed.

Lemma sync_parse_stages request :
  in_stages view_stage (trace (BaseView.parse_http_body request)) = true
  ∧ between view_stage 3 6 (trace (BaseView.parse_http_body request)) = true.
Proof.
  rewrite parse_http_body_eq, trace_bind.
  destruct (sync_read_stages request) as [Hin Hbetween].
  assert (∀ t, (t = [] ∨ ∃ rd, t = [Parsed rd]) →
               in_stages view_stage (trace (BaseView.read_data request) ++ t)
               = true
               ∧ between view_stage 3 6
                   (trace (BaseView.read_data request) ++ t) = true) as Happ.
  { intros t Ht. split.
    - apply (in_stages_app _ 3 5 6 6); try done; try lia;
        by destruct Ht as [->|[rd ->]].
    - rewrite between_app. apply andb_true_iff. split;
        [by apply (between_weaken _ 3 5); [lia..|]|].
      by destruct Ht as [->|[rd ->]]. }
  destruct (outcome (BaseView.read_data request)) as [data|e].
  - apply Happ, parse_request_data_trace.
  - apply Happ. by left.
Qed.

Lemma async_read_stages (handler : Asgi.HTTPHandler) request :
  in_stages handler_stage (trace (Asgi.read_data handler request)) = true
  ∧ between handler_stage 2 6 (trace (Asgi.read_data handler request)) = true.
Proof.
  unfold Asgi.read_data, Http.parse_query_params, Asgi.loads_part, loads.
  destruct (String.eqb (method request) "GET");
    [|destruct (String.eqb (method request) "POST")].
  - destruct (negb _).
    + destruct (query_params request !! "variables") as [text|]; [|done].
      simpl. by destruct (json_loads text).
    + by destruct (Asgi.should_render_graphiql handler request).
  - destruct (Str.contains _ _); [|destruct (Str.startswith _ _)].
    + simpl. destruct (decode_detected _) as [text|]; [|done].
      simpl. by destruct (json_loads _).
    + destruct (default _ (_ !! "operations")) as [text|f]; [|done].
      simpl.
      destruct (json_loads text) as [operations|];
        [|by destruct (default _ (_ !! "map"))].
      destruct (default _ (_ !! "map")) as [text'|f]; [|done].
      simpl.
      destruct (json_loads text') as [files_map|]; [|done].
      simpl. by match goal with
       | |- context [replace_placeholders_with_files ?a ?b ?c] =>
           destruct (replace_placeholders_with_files a b c)
       end.
    + done.
  - done.
Qed.

End Stages.

(** X4. A synchronous run is one pass through the steps of the view in a
    fixed order - admission, console check, sub-response, content-type
    dispatch, decoding, placeholder replacement, request data, context, root
    value, gate, engine, result processing, response - in which no step but
    [json.loads] happens twice. *)
Theorem run_in_stages `{Runtime} {Response}
    (view : BaseView.BaseHTTPView Response) (request : Request) :
  in_stages view_stage (trace (BaseView.run view request)) = true.
Proof.
  destruct (BaseView.is_request_allowed request) eqn:Ha;
    [|by rewrite (run_rejected view _ Ha)].
  destruct (BaseView.should_render_graphiql view request) eqn:Hr;
    [by rewrite (run_console view _ Ha Hr)|].
  destruct (sync_parse_stages request) as [Hin Hbetween].
  destruct (BaseView.parse_http_body request) as [t [rd|e]] eqn:Hp;
    simpl in Hin, Hbetween.
  - destruct (sync_allowed view request) as [allowed|] eqn:Hallowed.
    + rewrite (run_parsed view _ _ _ _ Ha Hr Hp Hallowed). rewrite trace_pair.
      apply (in_stages_app _ 0 2 3 13); [done | done | | | lia].
      * apply (in_stages_app _ 3 6 7 13); [done | done | | | lia];
          by destruct (sync_engine_call _ _ _ _ _).
      * rewrite between_app. apply andb_true_iff. split;
          [by apply (between_weaken _ 3 6); [lia..|]|].
        by destruct (sync_engine_call _ _ _ _ _).
    + apply sync_allowed_None in Hallowed.
      rewrite (run_unknown_method view _ _ _ Ha Hr Hp Hallowed).
      rewrite trace_pair.
      apply (in_stages_app _ 0 2 3 13); [done | done | | | lia].
      * by apply (in_stages_app _ 3 6 7 13); [| | | |lia].
      * rewrite between_app. apply andb_true_iff. split;
          [by apply (between_weaken _ 3 6); [lia..|] | done].
  - rewrite (run_failed view _ _ _ Ha Hr Hp). rewrite trace_pair.
    by apply (in_stages_app _ 0 2 3 6); [| | | |lia].
Qed.

(** X5. A run of [handle] is one pass in the order of the handler - root
    value, context, test of the method, console check or content-type
    dispatch, decoding, placeholder replacement, request data, gate, debug
    print, engine, result processing, response - in which no step but
    [json.loads] happens twice. In particular the debug print comes before
    the call of the engine, never after it. *)
Theorem handle_in_stages `{Runtime} (handler : Asgi.HTTPHandler)
    (request : Request) :
  in_stages handler_stage (trace (Asgi.handle handler request)) = true.
Proof.
  rewrite handle_eq. rewrite trace_pair.
  change (CallGetRootValue :: CallGetContext :: ?t)
    with ([CallGetRootValue; CallGetContext] ++ t).
  destruct (async_read_stages handler request) as [Hin Hbetween].
  assert (∀ t, in_stages handler_stage t = true →
               between handler_stage 2 12 t = true →
               in_stages handler_stage ([CallGetRootValue; CallGetContext] ++ t)
               = true) as Hpre.
  { intros t H1 H2. by apply (in_stages_app _ 0 1 2 12); [| | | |lia]. }
  destruct (Asgi.read_data handler request) as [t [[response|data]|e]] eqn:Hr;
    simpl in Hin, Hbetween.
  - rewrite (get_http_response_returned handler _ _ _ _ _ _ _ Hr).
    apply Hpre; [done|]. apply (between_weaken _ 2 6); [lia..|done].
  - rewrite (get_http_response_read handler _ _ _ _ _ _ _ Hr).
    destruct (outcome (Http.parse_request_data data)) as [rd|e].
    + rewrite trace_pair.
      set (rest := Parsed rd :: _).
      assert (in_stages handler_stage rest = true
              ∧ between handler_stage 7 12 rest = true) as [Hrest Hbr].
      { subst rest.
        destruct (async_allowed handler request) as [allowed|] eqn:Hallowed.
        - rewrite (execute_request_eq handler _ _ _ _ _ _ _ Hallowed),
            handler_execute_eq.
          simpl.
          destruct (Asgi.debug handler); simpl;
            by destruct (Schema.execute _ _ _ _ _ _ _).
        - apply async_allowed_None in Hallowed.
          by rewrite (execute_request_unknown_method handler _ _ _ _ _ _
                        Hallowed). }
      apply Hpre.
      * by apply (in_stages_app _ 2 6 7 12); [| | | |lia].
      * rewrite between_app. apply andb_true_iff. split;
          [by apply (between_weaken _ 2 6); [lia..|]
          |by apply (between_weaken _ 7 12); [lia..|]].
    + apply Hpre; [done|]. apply (between_weaken _ 2 6); [lia..|done].
  - rewrite (get_http_response_raised handler _ _ _ _ _ _ _ Hr).
    apply Hpre; [done|]. apply (between_weaken _ 2 6); [lia..|done].
Qed.
(** ** The engine is called once, with the gate's set *)

Section GateLemmas.
Context `{Runtime}.

Lemma gated_by_gate (flag : bool) method allowed :
  (legal ← from_http method;
   Some (if negb flag && String.eqb method "GET"
         then legal ∖ {[QUERY]} else legal)) = Some allowed →
  gated_by flag method allowed.
Proof.
  unfold gated_by. destruct (from_http method) as [legal|]; [|done].
  simpl. intros [= <-]. exists legal. split; [done|].
  destruct flag; simpl.
  - split; [done|]. split; [apply subseteq_difference_l; done|].
    split; [done|]. intros; discriminate.
  - destruct (String.eqb method "GET") eqn:Hget.
    + apply String.eqb_eq in Hget.
      split; [apply subseteq_difference_l; done|]. split; [done|].
      split; [intros [?|?]; done|].
      intros _ _. rewrite elem_of_difference, elem_of_singleton. tauto.
    + apply String.eqb_neq in Hget.
      split; [done|]. split; [apply subseteq_difference_l; done|].
      split; [done|]. intros _ ?; done.
Qed.

End GateLemmas.

(** X6. The set of operation types an orchestrator hands to the engine is
    [from_http method] with at most QUERY taken out: every other type that
    is legal for the method stays allowed, the set is [from_http method]
    itself when [allow_queries_via_get] is on or the method is not ["GET"],
    and QUERY is out for a ["GET"] with the flag off. *)
Theorem engine_receives_gated_set `{Runtime} {Response}
    (view : BaseView.BaseHTTPView Response) (handler : Asgi.HTTPHandler)
    (request : Request) :
  (∀ request_data context root_value allowed,
     Execute request_data context root_value allowed
       ∈ trace (BaseView.run view request) →
     gated_by (BaseView.allow_queries_via_get view) (method request) allowed)
  ∧ (∀ request_data context root_value allowed,
       Execute request_data context root_value allowed
         ∈ trace (Asgi.handle handler request) →
       gated_by (Asgi.allow_queries_via_get handler) (method request) allowed).
Proof.
  split.
  - intros rd c r a Hin.
    destruct (run_execute_inv view _ _ _ _ _ Hin)
      as (_ & _ & _ & _ & _ & Hallowed).
    by apply gated_by_gate.
  - intros rd c r a Hin. rewrite handle_eq in Hin. simpl in Hin.
    apply elem_of_cons in Hin as [?|Hin]; [discriminate|].
    apply elem_of_cons in Hin as [?|Hin]; [discriminate|].
    destruct (get_http_response_execute_inv handler _ _ _ _ _ _ _ _ Hin)
      as (_ & _ & _ & Hallowed & _).
    by apply gated_by_gate.
Qed.

Section Once.
Context `{Runtime}.

Lemma only_filter_out (P Q : Action → bool) t :
  forallb P t = true → (∀ a, P a = true → Q a = false) →
  List.filter Q t = [].
Proof.
  intros Ht HPQ. induction t as [|a t IH]; simpl in *; [done|].
  apply andb_true_iff in Ht as [Ha Ht]. rewrite (HPQ a Ha). by apply IH.
Qed.


End Once.

(** X7. An orchestrator calls the engine at most once for a request. *)
Theorem engine_called_at_most_once `{Runtime} {Response}
    (view : BaseView.BaseHTTPView Response) (handler : Asgi.HTTPHandler)
    (request : Request) :
  (length (executions (trace (BaseView.run view request))) ≤ 1)%nat
  ∧ (length (executions (trace (Asgi.handle handler request))) ≤ 1)%nat.
Proof.
  split.
  - destruct (BaseView.is_request_allowed request) eqn:Ha;
      [|rewrite (run_rejected view _ Ha); simpl; lia].
    destruct (BaseView.should_render_graphiql view request) eqn:Hr;
      [rewrite (run_console view _ Ha Hr); simpl; lia|].
    pose proof (only_parse_http_body request) as Honly.
    assert (executions (trace (BaseView.parse_http_body request)) = [])
      as Hnone by (by apply (only_filter_out is_parser_action);
                     [|intros []]).
    destruct (BaseView.parse_http_body request) as [t [rd|e]] eqn:Hp;
      simpl in Hnone.
    + destruct (sync_allowed view request) as [allowed|] eqn:Hallowed.
      * rewrite (run_parsed view _ _ _ _ Ha Hr Hp Hallowed), trace_pair.
        rewrite !executions_app, Hnone. simpl.
        destruct (sync_engine_call _ _ _ _ _); simpl; lia.
      * apply sync_allowed_None in Hallowed.
        rewrite (run_unknown_method view _ _ _ Ha Hr Hp Hallowed), trace_pair.
        rewrite !executions_app, Hnone. simpl. lia.
    + rewrite (run_failed view _ _ _ Ha Hr Hp), trace_pair.
      rewrite executions_app, Hnone. simpl. lia.
  - rewrite handle_eq, trace_pair. simpl.
    pose proof (only_async_read_data handler request) as Honly.
    assert (executions (trace (Asgi.read_data handler request)) = [])
      as Hnone by (by apply (only_filter_out is_read_action); [|intros []]).
    destruct (Asgi.read_data handler request) as [t [[response|data]|e]] eqn:Hr;
      simpl in Hnone.
    + rewrite (get_http_response_returned handler _ _ _ _ _ _ _ Hr),
        trace_pair, Hnone. simpl. lia.
    + rewrite (get_http_response_read handler _ _ _ _ _ _ _ Hr).
      destruct (outcome (Http.parse_request_data data)) as [rd|e].
      * rewrite trace_pair, executions_app, Hnone. simpl.
        destruct (async_allowed handler request) as [allowed|] eqn:Hallowed.
        -- rewrite (execute_request_eq handler _ _ _ _ _ _ _ Hallowed),
             handler_execute_eq, trace_pair.
           simpl.
           destruct (Asgi.debug handler); simpl;
             destruct (Schema.execute _ _ _ _ _ _ _); simpl; lia.
        -- apply async_allowed_None in Hallowed.
           rewrite (execute_request_unknown_method handler _ _ _ _ _ _
                      Hallowed).
           simpl. lia.
      * rewrite trace_pair, Hnone. simpl. lia.
    + rewrite (get_http_response_raised handler _ _ _ _ _ _ _ Hr),
        trace_pair, Hnone. simpl. lia.
Qed.

(** ** The console *)

Section Console.
Context `{Runtime}.

Lemma read_data_console (handler : Asgi.HTTPHandler) request render :
  ConsoleCheck render ∈ trace (Asgi.read_data handler request) →
  method request = "GET" ∧ query_params request = ∅
  ∧ render = Asgi.should_render_graphiql handler request.
Proof.
  unfold Asgi.read_data, Http.parse_query_params, Asgi.loads_part, loads.
  destruct (String.eqb (method request) "GET") eqn:Hget;
    [|destruct (String.eqb (method request) "POST")].
  - apply String.eqb_eq in Hget.
    destruct (bool_decide (query_params request = ∅)) eqn:Hparams; simpl.
    + apply bool_decide_eq_true in Hparams.
      destruct (Asgi.should_render_graphiql handler request); simpl;
        rewrite !elem_of_cons, elem_of_nil; intros [?|[?|[]]];
        by simplify_eq.
    + destruct (query_params request !! "variables") as [text|]; simpl;
        [destruct (json_loads text)|]; intros Hin; absurd_elem Hin.
  - destruct (Str.contains _ _); [|destruct (Str.startswith _ _)].
    + simpl. destruct (decode_detected _) as [text|]; simpl;
        [destruct (json_loads text)|]; intros Hin; absurd_elem Hin.
    + destruct (default _ (_ !! "operations")) as [text|f];
        [|intros Hin; absurd_elem Hin].
      simpl.
      destruct (json_loads text) as [operations|];
        [|destruct (default _ (_ !! "map")); intros Hin; absurd_elem Hin].
      destruct (default _ (_ !! "map")) as [text'|f];
        [|intros Hin; absurd_elem Hin].
      simpl.
      destruct (json_loads text') as [files_map|];
        [|intros Hin; absurd_elem Hin].
      simpl.
      match goal with
      | |- context [replace_placeholders_with_files ?a ?b ?c] =>
          destruct (replace_placeholders_with_files a b c)
      end; intros Hin; absurd_elem Hin.
    + intros Hin; absurd_elem Hin.
  - intros Hin; absurd_elem Hin.
Qed.

End Console.

(** X8. [get_http_response] considers the console only for a request with
    method ["GET"] and no query parameter, and serves it - the page of
    [get_graphiql_html] with status 200 - only when, in addition, the
    console is enabled and the Accept header contains [text/html] or
    [*/*]. *)
Theorem console_only_for_bare_get `{Runtime} (handler : Asgi.HTTPHandler)
    (request : Request) (root_value : option RootValue) (context : Ctx)
    (render : bool) :
  ConsoleCheck render
    ∈ trace (Asgi.get_http_response handler request (Asgi.execute handler)
               (Asgi.process_result handler) root_value context) →
  method request = "GET" ∧ query_params request = ∅
  ∧ (render = true →
     Asgi.graphiql handler = true
     ∧ (Str.contains "text/html" (default "" (accept request)) = true
        ∨ Str.contains "*/*" (default "" (accept request)) = true)
     ∧ outcome (Asgi.get_http_response handler request (Asgi.execute handler)
                  (Asgi.process_result handler) root_value context)
       = Ok (Asgi.HTMLResponse (Some get_graphiql_html) 200)).
Proof.
  intros Hin.
  assert (ConsoleCheck render ∈ trace (Asgi.read_data handler request))
    as Hread.
  { destruct (Asgi.read_data handler request) as [t [[response|data]|e]] eqn:Hr.
    - by rewrite (get_http_response_returned handler _ _ _ _ _ _ _ Hr) in Hin.
    - rewrite (get_http_response_read handler _ _ _ _ _ _ _ Hr) in Hin.
      destruct (outcome (Http.parse_request_data data)) as [rd|e]; [|done].
      rewrite trace_pair in Hin.
      apply elem_of_app in Hin as [Hin|Hin]; [done|].
      destruct (async_allowed handler request) as [allowed|] eqn:Hallowed.
      + rewrite (execute_request_eq handler _ _ _ _ _ _ _ Hallowed),
          handler_execute_eq, trace_pair in Hin.
        destruct (Asgi.debug handler), (Schema.execute _ _ _ _ _ _ _);
          absurd_elem Hin.
      + apply async_allowed_None in Hallowed.
        rewrite (execute_request_unknown_method handler _ _ _ _ _ _ Hallowed)
          in Hin.
        absurd_elem Hin.
    - by rewrite (get_http_response_raised handler _ _ _ _ _ _ _ Hr) in Hin. }
  destruct (read_data_console handler request render Hread)
    as (Hget & Hparams & ->).
  split; [done|]. split; [done|]. intros Hrender.
  assert (Asgi.graphiql handler = true
          ∧ (Str.contains "text/html" (default "" (accept request)) = true
             ∨ Str.contains "*/*" (default "" (accept request)) = true))
    as [Hgraphiql Haccept].
  { unfold Asgi.should_render_graphiql in Hrender.
    destruct (Asgi.graphiql handler); simpl in Hrender; [|done].
    split; [done|]. rewrite orb_false_r in Hrender.
    by apply orb_true_iff in Hrender. }
  split; [done|]. split; [done|].
  erewrite get_http_response_returned; [reflexivity|].
  unfold Asgi.read_data. rewrite Hget, Hparams. simpl. by rewrite Hrender.
Qed.

(** ** Results and errors *)

(** X9. [process_result] and the builder of the response run only on a
    result of the engine: a run in which they are called ends with the
    response built from that result, never with an error. *)
Theorem processing_means_success `{Runtime} {Response}
    (view : BaseView.BaseHTTPView Response) (handler : Asgi.HTTPHandler)
    (request : Request) (root_value : option RootValue) (context : Ctx) :
  (ProcessResult ∈ trace (BaseView.run view request) →
   ∃ result,
     outcome (BaseView.run view request)
     = Ok (BaseView._create_response view
             (BaseView.process_result request result)
             (BaseView.get_context view request
                (BaseView.get_sub_response view request)).2))
  ∧ (ProcessResult
       ∈ trace (Asgi.get_http_response handler request (Asgi.execute handler)
                  (Asgi.process_result handler) root_value context) →
     ∃ result,
       outcome (Asgi.get_http_response handler request (Asgi.execute handler)
                  (Asgi.process_result handler) root_value context)
       = Ok (Asgi.make_response
               (Some (Asgi.encode_json handler
                        (Asgi.process_result handler request result)))
               200 (Some "application/json"))).
Proof.
  split.
  - intros Hin.
    destruct (BaseView.is_request_allowed request) eqn:Ha;
      [|rewrite (run_rejected view _ Ha) in Hin; absurd_elem Hin].
    destruct (BaseView.should_render_graphiql view request) eqn:Hr;
      [rewrite (run_console view _ Ha Hr) in Hin; absurd_elem Hin|].
    pose proof (only_parse_http_body request) as Honly.
    destruct (BaseView.parse_http_body request) as [t [rd|e]] eqn:Hp.
    + destruct (sync_allowed view request) as [allowed|] eqn:Hallowed.
      * rewrite (run_parsed view _ _ _ _ Ha Hr Hp Hallowed) in Hin |- *.
        destruct (sync_engine_call _ _ _ _ _) as [e|result]; [|by eexists].
        rewrite trace_pair in Hin. simpl in Hin.
        rewrite !elem_of_cons, elem_of_app, !elem_of_cons, elem_of_nil in Hin.
        destruct Hin as [?|[?|[?|[Hin|[?|[?|[?|[?|[]]]]]]]]];
          try discriminate.
        apply (only_elem _ _ _ Honly) in Hin. discriminate.
      * apply sync_allowed_None in Hallowed.
        rewrite (run_unknown_method view _ _ _ Ha Hr Hp Hallowed), trace_pair
          in Hin.
        simpl in Hin.
        rewrite !elem_of_cons, elem_of_app, !elem_of_cons, elem_of_nil in Hin.
        destruct Hin as [?|[?|[?|[Hin|[?|[?|[]]]]]]]; try discriminate.
        apply (only_elem _ _ _ Honly) in Hin. discriminate.
    + rewrite (run_failed view _ _ _ Ha Hr Hp), trace_pair in Hin.
      simpl in Hin. rewrite !elem_of_cons in Hin.
      destruct Hin as [?|[?|[?|Hin]]]; try discriminate.
      apply (only_elem _ _ _ Honly) in Hin. discriminate.
  - intros Hin.
    pose proof (only_async_read_data handler request) as Honly.
    destruct (Asgi.read_data handler request) as [t [[response|data]|e]] eqn:Hr.
    + rewrite (get_http_response_returned handler _ _ _ _ _ _ _ Hr) in Hin.
      apply (only_elem _ _ _ Honly) in Hin. discriminate.
    + rewrite (get_http_response_read handler _ _ _ _ _ _ _ Hr) in Hin |- *.
      destruct (outcome (Http.parse_request_data data)) as [rd|e].
      * rewrite trace_pair in Hin.
        apply elem_of_app in Hin as [Hin|Hin];
          [apply (only_elem _ _ _ Honly) in Hin; discriminate|].
        destruct (async_allowed handler request) as [allowed|] eqn:Hallowed.
        -- simpl outcome.
           rewrite (execute_request_eq handler _ _ _ _ _ _ _ Hallowed),
             handler_execute_eq in Hin |- *.
           rewrite trace_pair in Hin. simpl outcome.
           destruct (Schema.execute _ _ _ _ _ _ _) as [e|result];
             [|by eexists].
           destruct (Asgi.debug handler); absurd_elem Hin.
        -- apply async_allowed_None in Hallowed.
           rewrite (execute_request_unknown_method handler _ _ _ _ _ _
                      Hallowed) in Hin.
           absurd_elem Hin.
      * rewrite trace_pair in Hin.
        apply (only_elem _ _ _ Honly) in Hin. discriminate.
    + rewrite (get_http_response_raised handler _ _ _ _ _ _ _ Hr) in Hin.
      apply (only_elem _ _ _ Honly) in Hin. discriminate.
Qed.

(** ** The debug flag *)

Section Debug.
Context `{Runtime}.



End Debug.


(** ** JSON bodies *)

Section JsonBody.
Context `{Runtime}.

(** What the view reads off a JSON body that [request.data] holds as
    bytes. *)
Lemma sync_read_json request (b : list byte) :
  Str.contains "application/json" (default "" (content_type request)) = true →
  data request = Some (BodyBytes b) →
  BaseView.read_data request
  = match decode_utf8 b with
    | Some text =>
        ([ContentTypeDispatch (default "" (content_type request));
          JsonLoads text],
         match json_loads text with
         | Some v => Ok v
         | None =>
             Raise (HTTPException 400 "Unable to parse request body as JSON")
         end)
    | None =>
        ([ContentTypeDispatch (default "" (content_type request))],
         Raise UnicodeDecodeError)
    end.
Proof.
  intros Hjson Hdata. unfold BaseView.read_data, BaseView.parse_json, loads.
  rewrite Hjson, Hdata. destruct (decode_utf8 b) as [text|]; [|done].
  simpl. by destruct (json_loads text).
Qed.

(** What the handler reads off the JSON body of a POST. *)
Lemma async_read_json (handler : Asgi.HTTPHandler) request :
  method request = "POST" →
  Str.contains "application/json" (default "" (content_type request)) = true →
  Asgi.read_data handler request
  = ([Admission true;
      ContentTypeDispatch (default "" (content_type request));
      JsonLoads (BodyBytes (received request))],
     match decode_detected (received request) with
     | Some text =>
         Ok match json_loads text with
            | Some v => inr v
            | None =>
                inl (Asgi.PlainTextResponse
                       "Unable to parse request body as JSON" 400)
            end
     | None => Raise UnicodeDecodeError
     end).
Proof.
  intros Hpost Hjson. unfold Asgi.read_data, loads. rewrite Hpost. simpl.
  rewrite Hjson. simpl.
  destruct (decode_detected (received request)) as [text|]; [|done].
  simpl. by destruct (json_loads text).
Qed.

End JsonBody.

(** X11. A body with a JSON content type is decoded once with
    [json.loads]: by the view as the text [decode("utf-8")] makes of the
    bytes in [request.data], by the handler as the bytes received. Bytes
    that cannot be decoded end the run with [UnicodeDecodeError]; a text
    that is not JSON is answered with status 400 and "Unable to parse
    request body as JSON"; for an object the engine is called once with the
    object's [query], [variables] and [operationName], [None] standing for
    an absent key - unless [from_http] raises for the method, which ends
    the run with [ValueError] before the engine. The view does so for every
    admitted method, the handler for POST. *)
Theorem json_body_fields `{Runtime} {Response}
    (view : BaseView.BaseHTTPView Response) (handler : Asgi.HTTPHandler)
    (request : Request) (root_value : option RootValue) (context : Ctx) :
  Str.contains "application/json" (default "" (content_type request)) = true →
  let dispatch := ContentTypeDispatch (default "" (content_type request)) in
  (BaseView.is_request_allowed request = true →
   BaseView.should_render_graphiql view request = false →
   ∀ b, data request = Some (BodyBytes b) →
   (decode_utf8 b = None →
    BaseView.run view request
    = (sync_prefix ++ [dispatch], Raise UnicodeDecodeError))
   ∧ (∀ text : string, decode_utf8 b = Some text →
        (json_loads text = None →
         BaseView.run view request
         = (sync_prefix ++ [dispatch; JsonLoads text],
            Raise (HTTPException 400 "Unable to parse request body as JSON")))
        ∧ (∀ d, json_loads text = Some (VDict d) →
             match sync_allowed view request with
             | Some allowed =>
                 executions (trace (BaseView.run view request))
                 = [Execute (request_data_of d)
                      (BaseView.get_context view request
                         (BaseView.get_sub_response view request)).1
                      (BaseView.get_root_value view request)
                      allowed]
             | None =>
                 BaseView.run view request
                 = (sync_prefix
                    ++ [dispatch; JsonLoads text; Parsed (request_data_of d);
                        CallGetContext; CallGetRootValue],
                    Raise ValueError)
             end)))
  ∧ (method request = "POST" →
     let response :=
       Asgi.get_http_response handler request (Asgi.execute handler)
         (Asgi.process_result handler) root_value context in
     let loads := JsonLoads (BodyBytes (received request)) in
     (decode_detected (received request) = None →
      response = ([Admission true; dispatch; loads], Raise UnicodeDecodeError))
     ∧ (∀ text, decode_detected (received request) = Some text →
          (json_loads text = None →
           response
           = ([Admission true; dispatch; loads],
              Ok (Asgi.PlainTextResponse
                    "Unable to parse request body as JSON" 400)))
          ∧ (∀ d, json_loads text = Some (VDict d) →
               match async_allowed handler request with
               | Some allowed =>
                   executions (trace response)
                   = [Execute (request_data_of d) context root_value allowed]
               | None =>
                   response
                   = ([Admission true; dispatch; loads;
                       Parsed (request_data_of d)],
                      Raise ValueError)
               end))).
Proof.
  intros Hjson dispatch. split.
  - intros Ha Hr b Hdata.
    pose proof (sync_read_json request b Hjson Hdata) as Hread.
    fold dispatch in Hread. split.
    + intros Hnone. rewrite Hnone in Hread.
      assert (BaseView.parse_http_body request
              = ([dispatch], Raise UnicodeDecodeError)) as Hp
        by (by rewrite parse_http_body_eq, Hread).
      by rewrite (run_failed view _ _ _ Ha Hr Hp).
    + intros text Htext. rewrite Htext in Hread. split.
      * intros Hnone. rewrite Hnone in Hread.
        assert (BaseView.parse_http_body request
                = ([dispatch; JsonLoads text],
                   Raise (HTTPException 400
                            "Unable to parse request body as JSON"))) as Hp
          by (by rewrite parse_http_body_eq, Hread).
        by rewrite (run_failed view _ _ _ Ha Hr Hp).
      * intros d Hsome. rewrite Hsome in Hread.
        assert (BaseView.parse_http_body request
                = ([dispatch; JsonLoads text; Parsed (request_data_of d)],
                   Ok (request_data_of d))) as Hp.
        { by rewrite parse_http_body_eq, Hread, bind_ok,
            parse_request_data_dict. }
        destruct (sync_allowed view request) as [allowed|] eqn:Hallowed.
        -- rewrite (run_parsed view _ _ _ _ Ha Hr Hp Hallowed), trace_pair.
           simpl. by destruct (sync_engine_call _ _ _ _ _).
        -- apply sync_allowed_None in Hallowed.
           by rewrite (run_unknown_method view _ _ _ Ha Hr Hp Hallowed).
  - intros Hpost response loads.
    pose proof (async_read_json handler request Hpost Hjson) as Hread.
    fold dispatch loads in Hread. split.
    + intros Hnone. rewrite Hnone in Hread.
      by apply get_http_response_raised.
    + intros text Htext. rewrite Htext in Hread. split.
      * intros Hnone. rewrite Hnone in Hread.
        by apply get_http_response_returned.
      * intros d Hsome. rewrite Hsome in Hread. subst response.
        rewrite (get_http_response_read handler _ _ _ _ _ _ _ Hread).
        rewrite parse_request_data_dict. simpl outcome. cbv iota.
        destruct (async_allowed handler request) as [allowed|] eqn:Hallowed.
        -- rewrite trace_pair,
             (execute_request_eq handler _ _ _ _ _ _ _ Hallowed),
             handler_execute_eq, trace_pair.
           simpl.
           destruct (Asgi.debug handler); simpl;
             by destruct (Schema.execute _ _ _ _ _ _ _).
        -- apply async_allowed_None in Hallowed.
           by rewrite (execute_request_unknown_method handler _ _ _ _ _ _
                         Hallowed).
Qed.

(** X12. The view does not catch what a JSON body that is not an object
    does to it: when [json.loads] gives a list, a string, a number or
    [null], reading [query] off it raises [AttributeError], which leaves
    [run] as it is - not as an [HTTPException] - before the builders or the
    engine are called. *)
Theorem json_body_not_object `{Runtime} {Response}
    (view : BaseView.BaseHTTPView Response) (request : Request)
    (b : list byte) (text : string) (decoded : Value) :
  Str.contains "application/json" (default "" (content_type request)) = true →
  BaseView.is_request_allowed request = true →
  BaseView.should_render_graphiql view request = false →
  data request = Some (BodyBytes b) →
  decode_utf8 b = Some text →
  json_loads text = Some decoded →
  (∀ d, decoded ≠ VDict d) →
  BaseView.run view request
  = (sync_prefix
     ++ [ContentTypeDispatch (default "" (content_type request));
         JsonLoads text],
     Raise AttributeError).
Proof.
  intros Hjson Ha Hr Hdata Htext Hsome Hobject.
  pose proof (sync_read_json request b Hjson Hdata) as Hread.
  rewrite Htext, Hsome in Hread.
  assert (BaseView.parse_http_body request
          = ([ContentTypeDispatch (default "" (content_type request));
              JsonLoads text], Raise AttributeError)) as Hp.
  { rewrite parse_http_body_eq, Hread, bind_ok.
    destruct decoded; try done. by destruct (Hobject d). }
  by rewrite (run_failed view _ _ _ Ha Hr Hp).
Qed.

(** X21. For a JSON content type the view takes the body from
    [request.data] only when that holds bytes. When [request.data] is
    missing or holds a [str], it hands [request.body] to [json.loads] as it
    is, or else [request.raw_body]; when neither is there the run ends with
    the [AttributeError] of the last lookup, which [run] does not catch. *)
Theorem json_body_elsewhere `{Runtime} {Response}
    (view : BaseView.BaseHTTPView Response) (request : Request) :
  Str.contains "application/json" (default "" (content_type request)) = true →
  BaseView.is_request_allowed request = true →
  BaseView.should_render_graphiql view request = false →
  (∀ b, data request ≠ Some (BodyBytes b)) →
  let dispatch := ContentTypeDispatch (default "" (content_type request)) in
  match body request, raw_body request with
  | Some found, _ | None, Some found =>
      BaseView.read_data request
      = (tell dispatch ;; BaseView.parse_json found)
  | None, None =>
      BaseView.run view request
      = (sync_prefix ++ [dispatch], Raise AttributeError)
  end.
Proof.
  intros Hjson Ha Hr Hdata dispatch.
  assert (BaseView.read_data request
          = (tell dispatch ;;
             found ←
               match body request with
               | Some found => mret found
               | None =>
                   match raw_body request with
                   | Some found => mret found
                   | None => raise AttributeError
                   end
               end;
             BaseView.parse_json found)) as Hread.
  { unfold BaseView.read_data. rewrite Hjson.
    destruct (data request) as [[b|text]|]; [by destruct (Hdata b)|done..]. }
  destruct (body request) as [found|];
    [|destruct (raw_body request) as [found|]].
  - rewrite Hread. simpl. by destruct (BaseView.parse_json found).
  - rewrite Hread. simpl. by destruct (BaseView.parse_json found).
  - assert (BaseView.parse_http_body request
            = ([dispatch], Raise AttributeError)) as Hp
      by (by rewrite parse_http_body_eq, Hread).
    by rewrite (run_failed view _ _ _ Ha Hr Hp).
Qed.

(** X22. The two orchestrators can read the same JSON body differently.
    When [decode("utf-8")] makes of the bytes a text that is not JSON while
    [json.loads], decoding the bytes by itself, finds an object in them - a
    body that begins with a byte order mark is one - the view answers a POST
    with status 400 and "Unable to parse request body as JSON" and calls no
    engine, and the handler calls the engine with the fields of the
    object. *)
Theorem json_body_read_differently `{Runtime} {Response}
    (view : BaseView.BaseHTTPView Response) (handler : Asgi.HTTPHandler)
    (request : Request) (root_value : option RootValue) (context : Ctx)
    (text text' : string) (d : gmap string Value)
    (allowed : gset OperationType) :
  method request = "POST" →
  Str.contains "application/json" (default "" (content_type request)) = true →
  BaseView.should_render_graphiql view request = false →
  data request = Some (BodyBytes (received request)) →
  decode_utf8 (received request) = Some text →
  json_loads text = None →
  decode_detected (received request) = Some text' →
  json_loads text' = Some (VDict d) →
  async_allowed handler request = Some allowed →
  outcome (BaseView.run view request)
  = Raise (HTTPException 400 "Unable to parse request body as JSON")
  ∧ executions (trace (BaseView.run view request)) = []
  ∧ executions
      (trace (Asgi.get_http_response handler request (Asgi.execute handler)
                (Asgi.process_result handler) root_value context))
    = [Execute (request_data_of d) context root_value allowed].
Proof.
  intros Hpost Hjson Hr Hdata Htext Hnone Htext' Hsome Hallowed.
  assert (BaseView.is_request_allowed request = true) as Ha.
  { unfold BaseView.is_request_allowed. by rewrite Hpost. }
  destruct (json_body_fields view handler request root_value context Hjson)
    as [Hsync Hasync].
  destruct (Hsync Ha Hr _ Hdata) as [_ Hview].
  destruct (Hview text Htext) as [Hfailed _].
  rewrite (Hfailed Hnone). split; [done|]. split; [done|].
  destruct (Hasync Hpost) as [_ Hhandler].
  destruct (Hhandler text' Htext') as [_ Hfields].
  specialize (Hfields d Hsome). by rewrite Hallowed in Hfields.
Qed.

(** ** Multipart forms *)

(** X13. A multipart request is answered with status 400 in three cases,
    tried in this order: the [operations] field is not JSON ("Unable to
    parse request body as JSON", and the [map] field is not looked at), the
    [map] field is not JSON (the same reason), the resolver of the file
    placeholders raises [KeyError] ("File(s) missing in form data"). An
    absent field counts as the text of an empty object. The view does so for
    every admitted method, the handler for a POST whose two fields are not
    file parts. *)
Theorem multipart_errors `{Runtime} {Response}
    (view : BaseView.BaseHTTPView Response) (handler : Asgi.HTTPHandler)
    (request : Request) (execute : executor) process_result
    (root_value : option RootValue) (context : Ctx) :
  Str.contains "application/json" (default "" (content_type request)) = false →
  Str.startswith (default "" (content_type request)) "multipart/form-data"
  = true →
  let dispatch := ContentTypeDispatch (default "" (content_type request)) in
  let operations_text := default "{}" (form request !! "operations") in
  let map_text := default "{}" (form request !! "map") in
  (BaseView.is_request_allowed request = true →
   BaseView.should_render_graphiql view request = false →
   (json_loads operations_text = None →
    BaseView.run view request
    = (sync_prefix ++ [dispatch; JsonLoads operations_text],
       Raise (HTTPException 400 "Unable to parse request body as JSON")))
   ∧ (∀ operations,
        json_loads operations_text = Some operations →
        json_loads map_text = None →
        BaseView.run view request
        = (sync_prefix
           ++ [dispatch; JsonLoads operations_text; JsonLoads map_text],
           Raise (HTTPException 400 "Unable to parse request body as JSON")))
   ∧ (∀ operations files_map,
        json_loads operations_text = Some operations →
        json_loads map_text = Some files_map →
        replace_placeholders_with_files operations files_map
          (FormFile <$> files request) = None →
        BaseView.run view request
        = (sync_prefix
           ++ [dispatch; JsonLoads operations_text; JsonLoads map_text;
               ReplacePlaceholders],
           Raise (HTTPException 400 "File(s) missing in form data"))))
  ∧ (method request = "POST" →
     files request !! "operations" = None →
     files request !! "map" = None →
     let response :=
       Asgi.get_http_response handler request execute process_result
         root_value context in
     (json_loads operations_text = None →
      response
      = ([Admission true; dispatch; JsonLoads operations_text],
         Ok (Asgi.PlainTextResponse
               "Unable to parse request body as JSON" 400)))
     ∧ (∀ operations,
          json_loads operations_text = Some operations →
          json_loads map_text = None →
          response
          = ([Admission true; dispatch; JsonLoads operations_text;
              JsonLoads map_text],
             Ok (Asgi.PlainTextResponse
                   "Unable to parse request body as JSON" 400)))
     ∧ (∀ operations files_map,
          json_loads operations_text = Some operations →
          json_loads map_text = Some files_map →
          replace_placeholders_with_files operations files_map
            ((FormFile <$> files request) ∪ (FormText <$> form request))
          = None →
          response
          = ([Admission true; dispatch; JsonLoads operations_text;
              JsonLoads map_text; ReplacePlaceholders],
             Ok (Asgi.PlainTextResponse "File(s) missing in form data" 400)))).
Proof.
  intros Hjson Hmultipart dispatch operations_text map_text. split.
  - intros Ha Hr.
    assert (∀ t e, BaseView.read_data request = (t, Raise e) →
                   parse_error e = e → execution_error request e = e →
                   BaseView.run view request = (sync_prefix ++ t, Raise e))
      as Hrun.
    { intros t e Hread He He'.
      assert (BaseView.parse_http_body request = (t, Raise e)) as Hp
        by (by rewrite parse_http_body_eq, Hread).
      by rewrite (run_failed view _ _ _ Ha Hr Hp), He, He'. }
    split; [|split].
    + intros Hoperations. apply Hrun; [|done..].
      unfold BaseView.read_data, BaseView.parse_form, BaseView.parse_json,
        loads.
      rewrite Hjson, Hmultipart. simpl. fold operations_text.
      by rewrite Hoperations.
    + intros operations Hoperations Hmap. apply Hrun; [|done..].
      unfold BaseView.read_data, BaseView.parse_form, BaseView.parse_json,
        loads.
      rewrite Hjson, Hmultipart. simpl. fold operations_text map_text.
      by rewrite Hoperations, Hmap.
    + intros operations files_map Hoperations Hmap Hreplace.
      apply Hrun; [|done..].
      unfold BaseView.read_data, BaseView.parse_form, BaseView.parse_json,
        loads.
      rewrite Hjson, Hmultipart. simpl. fold operations_text map_text.
      rewrite Hoperations, Hmap. simpl. by rewrite Hreplace.
  - intros Hpost Hfile Hfile' response.
    assert (∀ key,
              files request !! key = None →
              default (FormText "{}")
                (((FormFile <$> files request) ∪ (FormText <$> form request))
                   !! key)
              = FormText (default "{}" (form request !! key))) as Hpart.
    { intros key Hkey.
      rewrite lookup_union_r by (by rewrite lookup_fmap, Hkey).
      rewrite lookup_fmap. by destruct (form request !! key). }
    split; [|split].
    + intros Hoperations. apply get_http_response_returned.
      unfold Asgi.read_data. rewrite Hpost. simpl.
      rewrite Hjson, Hmultipart, (Hpart _ Hfile). fold operations_text.
      unfold Asgi.loads_part, loads. simpl. by rewrite Hoperations.
    + intros operations Hoperations Hmap. apply get_http_response_returned.
      unfold Asgi.read_data. rewrite Hpost. simpl.
      rewrite Hjson, Hmultipart, (Hpart _ Hfile), (Hpart _ Hfile').
      fold operations_text map_text.
      unfold Asgi.loads_part, loads. simpl. by rewrite Hoperations, Hmap.
    + intros operations files_map Hoperations Hmap Hreplace.
      apply get_http_response_returned.
      unfold Asgi.read_data. rewrite Hpost. simpl.
      rewrite Hjson, Hmultipart, (Hpart _ Hfile), (Hpart _ Hfile').
      fold operations_text map_text.
      unfold Asgi.loads_part, loads. simpl. rewrite Hoperations, Hmap. simpl.
      by rewrite Hreplace.
Qed.

(** ** Query parameters *)

(** X14. [parse_query_params] of the view changes nothing but [variables]:
    the document it returns has the keys of the parameters, every other
    parameter as the string it was, and under [variables] what [json.loads]
    made of that parameter. It raises only [JSONDecodeError], and only when
    the [variables] parameter is there and is not JSON; without that
    parameter it decodes nothing. *)
Theorem parse_query_params_lookup `{Runtime} (params : gmap string string) :
  match outcome (BaseView.parse_query_params params) with
  | Ok document =>
      dom document = dom params
      ∧ (∀ key, key ≠ "variables" →
                document !! key = VStr <$> params !! key)
      ∧ match params !! "variables" with
        | Some text => json_loads text = document !! "variables"
        | None =>
            document !! "variables" = None
            ∧ trace (BaseView.parse_query_params params) = []
        end
  | Raise e =>
      e = JSONDecodeError
      ∧ ∃ text, params !! "variables" = Some text ∧ json_loads text = None
  end.
Proof.
  unfold BaseView.parse_query_params, loads.
  destruct (params !! "variables") as [text|] eqn:Hv.
  - simpl. destruct (json_loads text) as [decoded|] eqn:Hloads; simpl.
    + split; [|split].
      * rewrite dom_insert_lookup_L, dom_fmap_L; [done|].
        by rewrite lookup_fmap, Hv.
      * intros key Hkey. by rewrite lookup_insert_ne, lookup_fmap.
      * by rewrite lookup_insert_eq.
    + eauto.
  - simpl. split; [by rewrite dom_fmap_L|]. split.
    + intros key _. by rewrite lookup_fmap.
    + by rewrite lookup_fmap, Hv.
Qed.

(** ** The sub-response *)

Section SubResponse.
Context `{Runtime}.

Lemma del_header_gone key headers h :
  h ∈ Asgi.del_header key headers → h.1 ≠ key.
Proof. unfold Asgi.del_header. by intros [? _]%list_elem_of_filter. Qed.

End SubResponse.

(** X15. The sub-response [handle] gives to [get_context] has no status and
    no [content-length] header. So a context builder that leaves it alone
    changes nothing of the protocol response but its headers, which get the
    remaining headers of a fresh response appended, [content-length] not
    among them. *)
Theorem untouched_sub_response `{Runtime} (handler : Asgi.HTTPHandler)
    (request : Request) (protocol : Asgi.Response) :
  (context_phase handler request).2 = Asgi.fresh_sub_response →
  outcome (protocol_response handler request) = Ok protocol →
  Asgi.status_code Asgi.fresh_sub_response = None
  ∧ (∀ h, h ∈ Asgi.headers Asgi.fresh_sub_response → h.1 ≠ "content-length")
  ∧ ∃ response,
      outcome (Asgi.handle handler request) = Ok response
      ∧ Asgi.status_code response = Asgi.status_code protocol
      ∧ Asgi.body response = Asgi.body protocol
      ∧ Asgi.media_type response = Asgi.media_type protocol
      ∧ Asgi.background response = Asgi.background protocol
      ∧ Asgi.headers response
        = Asgi.headers protocol ++ Asgi.headers Asgi.fresh_sub_response.
Proof.
  intros Hcontext Hprotocol. split; [done|]. split.
  - intros h Hh. by apply del_header_gone in Hh.
  - unfold protocol_response in Hprotocol.
    rewrite handle_eq. simpl. rewrite Hprotocol, Hcontext.
    eexists. split; [reflexivity|]. done.
Qed.

(** ** The test client *)

(** X16. In the headers the client sends, a header the caller gives always
    stands as given; [Content-Type: application/json] is there besides only
    for method ["post"] without files (none, or an empty dictionary) and
    only when the caller gave no [Content-Type] under that very name. *)
Theorem get_headers_lookup (method : string)
    (headers : option (gmap string string))
    (files : option (Client.odict UploadedFile)) (name : string) :
  Client._get_headers method headers files !! name
  = match headers ≫= (fun given => given !! name) with
    | Some value => Some value
    | None =>
        if String.eqb name "Content-Type" && String.eqb method "post"
           && negb (Client.truthy files)
        then Some "application/json" else None
    end.
Proof.
  unfold Client._get_headers.
  set (addition_headers :=
         match
           (if String.eqb method "post" && negb (Client.truthy files)
            then Some "application/json" else None)
         with
         | Some content_type => {["Content-Type" := content_type]}
         | None => (∅ : gmap string string)
         end).
  assert (addition_headers !! name
          = if String.eqb name "Content-Type" && String.eqb method "post"
               && negb (Client.truthy files)
            then Some "application/json" else None) as Haddition.
  { subst addition_headers.
    destruct (String.eqb method "post"), (Client.truthy files); simpl;
      rewrite ?andb_false_r, ?lookup_empty; try done.
    destruct (String.eqb name "Content-Type") eqn:Hname; simpl.
    - apply String.eqb_eq in Hname as ->. by rewrite lookup_singleton_eq.
    - apply String.eqb_neq in Hname. by rewrite lookup_singleton_ne. }
  destruct headers as [given|]; simpl; [|done].
  destruct (given !! name) as [value|] eqn:Hgiven.
  - by apply lookup_union_Some_l.
  - by rewrite lookup_union_r.
Qed.

Section FileMap.

Lemma startswith_variables tail :
  Str.startswith ("variables." +:+ tail) "variables." = true.
Proof. simpl. by destruct tail. Qed.

Lemma well_prefixed_nil : well_prefixed [].
Proof. intros entry path Hentry. by apply elem_of_nil in Hentry. Qed.

Lemma well_prefixed_set key tail files_map :
  well_prefixed files_map →
  well_prefixed (Client.od_set key ["variables." +:+ tail] files_map).
Proof.
  intros Hmap. induction files_map as [|[k v] files_map IH]; simpl.
  - intros entry path [->|Hentry%elem_of_nil]%elem_of_cons; [|done].
    intros [->|?%elem_of_nil]%elem_of_cons; [|done].
    apply startswith_variables.
  - assert (well_prefixed files_map) as Htail.
    { intros entry path Hentry. apply Hmap. by right. }
    destruct (String.eqb k key).
    + intros entry path [->|Hentry]%elem_of_cons; [|by apply Htail].
      intros [->|?%elem_of_nil]%elem_of_cons; [|done].
      apply startswith_variables.
    + intros entry path [->|Hentry]%elem_of_cons; [|by apply IH].
      apply (Hmap (k, v)). by left.
Qed.

Lemma well_prefixed_setdefault key files_map :
  well_prefixed files_map →
  well_prefixed (Client.od_setdefault key [] files_map).
Proof.
  intros Hmap. unfold Client.od_setdefault.
  destruct (Client.od_mem key files_map); [done|].
  intros entry path [Hentry|Hentry]%elem_of_app; [by apply Hmap|].
  apply elem_of_cons in Hentry as [->|?%elem_of_nil]; [|done].
  simpl. by intros ?%elem_of_nil.
Qed.

Lemma well_prefixed_append key tail files_map :
  well_prefixed files_map →
  well_prefixed (Client.od_append key ("variables." +:+ tail) files_map).
Proof.
  intros Hmap entry path. unfold Client.od_append.
  intros ([k v] & -> & Hentry)%list_elem_of_fmap. simpl.
  destruct (String.eqb k key); simpl; [|by apply (Hmap (k, v))].
  intros [Hpath|Hpath]%elem_of_app; [by apply (Hmap (k, v))|].
  apply elem_of_cons in Hpath as [->|?%elem_of_nil]; [|done].
  apply startswith_variables.
Qed.

Lemma well_prefixed_number key index values _kwargs files_map result :
  well_prefixed files_map →
  Client.number_files key index values _kwargs files_map = inr result →
  well_prefixed result.
Proof.
  revert index _kwargs files_map.
  induction values as [|value values IH]; intros index _kwargs files_map Hmap;
    simpl.
  - by intros ?; simplify_eq.
  - destruct _kwargs as [|[k f] _kwargs]; [done|].
    apply IH.
    apply (well_prefixed_append k (key +:+ "." +:+ pretty index)).
    by apply well_prefixed_setdefault.
Qed.

Lemma well_prefixed_variables variables files files_map result :
  well_prefixed files_map →
  Client.map_variables variables files files_map = inr result →
  well_prefixed result.
Proof.
  revert files_map.
  induction variables as [|[key values] variables IH]; intros files_map Hmap;
    simpl.
  - by intros ?; simplify_eq.
  - assert (∀ key values,
              match values with
              | Client.OList items =>
                  match Client.number_files key 0 items files files_map with
                  | inl e => inl e
                  | inr files_map =>
                      Client.map_variables variables files files_map
                  end
              | _ =>
                  Client.map_variables variables files
                    (Client.od_set key ["variables." +:+ key] files_map)
              end = inr result → well_prefixed result) as Hstep.
    { intros key' values' Hresult.
      destruct values' as [|s|items|entries];
        try (by apply (IH _ (well_prefixed_set key' key' _ Hmap))).
      destruct (Client.number_files key' 0 items files files_map)
        as [e|files_map'] eqn:Hnumber; [done|].
      apply (IH files_map'); [|done].
      by apply (well_prefixed_number _ _ _ _ _ _ Hmap Hnumber). }
    destruct values as [|s|items|[|[folder_key inner] entries]];
      intros Hresult.
    + exact (Hstep key Client.ONone Hresult).
    + exact (Hstep key (Client.OStr s) Hresult).
    + exact (Hstep key (Client.OList items) Hresult).
    + done.
    + exact (Hstep (key +:+ "." +:+ folder_key) inner Hresult).
Qed.

End FileMap.

(** X17. Every path [_build_multipart_file_map] puts into the file map
    begins with [variables.], whatever the variables and the files are. *)
Theorem file_map_paths_begin_with_variables
    (variables : Client.odict Client.Obj) (files : Client.odict UploadedFile)
    (files_map : Client.odict (list string)) (key path : string)
    (paths : list string) :
  Client._build_multipart_file_map variables files = inr files_map →
  (key, paths) ∈ files_map → path ∈ paths →
  Str.startswith path "variables." = true.
Proof.
  intros Hmap Hentry Hpath.
  apply (well_prefixed_variables _ _ _ _ well_prefixed_nil Hmap (key, paths));
    done.
Qed.

Section Numbering.

Lemma od_mem_fresh {V} key (d : Client.odict V) :
  key ∉ d.*1 → Client.od_mem key d = false.
Proof.
  induction d as [|[k v] d IH]; simpl; [done|].
  intros Hfresh. apply not_elem_of_cons in Hfresh as [Hne Hfresh].
  apply orb_false_iff. split; [|by apply IH].
  apply String.eqb_neq. congruence.
Qed.

Lemma od_pop_fresh {V} key (d : Client.odict V) :
  key ∉ d.*1 → Client.od_pop key d = d.
Proof.
  induction d as [|[k v] d IH]; simpl; [done|].
  intros Hfresh. apply not_elem_of_cons in Hfresh as [Hne Hfresh].
  assert (String.eqb k key = false) as -> by (apply String.eqb_neq; congruence).
  simpl. f_equal. by apply IH.
Qed.

Lemma od_pop_head {V} key (value : V) (d : Client.odict V) :
  key ∉ d.*1 → Client.od_pop key ((key, value) :: d) = d.
Proof.
  intros Hfresh. unfold Client.od_pop. simpl. rewrite String.eqb_refl. simpl.
  by apply od_pop_fresh.
Qed.

Lemma od_set_fresh {V} key (value : V) (d : Client.odict V) :
  key ∉ d.*1 → Client.od_set key value d = d ++ [(key, value)].
Proof.
  induction d as [|[k v] d IH]; simpl; [done|].
  intros Hfresh. apply not_elem_of_cons in Hfresh as [Hne Hfresh].
  assert (String.eqb k key = false) as -> by (apply String.eqb_neq; congruence).
  f_equal. by apply IH.
Qed.

Lemma od_append_fresh key item (d : Client.odict (list string)) :
  key ∉ d.*1 → Client.od_append key item d = d.
Proof.
  induction d as [|[k v] d IH]; simpl; [done|].
  intros Hfresh. apply not_elem_of_cons in Hfresh as [Hne Hfresh].
  assert (String.eqb k key = false) as -> by (apply String.eqb_neq; congruence).
  f_equal. by apply IH.
Qed.

Lemma od_append_last key item paths (d : Client.odict (list string)) :
  key ∉ d.*1 →
  Client.od_append key item (d ++ [(key, paths)]) = d ++ [(key, paths ++ [item])].
Proof.
  intros Hfresh. unfold Client.od_append. rewrite map_app.
  fold (Client.od_append key item d). rewrite (od_append_fresh _ _ _ Hfresh).
  simpl. by rewrite String.eqb_refl.
Qed.

Lemma number_files_fresh key index values files files_map :
  NoDup files.*1 →
  (∀ k, k ∈ files_map.*1 → k ∉ files.*1) →
  Client.number_files key index values files files_map
  = if decide (length values ≤ length files)%nat
    then inr (files_map ++ numbered key index (take (length values) files))
    else inl Client.IndexError.
Proof.
  revert index files files_map.
  induction values as [|value values IH]; intros index files files_map Hfiles
    Hfresh.
  - simpl. by rewrite app_nil_r.
  - destruct files as [|[k f] files]; cbn [Client.number_files].
    + destruct (decide _) as [Hle|_]; [simpl in Hle; lia | done].
    + apply NoDup_cons in Hfiles as [Hk Hfiles].
      assert (k ∉ files_map.*1) as Hnew.
      { intros Hin. apply (Hfresh k Hin). by left. }
      rewrite (od_pop_head _ _ _ Hk).
      unfold Client.od_setdefault. rewrite (od_mem_fresh _ _ Hnew).
      rewrite (od_append_last _ _ _ _ Hnew).
      rewrite IH; [|done|].
      * destruct (decide (length values ≤ length files)%nat) as [Hle|Hgt];
          destruct (decide (length (value :: values)
                            ≤ length ((k, f) :: files))%nat) as [Hle'|Hgt'];
          simpl in *; try lia; [|done].
        unfold numbered. rewrite <- app_assoc. simpl.
        rewrite Nat.add_0_r. do 3 f_equal.
        apply imap_ext. intros i entry _. simpl. by rewrite Nat.add_succ_r.
      * intros k' Hin. rewrite fmap_app in Hin.
        apply elem_of_app in Hin as [Hin|Hin].
        -- intros Hk'. apply (Hfresh k' Hin). by right.
        -- apply elem_of_cons in Hin as [->|?%elem_of_nil]; done.
Qed.

Lemma map_variables_scalars variables files files_map :
  NoDup variables.*1 →
  (∀ k, k ∈ files_map.*1 → k ∉ variables.*1) →
  Forall (fun entry => is_scalar entry.2 = true) variables →
  Client.map_variables variables files files_map
  = inr (files_map
         ++ map (fun entry => (entry.1, ["variables." +:+ entry.1])) variables).
Proof.
  revert files_map.
  induction variables as [|[key value] variables IH];
    intros files_map Hkeys Hfresh Hscalar; simpl.
  - by rewrite app_nil_r.
  - apply NoDup_cons in Hkeys as [Hkey Hkeys].
    apply Forall_cons in Hscalar as [Hvalue Hscalar].
    assert (key ∉ files_map.*1) as Hnew.
    { intros Hin. apply (Hfresh key Hin). by left. }
    assert (Client.map_variables variables files
              (Client.od_set key ["variables." +:+ key] files_map)
            = inr (files_map
                   ++ (key, ["variables." +:+ key])
                      :: map (fun entry =>
                                (entry.1, ["variables." +:+ entry.1]))
                           variables)) as Hstep.
    { rewrite (od_set_fresh _ _ _ Hnew), IH; [by rewrite <- app_assoc|done| |done].
      intros k Hin. rewrite fmap_app in Hin.
      apply elem_of_app in Hin as [Hin|Hin].
      - intros Hk. apply (Hfresh k Hin). by right.
      - apply elem_of_cons in Hin as [->|?%elem_of_nil]; done. }
    by destruct value.
Qed.

End Numbering.

(** X18. For one variable that holds a list of files, directly or as the
    first entry of a dictionary, [_build_multipart_file_map] gives the files
    of the request to the items of the list in their order: the i-th file
    gets the one path [variables.<key>.<i>]. When the list is longer than
    the dictionary of files it raises [IndexError]. *)
Theorem file_map_of_file_list (key folder_key : string)
    (items : list Client.Obj) (entries : Client.odict Client.Obj)
    (files : Client.odict UploadedFile) :
  NoDup files.*1 →
  let expected (key : string) :=
    if decide (length items ≤ length files)%nat
    then inr (numbered key 0 (take (length items) files))
    else inl Client.IndexError in
  Client._build_multipart_file_map [(key, Client.OList items)] files
  = expected key
  ∧ Client._build_multipart_file_map
      [(key, Client.ODict ((folder_key, Client.OList items) :: entries))] files
    = expected (key +:+ "." +:+ folder_key).
Proof.
  intros Hfiles expected. unfold Client._build_multipart_file_map. simpl.
  rewrite !number_files_fresh by (done || by intros k ?%elem_of_nil).
  subst expected. simpl. by destruct (decide _).
Qed.

(** X19. For variables that are all plain values (neither lists nor
    dictionaries), [_build_multipart_file_map] gives each variable one entry,
    under the variable's own name and with the one path [variables.<name>],
    in the order of the variables; the dictionary of files is not looked
    at. *)
Theorem file_map_of_plain_variables (variables : Client.odict Client.Obj)
    (files : Client.odict UploadedFile) :
  NoDup variables.*1 →
  Forall (fun entry => is_scalar entry.2 = true) variables →
  Client._build_multipart_file_map variables files
  = inr (map (fun entry => (entry.1, ["variables." +:+ entry.1])) variables).
Proof.
  intros Hkeys Hscalar. unfold Client._build_multipart_file_map.
  rewrite map_variables_scalars; [done | done | | done].
  by intros k ?%elem_of_nil.
Qed.

(** X20. In a body the client builds for method ["get"], the value under
    [variables] is the JSON text of the variables - never the dictionary
    itself - and it is there exactly when the variables are a non-empty
    dictionary, with files or without. For another method and without
    files, it is the dictionary itself. *)
Theorem build_body_variables (dumps : Client.Obj → string) (query : string)
    (variables : option (Client.odict Client.Obj))
    (files : option (Client.odict UploadedFile)) (method : string)
    (body : Client.odict Client.Obj) :
  Client._build_body dumps (Some query) variables files method
  = inr (Some body) →
  (method = "get" →
   Client.od_get "variables" body
   = if Client.truthy variables
     then Some (Client.OStr (dumps (Client.ODict (default [] variables))))
     else None)
  ∧ (method ≠ "get" → Client.truthy files = false →
     Client.od_get "variables" body
     = if Client.truthy variables
       then Some (Client.ODict (default [] variables))
       else None).
Proof.
  unfold Client._build_body. intros Hbody. split.
  - intros ->. simpl in Hbody.
    destruct (Client.truthy variables) eqn:Hvariables.
    + destruct (Client.truthy files).
      * destruct variables as [variables|]; [|done].
        destruct (Client._build_multipart_file_map _ _); [done|].
        simplify_eq. simpl. reflexivity.
      * simplify_eq. reflexivity.
    + destruct (Client.truthy files).
      * destruct variables as [variables|]; [|done].
        destruct (Client._build_multipart_file_map _ _); [done|].
        by simplify_eq.
      * by simplify_eq.
  - intros Hmethod%String.eqb_neq Hfiles. rewrite Hfiles, Hmethod in Hbody.
    simpl in Hbody. simplify_eq.
    by destruct (Client.truthy variables).
Qed.

(** ** Examples of the further properties *)

Lemma handler_answers_witness :
  outcome (Asgi.get_http_response (Example.handler false true)
             Example.post_text
             (Asgi.execute (Example.handler false true))
             (Asgi.process_result (Example.handler false true))
             None "context")
  = Ok (Asgi.PlainTextResponse "Unsupported Media Type" 415)
  ∧ handler_answer (Example.handler false true)
      (Asgi.process_result (Example.handler false true)) Example.post_text
      (Asgi.PlainTextResponse "Unsupported Media Type" 415).
Proof.
  assert (outcome (Asgi.get_http_response (Example.handler false true)
                     Example.post_text
                     (Asgi.execute (Example.handler false true))
                     (Asgi.process_result (Example.handler false true))
                     None "context")
          = Ok (Asgi.PlainTextResponse "Unsupported Media Type" 415))
    as Hout by reflexivity.
  split; [exact Hout|].
  exact (proj1 (handler_answers (H := Example.runtime)
                  (Example.handler false true) Example.post_text _ _ _ _ _
                  Hout)).
Defined.

Lemma example_engine_raises_no_http_exception
    query root_value variable_values context_value operation_name allowed
    status_code reason :
  Schema.execute_sync (H := Example.runtime) Example.engine query root_value
    variable_values context_value operation_name allowed
  ≠ inl (HTTPException status_code reason).
Proof.
  simpl. unfold Spec.gated_execute, Example.run_operation.
  destruct (bool_decide _); [|discriminate]. by destruct query.
Qed.

Lemma view_errors_witness :
  outcome (BaseView.run (Example.view true) Example.put)
  = Raise (HTTPException 405 "GraphQL only supports GET and POST requests.")
  ∧ view_error (H := Example.runtime) Example.put 405
      "GraphQL only supports GET and POST requests.".
Proof.
  assert (outcome (BaseView.run (Example.view true) Example.put)
          = Raise (HTTPException 405
                     "GraphQL only supports GET and POST requests."))
    as Hout by reflexivity.
  split; [exact Hout|].
  exact (proj1 (view_errors (H := Example.runtime) (Example.view true)
                  Example.put 405
                  "GraphQL only supports GET and POST requests."
                  example_engine_raises_no_http_exception Hout)).
Defined.

Lemma console_only_for_bare_get_witness :
  ConsoleCheck (H := Example.runtime) true
    ∈ trace (Asgi.get_http_response (Example.handler true true)
               Example.bare_get
               (Asgi.execute (Example.handler true true))
               (Asgi.process_result (Example.handler true true))
               None "context")
  ∧ answered (outcome (Asgi.get_http_response (Example.handler true true)
                         Example.bare_get
                         (Asgi.execute (Example.handler true true))
                         (Asgi.process_result (Example.handler true true))
                         None "context"))
    = Some (Some 200, "<html>GraphiQL</html>").
Proof.
  assert (ConsoleCheck (H := Example.runtime) true
            ∈ trace (Asgi.get_http_response (Example.handler true true)
                       Example.bare_get
                       (Asgi.execute (Example.handler true true))
                       (Asgi.process_result (Example.handler true true))
                       None "context")) as Hin.
  { change (ConsoleCheck (H := Example.runtime) true
              ∈ [Admission true; ConsoleCheck true]).
    rewrite !elem_of_cons. tauto. }
  split; [exact Hin|].
  destruct (console_only_for_bare_get (H := Example.runtime)
              (Example.handler true true) Example.bare_get None "context"
              true Hin) as (_ & _ & Hserved).
  destruct (Hserved eq_refl) as (_ & _ & ->). reflexivity.
Defined.

Lemma json_body_fields_witness :
  Str.contains "application/json"
    (default "" (content_type Sample.post_object)) = true
  ∧ executions (trace (BaseView.run (Example.view true) Sample.post_object))
    = [Execute (H := Example.runtime) (request_data_of ∅) "context" None
         {[QUERY; MUTATION]}]
  ∧ executions
      (trace (Asgi.get_http_response (Example.handler false true)
                Sample.post_object
                (Asgi.execute (Example.handler false true))
                (Asgi.process_result (Example.handler false true))
                None "context"))
    = [Execute (H := Example.runtime) (request_data_of ∅) "context" None
         {[QUERY; MUTATION]}].
Proof.
  destruct (json_body_fields (H := Example.runtime) (Example.view true)
              (Example.handler false true) Sample.post_object None "context"
              eq_refl) as [Hsync Hasync].
  split; [reflexivity|]. split.
  - destruct (Hsync eq_refl eq_refl (list_byte_of_string "{}") eq_refl)
      as [_ Htext].
    destruct (Htext "{}" eq_refl) as [_ Hfields].
    exact (Hfields ∅ eq_refl).
  - destruct (Hasync eq_refl) as [_ Htext].
    destruct (Htext "{}" eq_refl) as [_ Hfields].
    exact (Hfields ∅ eq_refl).
Defined.

Lemma json_body_not_object_witness :
  json_loads (Runtime := Sample.runtime) "[]" = Some (VList [])
  ∧ BaseView.run Sample.view Sample.post_list
    = ([Admission true; ConsoleCheck false; CallGetSubResponse;
        ContentTypeDispatch "application/json"; JsonLoads "[]"],
       Raise AttributeError).
Proof.
  split; [reflexivity|].
  apply (json_body_not_object (H := Sample.runtime) Sample.view
           Sample.post_list (list_byte_of_string "[]") "[]" (VList []));
    try reflexivity.
  intros d. discriminate.
Defined.

Lemma json_body_elsewhere_witness :
  (∀ b, data Sample.post_in_body ≠ Some (BodyBytes b))
  ∧ BaseView.read_data (H := Example.runtime) Sample.post_in_body
    = ([ContentTypeDispatch "application/json";
        JsonLoads (BodyBytes (list_byte_of_string "{}"))],
       Ok (VDict ∅)).
Proof.
  assert (∀ b, data Sample.post_in_body ≠ Some (BodyBytes b)) as Hdata
    by (intros b; discriminate).
  split; [exact Hdata|].
  exact (json_body_elsewhere (H := Example.runtime) (Example.view true)
           Sample.post_in_body eq_refl eq_refl eq_refl Hdata).
Defined.

Lemma json_body_read_differently_witness :
  decode_utf8 (Runtime := Example.runtime) (received Sample.post_with_mark)
  ≠ decode_detected (Runtime := Example.runtime)
      (received Sample.post_with_mark)
  ∧ outcome (BaseView.run (Example.view true) Sample.post_with_mark)
    = Raise (HTTPException 400 "Unable to parse request body as JSON")
  ∧ executions
      (trace (Asgi.get_http_response (Example.handler false true)
                Sample.post_with_mark
                (Asgi.execute (Example.handler false true))
                (Asgi.process_result (Example.handler false true))
                None "context"))
    = [Execute (H := Example.runtime) (request_data_of ∅) "context" None
         {[QUERY; MUTATION]}].
Proof.
  split; [discriminate|].
  destruct (json_body_read_differently (H := Example.runtime)
              (Example.view true) (Example.handler false true)
              Sample.post_with_mark None "context"
              (string_of_list_byte (received Sample.post_with_mark)) "{}"
              ∅ {[QUERY; MUTATION]}
              eq_refl eq_refl eq_refl eq_refl eq_refl eq_refl eq_refl eq_refl
              eq_refl) as (Hsync & _ & Hasync).
  split; [exact Hsync | exact Hasync].
Defined.

Lemma multipart_errors_witness :
  Str.startswith (default "" (content_type Sample.post_form))
    "multipart/form-data" = true
  ∧ json_loads (Runtime := Example.runtime) "{" = None
  ∧ transport_error (outcome (BaseView.run (Example.view true)
                                Sample.post_form))
    = Some (400, "Unable to parse request body as JSON")
  ∧ answered (outcome (Asgi.get_http_response (Example.handler false true)
                         Sample.post_form
                         (Asgi.execute (Example.handler false true))
                         (Asgi.process_result (Example.handler false true))
                         None "context"))
    = Some (Some 400, "Unable to parse request body as JSON").
Proof.
  destruct (multipart_errors (H := Example.runtime) (Example.view true)
              (Example.handler false true) Sample.post_form
              (Asgi.execute (Example.handler false true))
              (Asgi.process_result (Example.handler false true))
              None "context" eq_refl eq_refl) as [Hsync Hasync].
  split; [reflexivity|]. split; [reflexivity|]. split.
  - destruct (Hsync eq_refl eq_refl) as [Hoperations _].
    rewrite Hoperations; reflexivity.
  - destruct (Hasync eq_refl eq_refl eq_refl) as [Hoperations _].
    rewrite Hoperations; reflexivity.
Defined.

Lemma untouched_sub_response_witness :
  (context_phase (Example.handler_with Sample.plain_context false true)
     Example.get_hello).2
  = Asgi.fresh_sub_response
  ∧ answered (outcome (Asgi.handle
                         (Example.handler_with Sample.plain_context false true)
                         Example.get_hello))
    = Some (Some 200, "{...}").
Proof.
  split; [reflexivity|].
  destruct (untouched_sub_response (H := Example.runtime)
              (Example.handler_with Sample.plain_context false true)
              Example.get_hello
              (Asgi.make_response (H := Example.runtime)
                 (Some "{...}") 200 (Some "application/json"))
              eq_refl eq_refl)
    as (_ & _ & response & -> & Hstatus & Hbody & _).
  simpl. by rewrite Hstatus, Hbody.
Defined.

Lemma file_map_of_file_list_witness :
  NoDup Sample.two_files.*1
  ∧ Client._build_multipart_file_map
      [("files", Client.OList [Client.ONone; Client.ONone])] Sample.two_files
    = inr [("a.txt", ["variables.files.0"]); ("b.txt", ["variables.files.1"])]
  ∧ Client._build_multipart_file_map
      [("files", Client.OList [Client.ONone; Client.ONone; Client.ONone])]
      Sample.two_files
    = inl Client.IndexError.
Proof.
  assert (NoDup Sample.two_files.*1) as Hfiles.
  { apply NoDup_cons. split; [|apply NoDup_singleton].
    intros Hin%list_elem_of_singleton. discriminate. }
  split; [exact Hfiles|]. split.
  - destruct (file_map_of_file_list "files" ""
                [Client.ONone; Client.ONone] [] Sample.two_files Hfiles)
      as [-> _]. reflexivity.
  - destruct (file_map_of_file_list "files" ""
                [Client.ONone; Client.ONone; Client.ONone] []
                Sample.two_files Hfiles)
      as [-> _]. reflexivity.
Defined.

Lemma file_map_paths_begin_with_variables_witness :
  Client._build_multipart_file_map
    [("folder", Client.ODict [("files", Client.OList [Client.ONone])])]
    Sample.two_files
  = inr [("a.txt", ["variables.folder.files.0"])]
  ∧ Str.startswith "variables.folder.files.0" "variables." = true.
Proof.
  assert (Client._build_multipart_file_map
            [("folder", Client.ODict [("files", Client.OList [Client.ONone])])]
            Sample.two_files
          = inr [("a.txt", ["variables.folder.files.0"])]) as Hmap
    by reflexivity.
  split; [exact Hmap|].
  apply (file_map_paths_begin_with_variables _ _ _ "a.txt"
           "variables.folder.files.0" ["variables.folder.files.0"] Hmap).
  - rewrite list_elem_of_singleton. reflexivity.
  - rewrite list_elem_of_singleton. reflexivity.
Defined.

Lemma file_map_of_plain_variables_witness :
  Client._build_multipart_file_map
    [("textFile", Client.ONone); ("note", Client.OStr "n")] Sample.two_files
  = inr [("textFile", ["variables.textFile"]); ("note", ["variables.note"])].
Proof.
  apply (file_map_of_plain_variables
           [("textFile", Client.ONone); ("note", Client.OStr "n")]
           Sample.two_files).
  - apply NoDup_cons. split; [|apply NoDup_singleton].
    intros Hin%list_elem_of_singleton. discriminate.
  - repeat constructor.
Defined.

Lemma build_body_variables_witness :
  Client._build_body Sample.dumps (Some "{ hello }")
    (Some [("id", Client.OStr "1")]) None "get"
  = inr (Some [("query", Client.OStr "{ hello }");
               ("variables", Client.OStr "{...}")])
  ∧ Client.od_get "variables"
      [("query", Client.OStr "{ hello }"); ("variables", Client.OStr "{...}")]
    = Some (Client.OStr "{...}").
Proof.
  assert (Client._build_body Sample.dumps (Some "{ hello }")
            (Some [("id", Client.OStr "1")]) None "get"
          = inr (Some [("query", Client.OStr "{ hello }");
                       ("variables", Client.OStr "{...}")])) as Hbody
    by reflexivity.
  split; [exact Hbody|].
  destruct (build_body_variables Sample.dumps _ _ _ _ _ Hbody) as [Hget _].
  exact (Hget eq_refl).
Defined.

